(** * Attendance session engine: a shallow embedding of [routes/terminal.routes.js]

    The handlers of the terminal routes are embedded as pure functions
    over an explicit database state.  Every [await]ed storage call is a
    function on that state, every [new Date()] is a reading of a clock
    handed to the handler, and the task given to [setImmediate] is a
    value that the handler returns and that a later step runs.  A
    handler runs from its first line to its response in one step: runs
    are serial, no second request is taken up while one is awaiting.

    Numbers.  The components of a face descriptor are binary64 floats,
    and the descriptor update computes on them as JavaScript does: with
    the rounding, the overflow to infinity, the signed zeros and the NaN
    of IEEE 754.  The confidence score is only tested and compared; it
    is a real number extended with the two infinities and NaN.  Time
    values and the results of [parseInt] are exact integers; they are
    the doubles of the program as long as every intermediate result
    stays below 2^53 in magnitude, and the theorems that depend on
    their arithmetic say for which inputs that is so. *)

From Stdlib Require Import String Ascii List ZArith Bool Arith Lia.
From Stdlib Require Import Reals Lra.
From Stdlib Require Import Floats.
From Stdlib Require DecimalString Permutation Sorted.
Import ListNotations.

Set Warnings "-inexact-float".

Open Scope string_scope.
Open Scope Z_scope.

(* ================================================================= *)
(** ** JavaScript primitives used by the handlers *)

Module JS.

(** *** Numbers that are only tested and compared *)

Inductive num : Type :=
| Fin (x : R)
| Inf (negative : bool)
| NaN.

Definition Rzero (x : R) : bool := if Req_dec_T x 0%R then true else false.

(** [a >= b] on numbers: false as soon as one side is NaN. *)
Definition geb (a b : num) : bool :=
  match a, b with
  | Fin x, Fin y => if Rle_dec y x then true else false
  | Fin _, Inf s => s
  | Inf s, Fin _ => negb s
  | Inf s, Inf s' => negb s || s'
  | _, _ => false
  end.

(** *** Values of a JSON request body, as far as the handlers look at them *)

Inductive value : Type :=
| Undefined
| Null
| Boolean (b : bool)
| Number (x : num)
| Str (s : string).

(** ToBoolean *)
Definition truthy (v : value) : bool :=
  match v with
  | Undefined | Null => false
  | Boolean b => b
  | Number (Fin x) => negb (Rzero x)
  | Number (Inf _) => true
  | Number NaN => false
  | Str s => negb (String.eqb s "")
  end.

(** ToNumber.  The numeric value of a non-empty string is left to
    [strToNumber]. *)
Definition toNumber (strToNumber : string -> num) (v : value) : num :=
  match v with
  | Undefined => NaN
  | Null => Fin 0%R
  | Boolean b => if b then Fin 1%R else Fin 0%R
  | Number x => x
  | Str s => if String.eqb s "" then Fin 0%R else strToNumber s
  end.

(** [a || b] *)
Definition or_else (a b : value) : value := if truthy a then a else b.

(** *** [String.prototype.split] with a one-character separator *)

Fixpoint split (sep : ascii) (s : string) : list string :=
  match s with
  | EmptyString => [EmptyString]
  | String c s' =>
      if Ascii.eqb c sep then EmptyString :: split sep s'
      else match split sep s' with
           | piece :: rest => String c piece :: rest
           | [] => [String c EmptyString]
           end
  end.

(** *** [parseInt] with no radix argument

    The result is [None] for NaN.  A string is a sequence of 8-bit
    characters.  Of the white space that JavaScript skips only the ASCII
    characters are recognised, so this is [parseInt] on ASCII strings;
    a string with a character above 127 in front of its numeral is
    outside the model.  The integer is exact: it is the double that
    JavaScript returns as long as the numeral has at most 15 digits. *)

Definition isWhiteSpace (c : ascii) : bool :=
  let n := nat_of_ascii c in
  (((9 <=? n) && (n <=? 13)) || (n =? 32))%nat.

Fixpoint trimStart (s : string) : string :=
  match s with
  | String c s' => if isWhiteSpace c then trimStart s' else s
  | EmptyString => EmptyString
  end.

Definition digitValue (c : ascii) : option Z :=
  let n := Z.of_nat (nat_of_ascii c) in
  if (48 <=? n) && (n <=? 57) then Some (n - 48)
  else if (97 <=? n) && (n <=? 122) then Some (n - 87)
  else if (65 <=? n) && (n <=? 90) then Some (n - 55)
  else None.

(** Longest prefix of radix-[radix] digits, as an integer; [acc] is
    [None] while no digit has been read. *)
Fixpoint readDigits (radix : Z) (s : string) (acc : option Z) : option Z :=
  match s with
  | EmptyString => acc
  | String c s' =>
      match digitValue c with
      | Some d =>
          if d <? radix
          then readDigits radix s'
                 (Some (match acc with Some a => a * radix + d | None => d end))
          else acc
      | None => acc
      end
  end.

Definition parseInt (s : string) : option Z :=
  let s1 := trimStart s in
  let '(sign, s2) :=
    match s1 with
    | String "-" r => (-1, r)
    | String "+" r => (1, r)
    | _ => (1, s1)
    end in
  let '(radix, s3) :=
    match s2 with
    | String "0" (String "x" r) => (16, r)
    | String "0" (String "X" r) => (16, r)
    | _ => (10, s2)
    end in
  match readDigits radix s3 None with
  | Some n => Some (sign * n)
  | None => None
  end.

(** [parseInt] of a destructured array element: a missing element is
    [undefined], whose string form has no leading digit. *)
Definition parseIntArg (a : option string) : option Z :=
  match a with
  | Some s => parseInt s
  | None => parseInt "undefined"
  end.

(** *** Dates

    A date is its time value in milliseconds since the epoch, [None]
    for an invalid date.  Local time is UTC shifted by a fixed offset
    [tza]; daylight-saving transitions are outside the model.  The
    arithmetic of [MakeTime] and [MakeDate] is exact; JavaScript
    rounds to the nearest double, which is the same number as long as
    hour times 3600000 plus minute times 60000 stays below 2^53 in
    magnitude (any hour and minute of at most nine digits will do). *)

Definition Date : Type := option Z.

Definition msPerDay : Z := 86400000.
Definition msPerHour : Z := 3600000.
Definition msPerMinute : Z := 60000.
Definition msPerSecond : Z := 1000.
Definition maxTime : Z := 8640000000000000.

Definition Day (t : Z) : Z := t / msPerDay.
Definition LocalTime (tza t : Z) : Z := t + tza.
Definition UTC (tza t : Z) : Z := t - tza.

Definition MakeTime (hour min sec ms : option Z) : option Z :=
  match hour, min, sec, ms with
  | Some h, Some m, Some s, Some milli =>
      Some (h * msPerHour + m * msPerMinute + s * msPerSecond + milli)
  | _, _, _, _ => None
  end.

Definition MakeDate (day : Z) (time : option Z) : option Z :=
  match time with
  | Some tm => Some (day * msPerDay + tm)
  | None => None
  end.

Definition TimeClip (time : option Z) : Date :=
  match time with
  | Some t => if Z.abs t >? maxTime then None else Some t
  | None => None
  end.

(** [Date.prototype.setHours(hour, min, sec, ms)] *)
Definition setHours (tza : Z) (d : Date) (hour min sec ms : option Z) : Date :=
  match d with
  | None => None
  | Some t =>
      let date := MakeDate (Day (LocalTime tza t)) (MakeTime hour min sec ms) in
      TimeClip (option_map (UTC tza) date)
  end.

(** [a > b] on dates: both sides become numbers, NaN compares false. *)
Definition dateGt (a b : Date) : bool :=
  match a, b with
  | Some x, Some y => x >? y
  | _, _ => false
  end.

Definition dateEqb (a b : Date) : bool :=
  match a, b with
  | Some x, Some y => x =? y
  | None, None => true
  | _, _ => false
  end.

End JS.


Import JS.

(* ================================================================= *)
(** ** Documents and collections *)

(** Object identifiers are strings.  In a request body the empty string
    also stands for a field that is missing: both are falsy. *)
Definition ObjectId : Type := string.

Definition falsy (id : ObjectId) : bool := String.eqb id "".

Module Attendance.
Record t : Type := mk {
  _id : nat;
  studentRef : ObjectId;
  courseRef : ObjectId;
  classRef : ObjectId;
  status : string;
  confidenceScore : value;
  markedBy : string;
  sessionDate : Date;
  timestamp : Date
}.

(** What [.select('studentRef').lean()] returns for a document: its
    [_id] and [studentRef]; any other field reads as [undefined]. *)
Record selected : Type := mkSelected {
  sel_id : nat;
  sel_studentRef : ObjectId;
  sel_status : option string
}.

Definition select_studentRef (a : t) : selected :=
  {| sel_id := _id a; sel_studentRef := studentRef a; sel_status := None |}.
End Attendance.

Module Student.
Record t : Type := mk {
  _id : ObjectId;
  classRef : ObjectId;
  isEnrolled : bool;
  fullName : string;
  rollNo : string;
  faceDescriptor : option (list float);
  lastDescriptorUpdate : Date;
  descriptorUpdateCount : Z
}.
End Student.

Module Settings.
Record t : Type := mk {
  userId : ObjectId;
  userModel : string;
  lateCutoffTime : string
}.
End Settings.

(** [req.session]: the empty [userModel] stands for an unset one. *)
Record Session : Type := mkSession {
  sess_userId : ObjectId;
  sess_userModel : string;
  cachedSettings : option Settings.t
}.

(** The collections, in insertion order.  The Attendance collection
    carries no uniqueness constraint of its own: the key
    (student, course, day) is guarded by the handlers' existence checks
    only. *)
Record Db : Type := mkDb {
  attendances : list Attendance.t;
  nextId : nat;
  students : list Student.t;
  settings : list Settings.t
}.

(** What the handlers take from outside the sources at hand: the time
    zone of the server, the language's string-to-number conversion, the
    default cut-off of a fresh Settings document and the cast that the
    Student schema applies to a descriptor on update ([None] when the
    cast rejects it and the update throws). *)
Record Env : Type := mkEnv {
  LocalTZA : Z;
  StringToNumber : string -> num;
  defaultLateCutoffTime : string;
  castDescriptor : list float -> option (list float)
}.

(** The [k]-th [new Date()] evaluated by one run of a handler. *)
Definition Clock : Type := nat -> Z.

(** Request bodies *)
Record MarkBody : Type := mkMarkBody {
  mb_studentId : ObjectId;
  mb_courseId : ObjectId;
  mb_classId : ObjectId;
  mb_confidenceScore : value;
  mb_faceDescriptor : option (list float)   (* [None]: falsy or not an array *)
}.

Record ManualBody : Type := mkManualBody {
  mm_studentId : ObjectId;
  mm_courseId : ObjectId;
  mm_classId : ObjectId;
  mm_status : string
}.

Record EndSessionBody : Type := mkEndSessionBody {
  es_classId : ObjectId;
  es_courseId : ObjectId;
  es_markAbsent : option bool   (* [None]: absent from the body, defaults to true *)
}.

(** Responses: the status code of an error and the fields of the JSON
    bodies that the properties below speak about. *)
Inductive Response : Type :=
| Error (code : Z) (error : string) (alreadyMarked : bool)
| Marked (attendance : Attendance.t) (fullName rollNo : string)
| SessionEnded (totalStudents presentCount absentCount : nat)
               (unmarkedStudents : list Student.t)
| UnmarkedStudents (unmarkedStudents : list Student.t)
                   (totalStudents markedCount : nat)
| Cancelled (deletedAttendance : Attendance.t).

(** The closure handed to [setImmediate] by the marking handler. *)
Record FusionTask : Type := mkFusionTask {
  ft_studentId : ObjectId;
  ft_existingDescriptor : list float;
  ft_faceDescriptor : list float
}.

(* ================================================================= *)
(** ** Storage operations *)

Definition sameKey (studentId courseId : ObjectId) (day : Date)
    (a : Attendance.t) : bool :=
  String.eqb (Attendance.studentRef a) studentId
  && String.eqb (Attendance.courseRef a) courseId
  && dateEqb (Attendance.sessionDate a) day.

Definition sameSession (courseId classId : ObjectId) (day : Date)
    (a : Attendance.t) : bool :=
  String.eqb (Attendance.courseRef a) courseId
  && String.eqb (Attendance.classRef a) classId
  && dateEqb (Attendance.sessionDate a) day.

(** [Attendance.findOne({studentRef, courseRef, sessionDate})] *)
Definition Attendance_findOne (db : Db) (studentId courseId : ObjectId)
    (day : Date) : option Attendance.t :=
  find (sameKey studentId courseId day) (attendances db).

(** [Attendance.find({courseRef, classRef, sessionDate}).select('studentRef')] *)
Definition Attendance_find_selected (db : Db) (courseId classId : ObjectId)
    (day : Date) : list Attendance.selected :=
  map Attendance.select_studentRef
      (filter (sameSession courseId classId day) (attendances db)).

(** Modelled from the spec: the Attendance schema is not among the
    sources.  The one-record-per-key invariant is "originally enforced
    only by a best-effort existence check", so [Attendance.create(doc)]
    stores the document as given, under a fresh [_id]. *)
Definition Attendance_create (db : Db)
    (doc : nat -> Attendance.t) : Attendance.t * Db :=
  let a := doc (nextId db) in
  (a, {| attendances := attendances db ++ [a];
         nextId := S (nextId db);
         students := students db;
         settings := settings db |}).

(** [Attendance.insertMany(docs)] *)
Fixpoint Attendance_insertMany (db : Db)
    (docs : list (nat -> Attendance.t)) : Db :=
  match docs with
  | [] => db
  | doc :: rest => Attendance_insertMany (snd (Attendance_create db doc)) rest
  end.

Fixpoint removeFirst {A : Type} (p : A -> bool) (l : list A) : list A :=
  match l with
  | [] => []
  | x :: r => if p x then r else x :: removeFirst p r
  end.

(** [Attendance.findByIdAndDelete(id)] *)
Definition Attendance_findByIdAndDelete (db : Db) (id : nat)
    : option Attendance.t * Db :=
  let hasId := fun a => Nat.eqb (Attendance._id a) id in
  match find hasId (attendances db) with
  | Some a =>
      (Some a, {| attendances := removeFirst hasId (attendances db);
                  nextId := nextId db;
                  students := students db;
                  settings := settings db |})
  | None => (None, db)
  end.

(** [Student.find({classRef, isEnrolled: true})] *)
Definition Student_find_enrolled (db : Db) (classId : ObjectId)
    : list Student.t :=
  filter (fun s => String.eqb (Student.classRef s) classId
                   && Student.isEnrolled s)
         (students db).

(** [Student.findById(id)] *)
Definition Student_findById (db : Db) (id : ObjectId) : option Student.t :=
  find (fun s => String.eqb (Student._id s) id) (students db).

Fixpoint updateFirst {A : Type} (p : A -> bool) (f : A -> A) (l : list A)
    : list A :=
  match l with
  | [] => []
  | x :: r => if p x then f x :: r else x :: updateFirst p f r
  end.

(** [Student.findByIdAndUpdate(id, {faceDescriptor, lastDescriptorUpdate,
    $inc: {descriptorUpdateCount: 1}})] once the descriptor has been
    cast. *)
Definition Student_updateDescriptor (db : Db) (id : ObjectId)
    (descriptor : list float) (at_ : Date) : Db :=
  {| attendances := attendances db;
     nextId := nextId db;
     students :=
       updateFirst (fun s => String.eqb (Student._id s) id)
         (fun s => {| Student._id := Student._id s;
                      Student.classRef := Student.classRef s;
                      Student.isEnrolled := Student.isEnrolled s;
                      Student.fullName := Student.fullName s;
                      Student.rollNo := Student.rollNo s;
                      Student.faceDescriptor := Some descriptor;
                      Student.lastDescriptorUpdate := at_;
                      Student.descriptorUpdateCount :=
                        Student.descriptorUpdateCount s + 1 |})
         (students db);
     settings := settings db |}.

(** [Settings.findOne({userId, userModel})] *)
Definition Settings_findOne (db : Db) (userId : ObjectId) (userModel : string)
    : option Settings.t :=
  find (fun s => String.eqb (Settings.userId s) userId
                 && String.eqb (Settings.userModel s) userModel)
       (settings db).

(** [Settings.create({userId, userModel})]: the cut-off takes the
    schema's default. *)
Definition Settings_create (env : Env) (db : Db) (userId : ObjectId)
    (userModel : string) : Settings.t * Db :=
  let s := {| Settings.userId := userId;
              Settings.userModel := userModel;
              Settings.lateCutoffTime := defaultLateCutoffTime env |} in
  (s, {| attendances := attendances db;
         nextId := nextId db;
         students := students db;
         settings := settings db ++ [s] |}).

(* ================================================================= *)
(** ** The handlers *)

(** [new Set(ids)], [set.has(id)] and [set.size] *)
Definition Set_of (ids : list string) : list string := nodup string_dec ids.
Definition Set_has (set : list string) (id : string) : bool :=
  existsb (String.eqb id) set.

(** [list.map((x, i) => f x i)] *)
Fixpoint mapi_from {A B : Type} (f : A -> nat -> B) (i : nat) (l : list A)
    : list B :=
  match l with
  | [] => []
  | x :: r => f x i :: mapi_from f (S i) r
  end.
Definition mapi {A B : Type} (f : A -> nat -> B) (l : list A) : list B :=
  mapi_from f 0%nat l.

(** *** Descriptor update (the body of the [setImmediate] callback)

    The arithmetic is that of binary64 floats: [*], [+], [-], [/] and
    [Math.sqrt] round to the nearest double, overflow to an infinity
    and give NaN for 0/0. *)

(** [const alpha = 0.15], the double nearest to 0.15. *)
Definition alpha : float := 0.15%float.

(** [observed[i]] as an operand of [*]: out of range it is [undefined],
    which multiplies to NaN. *)
Definition at_index (observed : list float) (i : nat) : float :=
  nth i observed nan.

(** [existingDescriptor.map((oldVal, i) =>
       oldVal * (1 - alpha) + faceDescriptor[i] * alpha)].  The local
    constant of the callback is the first argument here; the callback
    below is the only caller and passes [alpha]. *)
Definition blend (weight : float) (existing observed : list float)
    : list float :=
  mapi (fun oldVal i =>
          (oldVal * (1 - weight) + at_index observed i * weight)%float)
       existing.

(** [Math.sqrt(v.reduce((sum, val) => sum + val * val, 0))], with
    [Math.sqrt] the correctly rounded square root that the engines
    compute. *)
Definition magnitude (v : list float) : float :=
  PrimFloat.sqrt (fold_left (fun sum val => (sum + val * val)%float) v 0%float).

(** [v.map(val => val / magnitude)] *)
Definition normalize (v : list float) : list float :=
  map (fun val => (val / magnitude v)%float) v.

Definition fuse (weight : float) (existing observed : list float)
    : list float :=
  normalize (blend weight existing observed).

Section Handlers.

Variable env : Env.

Definition startOfDay (t : Z) : Date :=
  setHours (LocalTZA env) (Some t) (Some 0) (Some 0) (Some 0) (Some 0).

(** The callback: blend, normalise, update the student.  A cast error
    thrown by the update is caught and logged; the store is then left
    as it was. *)
Definition runFusion (now : Z) (task : FusionTask) (db : Db) : Db :=
  let updatedDescriptor :=
    blend alpha (ft_existingDescriptor task) (ft_faceDescriptor task) in
  let normalizedDescriptor := normalize updatedDescriptor in
  match castDescriptor env normalizedDescriptor with
  | Some d => Student_updateDescriptor db (ft_studentId task) d (Some now)
  | None => db
  end.

(** *** Status of a recognised event (lines 110-114) *)
Definition classify (lateCutoffTime : string) (now : Z) : string :=
  let parts := split ":" lateCutoffTime in
  let cutoffHours := nth_error parts 0 in
  let cutoffMinutes := nth_error parts 1 in
  let cutoffTime :=
    setHours (LocalTZA env) (Some now)
      (parseIntArg cutoffHours) (parseIntArg cutoffMinutes) (Some 0) (Some 0) in
  if dateGt (Some now) cutoffTime then "late" else "present".

(** Settings of the logged-in user, cached in the session. *)
Definition loadSettings (session : Session) (db : Db)
    : Settings.t * Session * Db :=
  let userModel :=
    if String.eqb (sess_userModel session) "" then "Teacher"
    else sess_userModel session in
  let userId := sess_userId session in
  match cachedSettings session with
  | Some s => (s, session, db)
  | None =>
      let '(s, db') :=
        match Settings_findOne db userId userModel with
        | Some s => (s, db)
        | None => Settings_create env db userId userModel
        end in
      (s, {| sess_userId := sess_userId session;
             sess_userModel := sess_userModel session;
             cachedSettings := Some s |}, db')
  end.

(** The gate in front of the descriptor update (lines 137-140). *)
Definition fusionTask (body : MarkBody) (student : Student.t)
    : option FusionTask :=
  match mb_faceDescriptor body with
  | Some faceDescriptor =>
      if (length faceDescriptor =? 128)%nat
         && geb (toNumber (StringToNumber env) (mb_confidenceScore body))
                (Fin (6 / 10)%R)
      then match Student.faceDescriptor student with
           | Some existingDescriptor =>
               if (length existingDescriptor =? 128)%nat
               then Some {| ft_studentId := mb_studentId body;
                            ft_existingDescriptor := existingDescriptor;
                            ft_faceDescriptor := faceDescriptor |}
               else None
           | None => None
           end
      else None
  | None => None
  end.

(** The document handed to [Attendance.create] (lines 124-133). *)
Definition biometricDoc (body : MarkBody) (status : string)
    (sessionDate : Date) (timestamp : Z) (id : nat) : Attendance.t :=
  {| Attendance._id := id;
     Attendance.studentRef := mb_studentId body;
     Attendance.courseRef := mb_courseId body;
     Attendance.classRef := mb_classId body;
     Attendance.status := status;
     Attendance.confidenceScore :=
       or_else (mb_confidenceScore body) (Number (Fin 0%R));
     Attendance.markedBy := "facial_recognition";
     Attendance.sessionDate := sessionDate;
     Attendance.timestamp := Some timestamp |}.

(** *** POST /api/mark-attendance *)
Definition markAttendance (clk : Clock) (body : MarkBody)
    (session : Session) (db : Db)
    : Response * Session * Db * option FusionTask :=
  let studentId := mb_studentId body in
  let courseId := mb_courseId body in
  let classId := mb_classId body in
  if falsy studentId || falsy courseId || falsy classId
  then (Error 400 "Missing required fields" false, session, db, None)
  else
    let sessionDate := startOfDay (clk 0%nat) in
    match Attendance_findOne db studentId courseId sessionDate with
    | Some _ => (Error 400 "Attendance already marked" true, session, db, None)
    | None =>
        let '(settings, session1, db1) := loadSettings session db in
        let now := clk 1%nat in
        let status := classify (Settings.lateCutoffTime settings) now in
        match Student_findById db1 studentId with
        | None => (Error 404 "Student not found" false, session1, db1, None)
        | Some student =>
            let '(attendance, db2) :=
              Attendance_create db1
                (biometricDoc body status sessionDate (clk 2%nat)) in
            (Marked attendance (Student.fullName student) (Student.rollNo student),
             session1, db2, fusionTask body student)
        end
    end.

(** The document handed to [Attendance.create] (lines 299-308). *)
Definition manualDoc (body : ManualBody) (sessionDate : Date) (timestamp : Z)
    (id : nat) : Attendance.t :=
  {| Attendance._id := id;
     Attendance.studentRef := mm_studentId body;
     Attendance.courseRef := mm_courseId body;
     Attendance.classRef := mm_classId body;
     Attendance.status := mm_status body;
     Attendance.confidenceScore :=
       if String.eqb (mm_status body) "absent" then Number (Fin 0%R)
       else Number (Fin 1%R);
     Attendance.markedBy := "manual";
     Attendance.sessionDate := sessionDate;
     Attendance.timestamp := Some timestamp |}.

(** *** POST /api/manual-mark-attendance

    When the student does not resolve, reading [student.fullName]
    throws after the record has been created: the handler answers 500
    and the record stays. *)
Definition manualMarkAttendance (clk : Clock) (body : ManualBody) (db : Db)
    : Response * Db :=
  let studentId := mm_studentId body in
  let courseId := mm_courseId body in
  let classId := mm_classId body in
  let status := mm_status body in
  if falsy studentId || falsy courseId || falsy classId || String.eqb status ""
  then (Error 400 "Missing required fields" false, db)
  else if negb (existsb (String.eqb status) ["present"; "late"; "absent"])
  then (Error 400 "Invalid status. Must be present, late, or absent" false, db)
  else
    let sessionDate := startOfDay (clk 0%nat) in
    match Attendance_findOne db studentId courseId sessionDate with
    | Some _ =>
        (Error 400 "Attendance already marked for this student" true, db)
    | None =>
        let '(attendance, db1) :=
          Attendance_create db (manualDoc body sessionDate (clk 1%nat)) in
        match Student_findById db1 studentId with
        | Some student =>
            (Marked attendance (Student.fullName student) (Student.rollNo student),
             db1)
        | None =>
            (Error 500 "Cannot read properties of null (reading 'fullName')" false,
             db1)
        end
    end.

(** Students of the class without a record for the course today
    (shared by the two handlers below, lines 238-255 and 339-356). *)
Definition markedToday (db : Db) (classId courseId : ObjectId) (day : Date)
    : list Attendance.selected :=
  Attendance_find_selected db courseId classId day.

Definition unmarkedOf (allStudents : list Student.t)
    (markedAttendance : list Attendance.selected) : list Student.t :=
  let markedStudentIds :=
    Set_of (map Attendance.sel_studentRef markedAttendance) in
  filter (fun student => negb (Set_has markedStudentIds (Student._id student)))
         allStudents.

(** *** GET /api/unmarked-students/:classId/:courseId *)
Definition unmarkedStudents (clk : Clock) (classId courseId : ObjectId)
    (db : Db) : Response :=
  if falsy classId || falsy courseId
  then Error 400 "Class ID and Course ID are required" false
  else
    let sessionDate := startOfDay (clk 0%nat) in
    let allStudents := Student_find_enrolled db classId in
    let markedAttendance := markedToday db classId courseId sessionDate in
    UnmarkedStudents (unmarkedOf allStudents markedAttendance)
      (length allStudents)
      (length (Set_of (map Attendance.sel_studentRef markedAttendance))).

(** [a.status !== 'absent'] on a selected document *)
Definition notAbsent (a : Attendance.selected) : bool :=
  match Attendance.sel_status a with
  | Some s => negb (String.eqb s "absent")
  | None => true
  end.

(** One element of [absentRecords] (lines 362-371). *)
Definition absentDoc (classId courseId : ObjectId) (sessionDate : Date)
    (clk : Clock) (student : Student.t) (i : nat) (id : nat) : Attendance.t :=
  {| Attendance._id := id;
     Attendance.studentRef := Student._id student;
     Attendance.courseRef := courseId;
     Attendance.classRef := classId;
     Attendance.status := "absent";
     Attendance.confidenceScore := Number (Fin 0%R);
     Attendance.markedBy := "system";
     Attendance.sessionDate := sessionDate;
     Attendance.timestamp := Some (clk (S i)) |}.

(** *** POST /api/end-session *)
Definition endSession (clk : Clock) (body : EndSessionBody) (db : Db)
    : Response * Db :=
  let classId := es_classId body in
  let courseId := es_courseId body in
  let markAbsent :=
    match es_markAbsent body with Some b => b | None => true end in
  if falsy classId || falsy courseId
  then (Error 400 "Class ID and Course ID are required" false, db)
  else
    let sessionDate := startOfDay (clk 0%nat) in
    let allStudents := Student_find_enrolled db classId in
    let markedAttendance := markedToday db classId courseId sessionDate in
    let unmarked := unmarkedOf allStudents markedAttendance in
    let '(markedAbsentCount, db1) :=
      if markAbsent && (0 <? length unmarked)%nat
      then
        let absentRecords :=
          mapi (absentDoc classId courseId sessionDate clk) unmarked in
        (length unmarked, Attendance_insertMany db absentRecords)
      else (0%nat, db) in
    (SessionEnded (length allStudents)
                  (length (filter notAbsent markedAttendance))
                  markedAbsentCount
                  unmarked,
     db1).

(** *** DELETE /api/cancel-attendance/:attendanceId *)
Definition cancelAttendance (attendanceId : nat) (db : Db) : Response * Db :=
  match Attendance_findByIdAndDelete db attendanceId with
  | (Some deletedAttendance, db1) => (Cancelled deletedAttendance, db1)
  | (None, db1) => (Error 404 "Attendance record not found" false, db1)
  end.

(* ================================================================= *)
(** ** The engine as a transition system

    One step is one request handled from its first line to its
    response, or one scheduled callback run to its end.  A run is
    therefore serial: no handler starts while another one is
    suspended at an [await]. *)

Record State : Type := mkState {
  st_db : Db;
  st_session : Session;
  st_pending : list FusionTask
}.

Inductive Op : Type :=
| MarkBiometric (clk : Clock) (body : MarkBody)
| MarkManual (clk : Clock) (body : ManualBody)
| Finalize (clk : Clock) (body : EndSessionBody)
| Cancel (attendanceId : nat)
| RunPending (now : Z).   (* the event loop runs the oldest scheduled callback *)

Definition step (op : Op) (st : State) : option Response * State :=
  match op with
  | MarkBiometric clk body =>
      let '(r, session, db, task) :=
        markAttendance clk body (st_session st) (st_db st) in
      (Some r, {| st_db := db; st_session := session;
                  st_pending := st_pending st ++
                                match task with Some t => [t] | None => [] end |})
  | MarkManual clk body =>
      let '(r, db) := manualMarkAttendance clk body (st_db st) in
      (Some r, {| st_db := db; st_session := st_session st;
                  st_pending := st_pending st |})
  | Finalize clk body =>
      let '(r, db) := endSession clk body (st_db st) in
      (Some r, {| st_db := db; st_session := st_session st;
                  st_pending := st_pending st |})
  | Cancel attendanceId =>
      let '(r, db) := cancelAttendance attendanceId (st_db st) in
      (Some r, {| st_db := db; st_session := st_session st;
                  st_pending := st_pending st |})
  | RunPending now =>
      match st_pending st with
      | task :: rest =>
          (None, {| st_db := runFusion now task (st_db st);
                    st_session := st_session st;
                    st_pending := rest |})
      | [] => (None, st)
      end
  end.

Definition run (ops : list Op) (st : State) : State :=
  fold_left (fun s op => snd (step op s)) ops st.

(** Number of records held for a key. *)
Definition recordsFor (db : Db) (studentId courseId : ObjectId) (day : Date)
    : nat :=
  length (filter (sameKey studentId courseId day) (attendances db)).

End Handlers.

(* ================================================================= *)
(** ** The read-only routes of the terminal *)

(** *** GET /api/today-attendance/:courseId *)

(** One element of the answer: the record, with the populated student
    replaced by its identifier and repeated under [student]. *)
Record TodayEntry : Type := mkTodayEntry {
  te_record : Attendance.t;
  te_studentId : ObjectId;
  te_fullName : string;
  te_rollNo : string
}.

Inductive TodayResponse : Type :=
| TodayError (code : Z) (error : string)
| TodayAttendance (attendance : list TodayEntry).

(** Order of timestamps in a sort: an invalid date sorts lowest. *)
Definition dateLeb (a b : Date) : bool :=
  match a, b with
  | None, _ => true
  | Some _, None => false
  | Some x, Some y => x <=? y
  end.

(** [.sort({ timestamp: -1 })].  Among equal timestamps the order is
    the storage engine's; the model keeps the order of insertion. *)
Fixpoint insertByTimestamp (a : Attendance.t) (l : list Attendance.t)
    : list Attendance.t :=
  match l with
  | [] => [a]
  | b :: r =>
      if dateLeb (Attendance.timestamp b) (Attendance.timestamp a)
      then a :: l
      else b :: insertByTimestamp a r
  end.

Definition sortByTimestampDesc (l : list Attendance.t) : list Attendance.t :=
  fold_right insertByTimestamp [] l.

(** [Attendance.find({courseRef, sessionDate})] *)
Definition Attendance_find_course (db : Db) (courseId : ObjectId) (day : Date)
    : list Attendance.t :=
  filter (fun a => String.eqb (Attendance.courseRef a) courseId
                   && dateEqb (Attendance.sessionDate a) day)
         (attendances db).

(** [.populate('studentRef', 'fullName rollNo')] on one record, then the
    filter and the map of lines 206-216: a record whose student does
    not resolve is dropped. *)
Definition formatRecord (db : Db) (record : Attendance.t) : list TodayEntry :=
  match Student_findById db (Attendance.studentRef record) with
  | Some student =>
      [ {| te_record := record;
           te_studentId := Student._id student;
           te_fullName := Student.fullName student;
           te_rollNo := Student.rollNo student |} ]
  | None => []
  end.

(** *** GET /api/teacher-data *)

(** The Class schema is not among the sources; of a class document the
    route reads the five fields below.  The semester is an integer, as
    POST /api/classes stores [parseInt(semester)]. *)
Module Class.
Record t : Type := mk {
  _id : ObjectId;
  name : string;
  semester : Z;
  section : string;
  department : string
}.
End Class.

Module Course.
Record t : Type := mk {
  _id : ObjectId;
  name : string;
  code : string;
  classRef : ObjectId;
  instructorRef : ObjectId
}.
End Course.

Record Catalog : Type := mkCatalog {
  classes : list Class.t;
  courses : list Course.t
}.

Record CourseSummary : Type := mkCourseSummary {
  cs_id : ObjectId;
  cs_name : string;
  cs_code : string
}.

(** A value of [classesMap]. *)
Record ClassEntry : Type := mkClassEntry {
  ce_id : ObjectId;
  ce_name : string;
  ce_semester : Z;
  ce_section : string;
  ce_department : string;
  ce_displayName : string;
  ce_courses : list CourseSummary
}.

Inductive TeacherDataResponse : Type :=
| TeacherDataError (code : Z) (error : string)
| TeacherData (classes : list ClassEntry).

(** A course as [Course.find(...).populate('classRef', ...)] returns
    it: the class document, or null when the class does not resolve. *)
Definition populated : Type := (Course.t * option Class.t)%type.

(** [Course.find({ instructorRef: teacherId }).populate('classRef', ...)] *)
Definition Course_find_populated (catalog : Catalog) (teacherId : ObjectId)
    : list populated :=
  map (fun c =>
         (c, find (fun k => String.eqb (Class._id k) (Course.classRef c))
                  (classes catalog)))
      (filter (fun c => String.eqb (Course.instructorRef c) teacherId)
              (courses catalog)).

(** The semester inside the template string: the decimal digits of an
    integer.  That is how JavaScript prints a Number that is a safe
    integer; beyond 2^53 it prints fewer digits and from 1e21 on the
    exponent form, which is outside the model. *)
Definition showNumber (n : Z) : string :=
  DecimalString.NilZero.string_of_int (Z.to_int n).

Definition summaryOf (c : Course.t) : CourseSummary :=
  {| cs_id := Course._id c; cs_name := Course.name c; cs_code := Course.code c |}.

(** [classesMap.has(classId)]: the map is the list of its values in
    insertion order, keyed by [ce_id]. *)
Definition Map_has (classesMap : list ClassEntry) (classId : ObjectId) : bool :=
  existsb (fun e => String.eqb (ce_id e) classId) classesMap.

(** [classesMap.get(classId).courses.push(summary)] *)
Fixpoint Map_push (classesMap : list ClassEntry) (classId : ObjectId)
    (summary : CourseSummary) : list ClassEntry :=
  match classesMap with
  | [] => []
  | e :: r =>
      if String.eqb (ce_id e) classId
      then {| ce_id := ce_id e;
              ce_name := ce_name e;
              ce_semester := ce_semester e;
              ce_section := ce_section e;
              ce_department := ce_department e;
              ce_displayName := ce_displayName e;
              ce_courses := (ce_courses e ++ [summary])%list |} :: r
      else e :: Map_push r classId summary
  end.

(** The body of the loop (lines 18-38); [None] when reading
    [course.classRef._id] throws. *)
Definition groupCourse (classesMap : list ClassEntry) (course : populated)
    : option (list ClassEntry) :=
  match snd course with
  | None => None
  | Some k =>
      let classId := Class._id k in
      let classesMap1 :=
        if Map_has classesMap classId then classesMap
        else (classesMap ++
             [ {| ce_id := Class._id k;
                  ce_name := Class.name k;
                  ce_semester := Class.semester k;
                  ce_section := Class.section k;
                  ce_department := Class.department k;
                  ce_displayName :=
                    Class.name k ++ " " ++ showNumber (Class.semester k)
                    ++ " - " ++ Class.section k;
                  ce_courses := [] |} ])%list in
      Some (Map_push classesMap1 classId (summaryOf (fst course)))
  end.

Definition groupCourses (found : list populated) (classesMap : list ClassEntry)
    : option (list ClassEntry) :=
  fold_left (fun acc course =>
               match acc with
               | Some m => groupCourse m course
               | None => None
               end)
            found (Some classesMap).

Definition teacherData (teacherId : ObjectId) (catalog : Catalog)
    : TeacherDataResponse :=
  match groupCourses (Course_find_populated catalog teacherId) [] with
  | Some classesMap => TeacherData classesMap
  | None => TeacherDataError 500 "Cannot read properties of null (reading '_id')"
  end.

(* ================================================================= *)
(** ** The settings routes *)

(** [req.session] as the settings routes read it; an empty field stands
    for an unset one. *)
Record SettingsSession : Type := mkSettingsSession {
  ss_userId : ObjectId;
  ss_role : string
}.

Inductive SettingsResponse : Type :=
| SettingsError (code : Z) (error : string)
| SettingsFound (settings : Settings.t).

(** The two guards that open each settings route. *)
Definition settingsGuard (session : SettingsSession) : option SettingsResponse :=
  if falsy (ss_userId session) || falsy (ss_role session)
  then Some (SettingsError 401 "Not authenticated")
  else if negb (String.eqb (ss_role session) "admin")
          && negb (String.eqb (ss_role session) "teacher")
  then Some (SettingsError 403 "Access denied")
  else None.

Definition settingsUserModel (session : SettingsSession) : string :=
  if String.eqb (ss_role session) "admin" then "Admin" else "Teacher".

(** [Settings.deleteOne({userId, userModel})] *)
Definition Settings_deleteOne (db : Db) (userId : ObjectId) (userModel : string)
    : Db :=
  {| attendances := attendances db;
     nextId := nextId db;
     students := students db;
     settings :=
       removeFirst (fun s => String.eqb (Settings.userId s) userId
                             && String.eqb (Settings.userModel s) userModel)
                   (settings db) |}.

Section MoreHandlers.

Variable env : Env.

(** *** GET /api/today-attendance/:courseId *)
Definition todayAttendance (clk : Clock) (courseId : ObjectId) (db : Db)
    : TodayResponse :=
  if falsy courseId then TodayError 400 "Course ID is required"
  else
    let sessionDate := startOfDay env (clk 0%nat) in
    let attendance :=
      firstn 100
        (sortByTimestampDesc (Attendance_find_course db courseId sessionDate)) in
    TodayAttendance (flat_map (formatRecord db) attendance).

(** *** GET /api/settings *)
Definition getSettings (session : SettingsSession) (db : Db)
    : SettingsResponse * Db :=
  match settingsGuard session with
  | Some refusal => (refusal, db)
  | None =>
      let userModel := settingsUserModel session in
      match Settings_findOne db (ss_userId session) userModel with
      | Some s => (SettingsFound s, db)
      | None =>
          let '(s, db1) := Settings_create env db (ss_userId session) userModel in
          (SettingsFound s, db1)
      end
  end.

(** *** POST /api/settings/reset *)
Definition resetSettings (session : SettingsSession) (db : Db)
    : SettingsResponse * Db :=
  match settingsGuard session with
  | Some refusal => (refusal, db)
  | None =>
      let userModel := settingsUserModel session in
      let db1 := Settings_deleteOne db (ss_userId session) userModel in
      let '(s, db2) := Settings_create env db1 (ss_userId session) userModel in
      (SettingsFound s, db2)
  end.

End MoreHandlers.

(* ================================================================= *)
(** ** Specification-side vocabulary *)

(** The cut-off instant in the words of the specification: the date of
    the event's own local day combined with the hour and minute at zero
    seconds. *)
Definition cutoffInstant (tza now h m : Z) : Z :=
  UTC tza (Day (LocalTime tza now) * msPerDay + h * msPerHour + m * msPerMinute).

(** The instant at local time h:m:s of local day number [day]. *)
Definition localInstant (tza day h m s : Z) : Z :=
  UTC tza (day * msPerDay + h * msPerHour + m * msPerMinute + s * msPerSecond).

Definition digit (n : Z) : ascii := ascii_of_nat (48 + Z.to_nat n).
Definition twoDigits (n : Z) : string :=
  String (digit (n / 10)) (String (digit (n mod 10)) "").
Definition HHMM (h m : Z) : string := twoDigits h ++ ":" ++ twoDigits m.
Definition HMM (h m : Z) : string := String (digit h) "" ++ ":" ++ twoDigits m.

(** A well-formed cut-off: "HH:MM" or "H:MM" for an hour in 0..23 and a
    minute in 0..59. *)
Definition wellFormedCutoff (s : string) (h m : Z) : Prop :=
  0 <= h <= 23 /\ 0 <= m <= 59 /\ (s = HHMM h m \/ (h <= 9 /\ s = HMM h m)).


(** The two numbers the handler reads off the cut-off string. *)
Definition cutoffHoursOf (s : string) : option Z :=
  parseIntArg (nth_error (split ":" s) 0).
Definition cutoffMinutesOf (s : string) : option Z :=
  parseIntArg (nth_error (split ":" s) 1).

Definition parsesTo (s : string) (h m : Z) : bool :=
  match cutoffHoursOf s, cutoffMinutesOf s with
  | Some h', Some m' => (h' =? h) && (m' =? m)
  | _, _ => false
  end.










Definition dyadic_add (p q : Z * Z) : Z * Z :=
  let '(a, ea) := p in
  let '(b, eb) := q in
  if ea <=? eb then (a + Z.shiftl b (eb - ea), ea)
  else (Z.shiftl a (ea - eb) + b, eb).

Definition dyadic_leb (p q : Z * Z) : bool :=
  let '(a, ea) := p in
  let '(b, eb) := q in
  if ea <=? eb then a <=? Z.shiftl b (eb - ea)
  else Z.shiftl a (ea - eb) <=? b.




(** The documents of an [insertMany], with the identifiers they get. *)
Fixpoint assignIds (next : nat) (docs : list (nat -> Attendance.t))
    : list Attendance.t :=
  match docs with
  | [] => []
  | doc :: rest => doc next :: assignIds (S next) rest
  end.

(** Records of a session (course, class, day) whose status is 'present'
    or 'late'. *)
Definition presentOrLate (db : Db) (courseId classId : ObjectId) (day : Date)
    : list Attendance.t :=
  filter (fun a => sameSession courseId classId day a
                   && (String.eqb (Attendance.status a) "present"
                       || String.eqb (Attendance.status a) "late"))
         (attendances db).

(** At most one record per (member, course, day). *)
Definition uniqueKeys (l : list Attendance.t) : Prop :=
  forall studentId courseId day,
    (length (filter (sameKey studentId courseId day) l) <= 1)%nat.

(** Every record of a student of the roster is filed under the class
    the student belongs to. *)
Definition classesAgree (db : Db) : Prop :=
  forall a s,
    In a (attendances db) -> In s (students db) ->
    Student._id s = Attendance.studentRef a ->
    Student.classRef s = Attendance.classRef a.

Definition ledgerInvariant (db : Db) : Prop :=
  uniqueKeys (attendances db)
  /\ classesAgree db
  /\ NoDup (map Student._id (students db)).

(** A marking request names the class of the student it marks. *)
Definition filedUnderOwnClass (db : Db) (op : Op) : Prop :=
  match op with
  | MarkBiometric _ body =>
      forall s, In s (students db) -> Student._id s = mb_studentId body ->
                Student.classRef s = mb_classId body
  | MarkManual _ body =>
      forall s, In s (students db) -> Student._id s = mm_studentId body ->
                Student.classRef s = mm_classId body
  | _ => True
  end.

Fixpoint filedAlong (env : Env) (ops : list Op) (st : State) : Prop :=
  match ops with
  | [] => True
  | op :: rest =>
      filedUnderOwnClass (st_db st) op /\ filedAlong env rest (snd (step env op st))
  end.

(** What the attendance routes never change in a student. *)
Definition identityOf (s : Student.t)
    : ObjectId * ObjectId * bool * string * string :=
  (Student._id s, Student.classRef s, Student.isEnrolled s,
   Student.fullName s, Student.rollNo s).

(** Every record of the session belongs to an enrolled student of the
    class. *)
Definition sessionOfRoster (db : Db) (courseId classId : ObjectId) (day : Date)
    : Prop :=
  forall a,
    In a (attendances db) -> sameSession courseId classId day a = true ->
    exists s, In s (students db)
              /\ Student._id s = Attendance.studentRef a
              /\ Student.classRef s = classId
              /\ Student.isEnrolled s = true.

(** The user model under which the marking route looks settings up. *)
Definition markingUserModel (session : Session) : string :=
  if String.eqb (sess_userModel session) "" then "Teacher"
  else sess_userModel session.

(** At most one settings document per user and user model. *)
Definition oneSettingsPerUser (db : Db) : Prop :=
  forall userId userModel,
    (length (filter (fun s => String.eqb (Settings.userId s) userId
                              && String.eqb (Settings.userModel s) userModel)
                    (settings db)) <= 1)%nat.

(** Most recent first. *)
Definition newestFirst (l : list Attendance.t) : Prop :=
  Sorted.StronglySorted
    (fun a b => dateLeb (Attendance.timestamp b) (Attendance.timestamp a) = true)
    l.

(** The class identifiers of a list of populated courses, each at its
    first occurrence. *)
Fixpoint firstOccurrences (seen ids : list ObjectId) : list ObjectId :=
  match ids with
  | [] => []
  | id :: rest =>
      if existsb (String.eqb id) seen then firstOccurrences seen rest
      else id :: firstOccurrences (id :: seen) rest
  end.

(** The courses pushed so far under a class identifier. *)
Definition coursesUnder (classesMap : list ClassEntry) (classId : ObjectId)
    : list CourseSummary :=
  match find (fun e => String.eqb (ce_id e) classId) classesMap with
  | Some e => ce_courses e
  | None => []
  end.

(** An integer that a double holds exactly and that a template string
    prints in plain decimal digits: [Number.isSafeInteger]. *)
Definition safeInteger (n : Z) : Prop := Z.abs n <= 9007199254740991.

(** The fields of an entry as the loop fills them in. *)
Definition describes (k : Class.t) (e : ClassEntry) : Prop :=
  ce_id e = Class._id k
  /\ ce_name e = Class.name k
  /\ ce_semester e = Class.semester k
  /\ ce_section e = Class.section k
  /\ ce_department e = Class.department k
  /\ ce_displayName e
     = Class.name k ++ " " ++ showNumber (Class.semester k) ++ " - " ++ Class.section k.

(** The fields of an entry are those of a class document; the display
    name is stated for a semester that is a safe integer. *)
Definition describedBy (k : Class.t) (e : ClassEntry) : Prop :=
  ce_id e = Class._id k
  /\ ce_name e = Class.name k
  /\ ce_semester e = Class.semester k
  /\ ce_section e = Class.section k
  /\ ce_department e = Class.department k
  /\ (safeInteger (Class.semester k) ->
      ce_displayName e
      = Class.name k ++ " " ++ showNumber (Class.semester k)
        ++ " - " ++ Class.section k).

(** A populated course whose class resolves, under the identifier the
    course refers to. *)
Definition resolved (course : populated) : Prop :=
  exists k, snd course = Some k /\ Class._id k = Course.classRef (fst course).

(** The settings documents of a user under a user model. *)
Definition settingsOf (db : Db) (userId : ObjectId) (userModel : string)
    : list Settings.t :=
  filter (fun s => String.eqb (Settings.userId s) userId
                   && String.eqb (Settings.userModel s) userModel)
         (settings db).

(* ================================================================= *)
(** ** Sample data for the scenarios *)

(** A server on UTC whose Student schema accepts every descriptor. *)
Definition utcEnv : Env :=
  {| LocalTZA := 0;
     StringToNumber := fun _ => NaN;
     defaultLateCutoffTime := "09:00";
     castDescriptor := fun d => Some d |}.

Definition sampleStudent (id classId : ObjectId)
    (descriptor : option (list float)) : Student.t :=
  {| Student._id := id;
     Student.classRef := classId;
     Student.isEnrolled := true;
     Student.fullName := "Student " ++ id;
     Student.rollNo := id;
     Student.faceDescriptor := descriptor;
     Student.lastDescriptorUpdate := None;
     Student.descriptorUpdateCount := 0 |}.

Definition emptyLedger (roster : list Student.t) : Db :=
  {| attendances := []; nextId := 0; students := roster; settings := [] |}.

(** A teacher's session that has the given cut-off cached. *)
Definition teacherSession (cutoff : string) : Session :=
  {| sess_userId := "t1";
     sess_userModel := "Teacher";
     cachedSettings :=
       Some {| Settings.userId := "t1";
               Settings.userModel := "Teacher";
               Settings.lateCutoffTime := cutoff |} |}.

Definition freshSession : Session :=
  {| sess_userId := "t1"; sess_userModel := "Teacher"; cachedSettings := None |}.

(** Every reading of the clock is 12:00:00 on day 0. *)
Definition noon : Clock := fun _ => 43200000.

(** A roster of [n] students of one class, named "A", "B", ... *)
Definition rosterOf (classId : ObjectId) (n : nat) : list Student.t :=
  map (fun i => sampleStudent (String (ascii_of_nat (65 + i)) "") classId None)
      (seq 0 n).

Definition initialState (roster : list Student.t) : State :=
  {| st_db := emptyLedger roster; st_session := freshSession; st_pending := [] |}.

(** Two classes, and three courses of teacher "t1" over them. *)
Definition sampleCatalog : Catalog :=
  {| classes :=
       [ {| Class._id := "k1"; Class.name := "BSCS"; Class.semester := 3;
            Class.section := "A"; Class.department := "Computer Science" |};
         {| Class._id := "k2"; Class.name := "BSSE"; Class.semester := 5;
            Class.section := "B"; Class.department := "Software Engineering" |} ];
     courses :=
       [ {| Course._id := "c1"; Course.name := "Algorithms"; Course.code := "CS301";
            Course.classRef := "k1"; Course.instructorRef := "t1" |};
         {| Course._id := "c2"; Course.name := "Databases"; Course.code := "SE501";
            Course.classRef := "k2"; Course.instructorRef := "t1" |};
         {| Course._id := "c3"; Course.name := "Compilers"; Course.code := "CS302";
            Course.classRef := "k1"; Course.instructorRef := "t1" |} ] |}.

Definition teacherOfSettings : SettingsSession :=
  {| ss_userId := "t1"; ss_role := "teacher" |}.

(* ================================================================= *)
(** ** Classification against the cut-off *)

Section Classification.

Variable env : Env.
Let tza := LocalTZA env.

Lemma classify_parsed (s : string) (now h m : Z) :
  cutoffHoursOf s = Some h ->
  cutoffMinutesOf s = Some m ->
  classify env s now =
    if Z.abs (cutoffInstant tza now h m) >? maxTime then "present"
    else if now >? cutoffInstant tza now h m then "late" else "present".
Proof.
  unfold cutoffHoursOf, cutoffMinutesOf, classify. intros -> ->.
  unfold setHours, MakeTime, MakeDate, TimeClip, option_map, cutoffInstant.
  fold tza.
  replace (Day (LocalTime tza now) * msPerDay +
           (h * msPerHour + m * msPerMinute + 0 * msPerSecond + 0))
    with (Day (LocalTime tza now) * msPerDay + h * msPerHour + m * msPerMinute)
    by ring.
  destruct (Z.abs _ >? maxTime); reflexivity.
Qed.

Lemma classify_unparsed (s : string) (now : Z) :
  cutoffHoursOf s = None \/ cutoffMinutesOf s = None ->
  classify env s now = "present".
Proof.
  unfold cutoffHoursOf, cutoffMinutesOf, classify. intros [H | H]; rewrite H.
  - reflexivity.
  - unfold setHours, MakeTime.
    destruct (parseIntArg (nth_error (split ":" s) 0)); reflexivity.
Qed.


End Classification.

Lemma gtb_false (a b : Z) : a <= b -> (a >? b) = false.
Proof. intros H. rewrite Z.gtb_ltb. apply Z.ltb_ge. exact H. Qed.

Lemma gtb_true (a b : Z) : b < a -> (a >? b) = true.
Proof. intros H. rewrite Z.gtb_ltb. apply Z.ltb_lt. exact H. Qed.

Lemma wellFormed_table :
  forallb (fun h =>
    forallb (fun m =>
      parsesTo (HHMM (Z.of_nat h) (Z.of_nat m)) (Z.of_nat h) (Z.of_nat m)
      && ((9 <? h)%nat
          || parsesTo (HMM (Z.of_nat h) (Z.of_nat m)) (Z.of_nat h) (Z.of_nat m)))
      (seq 0 60))
    (seq 0 24) = true.
Proof. vm_compute. reflexivity. Qed.

Lemma wellFormed_parses (s : string) (h m : Z) :
  wellFormedCutoff s h m ->
  cutoffHoursOf s = Some h /\ cutoffMinutesOf s = Some m.
Proof.
  intros (Hh & Hm & Hs).
  pose proof wellFormed_table as T.
  rewrite forallb_forall in T.
  specialize (T (Z.to_nat h)).
  rewrite in_seq in T. specialize (T ltac:(lia)).
  rewrite forallb_forall in T.
  specialize (T (Z.to_nat m)).
  rewrite in_seq in T. specialize (T ltac:(lia)).
  rewrite !Z2Nat.id in T by lia.
  apply andb_true_iff in T. destruct T as [T1 T2].
  assert (P : parsesTo s h m = true).
  { destruct Hs as [-> | [H9 ->]]; [exact T1 |].
    apply orb_true_iff in T2. destruct T2 as [T2 | T2]; [| exact T2].
    apply Nat.ltb_lt in T2. lia. }
  unfold parsesTo in P.
  destruct (cutoffHoursOf s) as [h' |]; [| discriminate].
  destruct (cutoffMinutesOf s) as [m' |]; [| discriminate].
  apply andb_true_iff in P. destruct P as [P1 P2].
  apply Z.eqb_eq in P1, P2. subst. auto.
Qed.

(** C2.  For a well-formed cut-off "HH:MM" (or "H:MM") the status is
    'late' exactly when the event time is strictly after the cut-off
    instant, that is hour:minute:00 of the event's own local day, and
    'present' otherwise; an event exactly at the cut-off is 'present'.
    With cut-off "09:00", an event at 09:00:01 is 'late', one at
    08:59:59 and one at 09:00:00 are 'present'. *)
Theorem C2_classify_against_cutoff (env : Env) (s : string) (h m now : Z) :
  wellFormedCutoff s h m ->
  Z.abs (cutoffInstant (LocalTZA env) now h m) <= maxTime ->
  (classify env s now = "late" <-> now > cutoffInstant (LocalTZA env) now h m)
  /\ (classify env s now = "present" <->
      now <= cutoffInstant (LocalTZA env) now h m)
  /\ (now = cutoffInstant (LocalTZA env) now h m -> classify env s now = "present")
  /\ (forall day : Z,
        Z.abs (localInstant (LocalTZA env) day 9 0 0) < maxTime ->
        classify env "09:00" (localInstant (LocalTZA env) day 9 0 1) = "late"
        /\ classify env "09:00" (localInstant (LocalTZA env) day 8 59 59) = "present"
        /\ classify env "09:00" (localInstant (LocalTZA env) day 9 0 0) = "present").
Proof.
  intros Hwf Hrep.
  destruct (wellFormed_parses _ _ _ Hwf) as [Hh Hm].
  pose proof (classify_parsed env s now h m Hh Hm) as E. cbv zeta in E.
  assert (Hclip : (Z.abs (cutoffInstant (LocalTZA env) now h m) >? maxTime) = false)
    by (apply gtb_false; lia).
  rewrite Hclip in E.
  assert (L : classify env s now = "late" <->
              now > cutoffInstant (LocalTZA env) now h m).
  { rewrite E. destruct (now >? _) eqn:G.
    - apply Z.gtb_lt in G. split; [lia | reflexivity].
    - rewrite Z.gtb_ltb in G. apply Z.ltb_ge in G.
      split; [discriminate | lia]. }
  assert (P : classify env s now = "present" <->
              now <= cutoffInstant (LocalTZA env) now h m).
  { rewrite E. destruct (now >? _) eqn:G.
    - apply Z.gtb_lt in G. split; [discriminate | lia].
    - rewrite Z.gtb_ltb in G. apply Z.ltb_ge in G.
      split; [lia | reflexivity]. }
  split; [exact L |]. split; [exact P |]. split.
  - intros Heq. apply P. lia.
  - intros day Hday.
    assert (P9 : cutoffHoursOf "09:00" = Some 9 /\ cutoffMinutesOf "09:00" = Some 0)
      by (split; reflexivity).
    destruct P9 as [P9h P9m].
    assert (D : forall hh mm ss,
               0 <= hh * msPerHour + mm * msPerMinute + ss * msPerSecond < msPerDay ->
               cutoffInstant (LocalTZA env)
                 (localInstant (LocalTZA env) day hh mm ss) 9 0
               = localInstant (LocalTZA env) day 9 0 0).
    { intros hh mm ss Hr. unfold cutoffInstant, localInstant, LocalTime, UTC, Day.
      replace (day * msPerDay + hh * msPerHour + mm * msPerMinute
               + ss * msPerSecond - LocalTZA env + LocalTZA env)
        with ((hh * msPerHour + mm * msPerMinute + ss * msPerSecond)
              + day * msPerDay) by ring.
      rewrite Z.div_add by (unfold msPerDay; lia).
      rewrite Z.div_small by exact Hr. ring. }
    assert (Hclip9 : (Z.abs (localInstant (LocalTZA env) day 9 0 0) >? maxTime) = false)
      by (apply gtb_false; lia).
    repeat split.
    + rewrite (classify_parsed env _ _ 9 0 P9h P9m). cbv zeta.
      rewrite D by (unfold msPerHour, msPerMinute, msPerSecond, msPerDay; lia).
      rewrite Hclip9.
      rewrite gtb_true; [reflexivity |].
      unfold localInstant, UTC, msPerHour, msPerMinute, msPerSecond. lia.
    + rewrite (classify_parsed env _ _ 9 0 P9h P9m). cbv zeta.
      rewrite D by (unfold msPerHour, msPerMinute, msPerSecond, msPerDay; lia).
      rewrite Hclip9.
      rewrite gtb_false; [reflexivity |].
      unfold localInstant, UTC, msPerHour, msPerMinute, msPerSecond. lia.
    + rewrite (classify_parsed env _ _ 9 0 P9h P9m). cbv zeta.
      rewrite D by (unfold msPerHour, msPerMinute, msPerSecond, msPerDay; lia).
      rewrite Hclip9.
      rewrite gtb_false; [reflexivity | lia].
Qed.

(* ================================================================= *)
(** ** What a marking request does to the store *)

Section MarkingFacts.

Variable env : Env.

Lemma loadSettings_keeps (session : Session) (db : Db) :
  attendances (snd (loadSettings env session db)) = attendances db
  /\ nextId (snd (loadSettings env session db)) = nextId db
  /\ students (snd (loadSettings env session db)) = students db.
Proof.
  unfold loadSettings.
  destruct (cachedSettings session); [auto |].
  destruct (Settings_findOne db _ _); simpl; auto.
Qed.

Lemma loadSettings_cached (session : Session) (db : Db) (s : Settings.t) :
  cachedSettings session = Some s ->
  loadSettings env session db = (s, session, db).
Proof. unfold loadSettings. intros ->. reflexivity. Qed.

(** A request with all three identifiers, for a key without a record
    and a student that resolves, creates the record and answers 200. *)
Lemma markAttendance_fresh (clk : Clock) (body : MarkBody) (session : Session)
    (db : Db) (student : Student.t) :
  falsy (mb_studentId body) = false ->
  falsy (mb_courseId body) = false ->
  falsy (mb_classId body) = false ->
  Attendance_findOne db (mb_studentId body) (mb_courseId body)
    (startOfDay env (clk 0%nat)) = None ->
  Student_findById db (mb_studentId body) = Some student ->
  let loaded := loadSettings env session db in
  let attendance :=
    biometricDoc body
      (classify env (Settings.lateCutoffTime (fst (fst loaded))) (clk 1%nat))
      (startOfDay env (clk 0%nat)) (clk 2%nat) (nextId db) in
  markAttendance env clk body session db =
    (Marked attendance (Student.fullName student) (Student.rollNo student),
     snd (fst loaded),
     {| attendances := attendances db ++ [attendance];
        nextId := S (nextId db);
        students := students db;
        settings := settings (snd loaded) |},
     fusionTask env body student).
Proof.
  intros H1 H2 H3 Hnone Hstu loaded attendance.
  unfold markAttendance. rewrite H1, H2, H3, Hnone. cbn [orb].
  destruct (loadSettings_keeps session db) as (Ka & Kn & Ks).
  subst attendance loaded.
  destruct (loadSettings env session db) as [[st s1] d1]. simpl in *.
  unfold Student_findById in *. rewrite Ks, Hstu.
  unfold Attendance_create. rewrite Ka, Kn. reflexivity.
Qed.

(** The manual route, same circumstances. *)
Lemma manualMarkAttendance_fresh (clk : Clock) (body : ManualBody) (db : Db)
    (student : Student.t) :
  falsy (mm_studentId body) = false ->
  falsy (mm_courseId body) = false ->
  falsy (mm_classId body) = false ->
  In (mm_status body) ["present"; "late"; "absent"] ->
  Attendance_findOne db (mm_studentId body) (mm_courseId body)
    (startOfDay env (clk 0%nat)) = None ->
  Student_findById db (mm_studentId body) = Some student ->
  let attendance :=
    manualDoc body (startOfDay env (clk 0%nat)) (clk 1%nat) (nextId db) in
  manualMarkAttendance env clk body db =
    (Marked attendance (Student.fullName student) (Student.rollNo student),
     {| attendances := attendances db ++ [attendance];
        nextId := S (nextId db);
        students := students db;
        settings := settings db |}).
Proof.
  intros H1 H2 H3 Hst Hnone Hstu attendance.
  unfold manualMarkAttendance. rewrite H1, H2, H3, Hnone. cbn [orb].
  assert (E : String.eqb (mm_status body) "" = false
              /\ existsb (String.eqb (mm_status body))
                   ["present"; "late"; "absent"] = true).
  { simpl in Hst. destruct Hst as [<- | [<- | [<- | []]]]; split; reflexivity. }
  destruct E as [E1 E2]. rewrite E1, E2. cbn [negb].
  unfold Attendance_create. cbn [fst snd].
  unfold Student_findById in *. cbn [students]. rewrite Hstu. reflexivity.
Qed.

End MarkingFacts.


(* ================================================================= *)
(** ** Which numbers are read off a cut-off string *)















(** C2 at cut-off "09:00" one second past nine on day 20000. *)
Lemma C2_classify_against_cutoff_witness :
  wellFormedCutoff "09:00" 9 0
  /\ classify utcEnv "09:00" (localInstant 0 20000 9 0 1) = "late".
Proof.
  assert (W : wellFormedCutoff "09:00" 9 0).
  { unfold wellFormedCutoff. split; [lia |]. split; [lia |]. left. reflexivity. }
  split; [exact W |].
  apply (proj1 (C2_classify_against_cutoff utcEnv "09:00" 9 0
                  (localInstant 0 20000 9 0 1) W ltac:(vm_compute; discriminate))).
  vm_compute. reflexivity.
Defined.

(* ================================================================= *)
(** ** Descriptor fusion *)

Lemma Rzero_0 : Rzero 0%R = true.
Proof. unfold Rzero. destruct (Req_dec_T 0%R 0%R); [reflexivity | contradiction]. Qed.

Lemma Rzero_nonzero (x : R) : x <> 0%R -> Rzero x = false.
Proof. unfold Rzero. destruct (Req_dec_T x 0%R); [contradiction | reflexivity]. Qed.

Lemma mapi_from_length {A B : Type} (f : A -> nat -> B) (l : list A) :
  forall i, length (mapi_from f i l) = length l.
Proof. induction l as [| x l IH]; intros i; simpl; [| rewrite IH]; reflexivity. Qed.

Lemma blend_length (weight : float) (existing observed : list float) :
  length (blend weight existing observed) = length existing.
Proof. apply mapi_from_length. Qed.




(** What the gate lets through. *)
Lemma fusionTask_dimensions (env : Env) (body : MarkBody) (student : Student.t)
    (task : FusionTask) :
  fusionTask env body student = Some task ->
  length (ft_existingDescriptor task) = 128%nat
  /\ length (ft_faceDescriptor task) = 128%nat
  /\ ft_studentId task = mb_studentId body
  /\ Student.faceDescriptor student = Some (ft_existingDescriptor task)
  /\ mb_faceDescriptor body = Some (ft_faceDescriptor task)
  /\ geb (toNumber (StringToNumber env) (mb_confidenceScore body))
         (Fin (6 / 10)%R) = true.
Proof.
  unfold fusionTask.
  destruct (mb_faceDescriptor body) as [face |]; [| discriminate].
  destruct (length face =? 128)%nat eqn:L1; [| discriminate].
  destruct (geb _ _) eqn:G; [| discriminate]. cbn [andb].
  destruct (Student.faceDescriptor student) as [existing |]; [| discriminate].
  destruct (length existing =? 128)%nat eqn:L2; [| discriminate].
  intros [= <-]. cbn. apply Nat.eqb_eq in L1, L2. repeat split; auto.
Qed.


(** Shifting to a smaller exponent multiplies by a power of two. *)
Lemma shift_to_exponent (a e e' c : Z) :
  c <= e' <= e ->
  Z.shiftl a (e - e') * 2 ^ (e' - c) = a * 2 ^ (e - c).
Proof.
  intros H. rewrite Z.shiftl_mul_pow2 by lia.
  replace (e - c) with ((e - e') + (e' - c)) by lia.
  rewrite Z.pow_add_r by lia. ring.
Qed.

(** The pair (m, e) stands for m * 2^e: over any exponent [c] below
    both, the sum and the comparison are those of the integers
    m * 2^(e - c). *)
Lemma dyadic_add_spec (a ea b eb c : Z) :
  c <= ea -> c <= eb ->
  c <= snd (dyadic_add (a, ea) (b, eb))
  /\ fst (dyadic_add (a, ea) (b, eb)) * 2 ^ (snd (dyadic_add (a, ea) (b, eb)) - c)
     = a * 2 ^ (ea - c) + b * 2 ^ (eb - c).
Proof.
  intros Ha Hb. unfold dyadic_add.
  destruct (ea <=? eb) eqn:E; cbn [fst snd].
  - apply Z.leb_le in E. split; [exact Ha |].
    rewrite Z.mul_add_distr_r, shift_to_exponent by lia. reflexivity.
  - apply Z.leb_gt in E. split; [exact Hb |].
    rewrite Z.mul_add_distr_r, shift_to_exponent by lia. reflexivity.
Qed.

Lemma dyadic_leb_spec (a ea b eb c : Z) :
  c <= ea -> c <= eb ->
  dyadic_leb (a, ea) (b, eb) = (a * 2 ^ (ea - c) <=? b * 2 ^ (eb - c)).
Proof.
  intros Ha Hb. unfold dyadic_leb.
  destruct (ea <=? eb) eqn:E.
  - apply Z.leb_le in E.
    rewrite <- (shift_to_exponent b eb ea c) by lia.
    assert (P : 0 < 2 ^ (ea - c)) by (apply Z.pow_pos_nonneg; lia).
    destruct (Z.leb_spec a (Z.shiftl b (eb - ea)));
      symmetry; [apply Z.leb_le | apply Z.leb_gt]; nia.
  - apply Z.leb_gt in E.
    rewrite <- (shift_to_exponent a ea eb c) by lia.
    assert (P : 0 < 2 ^ (eb - c)) by (apply Z.pow_pos_nonneg; lia).
    destruct (Z.leb_spec (Z.shiftl a (ea - eb)) b);
      symmetry; [apply Z.leb_le | apply Z.leb_gt]; nia.
Qed.






(* ================================================================= *)
(** ** The ledger *)

Lemma dateEqb_refl (d : Date) : dateEqb d d = true.
Proof. destruct d; simpl; [apply Z.eqb_refl | reflexivity]. Qed.

Lemma dateEqb_eq (a b : Date) : dateEqb a b = true -> a = b.
Proof.
  destruct a, b; simpl; try discriminate; [| reflexivity].
  intros H. apply Z.eqb_eq in H. congruence.
Qed.

Lemma Set_has_In (ids : list string) (id : string) :
  Set_has (Set_of ids) id = true <-> In id ids.
Proof.
  unfold Set_has, Set_of. rewrite existsb_exists. split.
  - intros (x & Hx & E). apply String.eqb_eq in E. subst x.
    apply nodup_In in Hx. exact Hx.
  - intros H. exists id. split; [apply nodup_In; exact H | apply String.eqb_refl].
Qed.

Lemma findOne_None_filter (db : Db) (studentId courseId : ObjectId) (day : Date) :
  Attendance_findOne db studentId courseId day = None <->
  recordsFor db studentId courseId day = 0%nat.
Proof.
  unfold Attendance_findOne, recordsFor.
  induction (attendances db) as [| a l IH]; simpl; [tauto |].
  destruct (sameKey studentId courseId day a); simpl.
  - split; discriminate.
  - exact IH.
Qed.

Lemma findOne_Some_of_In (db : Db) (studentId courseId : ObjectId) (day : Date)
    (a : Attendance.t) :
  In a (attendances db) ->
  sameKey studentId courseId day a = true ->
  exists found, Attendance_findOne db studentId courseId day = Some found.
Proof.
  intros Hin Hk. unfold Attendance_findOne.
  destruct (find _ _) as [f |] eqn:F; [eauto |].
  pose proof (find_none _ _ F a Hin) as N. congruence.
Qed.

Lemma insertMany_spec (docs : list (nat -> Attendance.t)) :
  forall db,
    Attendance_insertMany db docs =
      {| attendances := attendances db ++ assignIds (nextId db) docs;
         nextId := nextId db + length docs;
         students := students db;
         settings := settings db |}.
Proof.
  induction docs as [| doc rest IH]; intros db; simpl.
  - rewrite app_nil_r, Nat.add_0_r. destruct db; reflexivity.
  - rewrite IH. simpl. rewrite <- app_assoc, Nat.add_succ_r. reflexivity.
Qed.

Lemma assignIds_length (docs : list (nat -> Attendance.t)) :
  forall next, length (assignIds next docs) = length docs.
Proof. induction docs; intros next; simpl; [| rewrite IHdocs]; reflexivity. Qed.

Section AbsentRecords.

Variables (classId courseId : ObjectId) (day : Date) (clk : Clock).

Lemma absent_records_session (unmarked : list Student.t) :
  forall i next a,
    In a (assignIds next (mapi_from (absentDoc classId courseId day clk) i unmarked)) ->
    sameSession courseId classId day a = true
    /\ Attendance.status a = "absent"
    /\ Attendance.confidenceScore a = Number (Fin 0%R)
    /\ Attendance.markedBy a = "system".
Proof.
  induction unmarked as [| s l IH]; intros i next a; simpl; [tauto |].
  intros [<- | H]; [| exact (IH _ _ _ H)].
  unfold sameSession, absentDoc. cbn.
  rewrite !String.eqb_refl, dateEqb_refl. auto.
Qed.

Lemma absent_records_students (unmarked : list Student.t) :
  forall i next,
    map Attendance.studentRef
        (assignIds next (mapi_from (absentDoc classId courseId day clk) i unmarked))
    = map Student._id unmarked.
Proof.
  induction unmarked as [| s l IH]; intros i next; simpl; [reflexivity |].
  rewrite IH. reflexivity.
Qed.

End AbsentRecords.

Lemma filter_all {A : Type} (p : A -> bool) (l : list A) :
  (forall x, In x l -> p x = true) -> filter p l = l.
Proof.
  induction l as [| x l IH]; intros H; simpl; [reflexivity |].
  rewrite (H x (or_introl eq_refl)), IH; [reflexivity |].
  intros y Hy. apply H. right. exact Hy.
Qed.

Lemma filter_nil_iff {A : Type} (p : A -> bool) (l : list A) :
  filter p l = [] <-> (forall x, In x l -> p x = false).
Proof.
  induction l as [| x l IH]; simpl; [tauto |].
  destruct (p x) eqn:P.
  - split; [discriminate |]. intros H.
    specialize (H x (or_introl eq_refl)). congruence.
  - rewrite IH. split.
    + intros H y [<- | Hy]; auto.
    + intros H y Hy. apply H. right. exact Hy.
Qed.

Lemma notAbsent_selected (l : list Attendance.t) :
  filter notAbsent (map Attendance.select_studentRef l)
  = map Attendance.select_studentRef l.
Proof.
  apply filter_all. intros x Hx. apply in_map_iff in Hx.
  destruct Hx as (a & <- & _). reflexivity.
Qed.

Section EndSession.

Variable env : Env.

(** What the end of a session answers and stores.  The second count of
    the answer is the number of all records of the session found
    today: the selected documents carry no status, so none of them is
    filtered out. *)
Lemma endSession_spec (clk : Clock) (body : EndSessionBody) (db : Db) :
  falsy (es_classId body) = false ->
  falsy (es_courseId body) = false ->
  let day := startOfDay env (clk 0%nat) in
  let allStudents := Student_find_enrolled db (es_classId body) in
  let marked := markedToday db (es_classId body) (es_courseId body) day in
  let unmarked := unmarkedOf allStudents marked in
  let created :=
    if match es_markAbsent body with Some b => b | None => true end
    then assignIds (nextId db)
           (mapi (absentDoc (es_classId body) (es_courseId body) day clk) unmarked)
    else [] in
  endSession env clk body db =
    (SessionEnded (length allStudents) (length marked) (length created) unmarked,
     {| attendances := attendances db ++ created;
        nextId := nextId db + length created;
        students := students db;
        settings := settings db |}).
Proof.
  intros H1 H2 day allStudents marked unmarked created.
  unfold endSession. rewrite H1, H2. cbn [orb].
  fold day. fold allStudents. fold marked. fold unmarked.
  assert (P : length (filter notAbsent marked) = length marked).
  { unfold marked, markedToday, Attendance_find_selected.
    rewrite notAbsent_selected. reflexivity. }
  rewrite P.
  assert (Same : forall d : Db,
             d = {| attendances := attendances d ++ [];
                    nextId := nextId d + 0;
                    students := students d;
                    settings := settings d |}).
  { intros d. rewrite app_nil_r, Nat.add_0_r. destruct d; reflexivity. }
  subst created.
  destruct (match es_markAbsent body with Some b => b | None => true end).
  - destruct unmarked as [| u us] eqn:U.
    + cbn. rewrite <- Same. reflexivity.
    + cbn [andb length Nat.ltb Nat.leb].
      rewrite insertMany_spec, assignIds_length.
      unfold mapi. rewrite mapi_from_length. reflexivity.
  - cbn. rewrite <- Same. reflexivity.
Qed.

(** After a run that marks the absentees, every enrolled student of the
    class has a record of the session. *)
Lemma endSession_marks_everyone (clk : Clock) (body : EndSessionBody) (db : Db) :
  falsy (es_classId body) = false ->
  falsy (es_courseId body) = false ->
  es_markAbsent body <> Some false ->
  let day := startOfDay env (clk 0%nat) in
  let db1 := snd (endSession env clk body db) in
  students db1 = students db
  /\ unmarkedOf (Student_find_enrolled db1 (es_classId body))
                (markedToday db1 (es_classId body) (es_courseId body) day) = [].
Proof.
  intros H1 H2 Hm day db1.
  subst db1. rewrite (endSession_spec clk body db H1 H2). cbn [snd].
  split; [reflexivity |].
  assert (M : match es_markAbsent body with Some b => b | None => true end = true).
  { destruct (es_markAbsent body) as [[|] |]; congruence. }
  rewrite M. fold day.
  unfold Student_find_enrolled at 1. cbn [students].
  fold (Student_find_enrolled db (es_classId body)).
  set (allStudents := Student_find_enrolled db (es_classId body)).
  set (marked := markedToday db (es_classId body) (es_courseId body) day).
  set (unmarked := unmarkedOf allStudents marked).
  apply filter_nil_iff. intros s Hs.
  apply negb_false_iff, Set_has_In.
  unfold markedToday, Attendance_find_selected. cbn [attendances].
  rewrite map_map. cbn [Attendance.select_studentRef Attendance.sel_studentRef].
  rewrite filter_app, map_app. apply in_or_app.
  destruct (Set_has (Set_of (map Attendance.sel_studentRef marked)) (Student._id s))
    eqn:Has.
  - left. apply Set_has_In in Has.
    unfold marked, markedToday, Attendance_find_selected in Has.
    rewrite map_map in Has. exact Has.
  - right. unfold mapi.
    rewrite filter_all
      by (intros a Ha; exact (proj1 (absent_records_session _ _ _ _ _ _ _ _ Ha))).
    rewrite absent_records_students.
    apply in_map. unfold unmarked, unmarkedOf.
    apply filter_In. split; [exact Hs |]. rewrite Has. reflexivity.
Qed.

End EndSession.

(** C6.  A biometric or manual marking request for a
    (member, course, day) that already has a record is answered 400
    with [alreadyMarked: true]; the database, the session and the queue
    of scheduled descriptor updates are left exactly as they were: no
    record is created and no fusion is scheduled. *)
Theorem C6_duplicate_is_flagged_and_changes_nothing (env : Env) (st : State)
    (existing : Attendance.t) :
  In existing (attendances (st_db st)) ->
  (forall clk body,
     falsy (mb_studentId body) = false ->
     falsy (mb_courseId body) = false ->
     falsy (mb_classId body) = false ->
     sameKey (mb_studentId body) (mb_courseId body)
       (startOfDay env (clk 0%nat)) existing = true ->
     step env (MarkBiometric clk body) st
     = (Some (Error 400 "Attendance already marked" true), st))
  /\ (forall clk body,
        falsy (mm_studentId body) = false ->
        falsy (mm_courseId body) = false ->
        falsy (mm_classId body) = false ->
        In (mm_status body) ["present"; "late"; "absent"] ->
        sameKey (mm_studentId body) (mm_courseId body)
          (startOfDay env (clk 0%nat)) existing = true ->
        step env (MarkManual clk body) st
        = (Some (Error 400 "Attendance already marked for this student" true), st)).
Proof.
  intros Hin. split.
  - intros clk body H1 H2 H3 Hk.
    destruct (findOne_Some_of_In _ _ _ _ _ Hin Hk) as (found & F).
    unfold step, markAttendance. rewrite H1, H2, H3, F. cbn [orb].
    rewrite app_nil_r. destruct st; reflexivity.
  - intros clk body H1 H2 H3 Hst Hk.
    destruct (findOne_Some_of_In _ _ _ _ _ Hin Hk) as (found & F).
    unfold step, manualMarkAttendance. rewrite H1, H2, H3, F. cbn [orb].
    assert (E : String.eqb (mm_status body) "" = false
                /\ existsb (String.eqb (mm_status body))
                     ["present"; "late"; "absent"] = true).
    { simpl in Hst. destruct Hst as [<- | [<- | [<- | []]]]; split; reflexivity. }
    destruct E as [E1 E2]. rewrite E1, E2. cbn [negb].
    destruct st; reflexivity.
Qed.

(** C6 on a ledger that holds one manual mark: the same student is
    then recognised for the same course on the same day. *)
Lemma C6_duplicate_is_flagged_and_changes_nothing_witness :
  let st := run utcEnv [MarkManual noon (mkManualBody "s1" "c1" "k1" "late")]
              (initialState [sampleStudent "s1" "k1" None]) in
  step utcEnv (MarkBiometric noon (mkMarkBody "s1" "c1" "k1" Undefined None)) st
  = (Some (Error 400 "Attendance already marked" true), st).
Proof.
  cbv zeta.
  refine (proj1 (C6_duplicate_is_flagged_and_changes_nothing utcEnv _
                   (manualDoc (mkManualBody "s1" "c1" "k1" "late")
                      (startOfDay utcEnv 43200000) 43200000 0) _)
            noon (mkMarkBody "s1" "c1" "k1" Undefined None) _ _ _ _).
  - left. reflexivity.
  - reflexivity.
  - reflexivity.
  - reflexivity.
  - reflexivity.
Defined.

(** C7.  After a run of Finalize that marks the absentees, a second run
    for the same class and course on the same day reports zero students
    newly marked absent and an empty list of unmarked students, and it
    leaves the database as the first run left it. *)
Theorem C7_finalize_is_idempotent (env : Env) (clk1 clk2 : Clock)
    (body1 body2 : EndSessionBody) (db : Db) :
  falsy (es_classId body1) = false ->
  falsy (es_courseId body1) = false ->
  es_markAbsent body1 <> Some false ->
  es_classId body2 = es_classId body1 ->
  es_courseId body2 = es_courseId body1 ->
  startOfDay env (clk2 0%nat) = startOfDay env (clk1 0%nat) ->
  let db1 := snd (endSession env clk1 body1 db) in
  exists totalStudents presentCount,
    endSession env clk2 body2 db1
    = (SessionEnded totalStudents presentCount 0 [], db1).
Proof.
  intros H1 H2 Hm Hk Hc Hday db1.
  destruct (endSession_marks_everyone env clk1 body1 db H1 H2 Hm) as [_ Hnone].
  fold db1 in Hnone.
  assert (H1' : falsy (es_classId body2) = false) by (rewrite Hk; exact H1).
  assert (H2' : falsy (es_courseId body2) = false) by (rewrite Hc; exact H2).
  rewrite (endSession_spec env clk2 body2 db1 H1' H2').
  rewrite Hk, Hc, Hday, Hnone.
  assert (C : (if match es_markAbsent body2 with Some b => b | None => true end
               then assignIds (nextId db1)
                      (mapi (absentDoc (es_classId body1) (es_courseId body1)
                               (startOfDay env (clk1 0%nat)) clk2) [])
               else []) = []).
  { destruct (match es_markAbsent body2 with Some b => b | None => true end);
      reflexivity. }
  rewrite C. cbn [length]. rewrite app_nil_r, Nat.add_0_r.
  eexists. eexists. f_equal. destruct db1; reflexivity.
Qed.

(** C7 on a class of three with one student marked late. *)
Lemma C7_finalize_is_idempotent_witness :
  let body := mkEndSessionBody "k1" "c1" (Some true) in
  let db := st_db (run utcEnv [MarkManual noon (mkManualBody "B" "c1" "k1" "late")]
                     (initialState (rosterOf "k1" 3))) in
  let db1 := snd (endSession utcEnv noon body db) in
  exists totalStudents presentCount,
    endSession utcEnv noon body db1
    = (SessionEnded totalStudents presentCount 0 [], db1).
Proof.
  cbv zeta.
  apply (C7_finalize_is_idempotent utcEnv noon noon
           (mkEndSessionBody "k1" "c1" (Some true))
           (mkEndSessionBody "k1" "c1" (Some true))).
  - reflexivity.
  - reflexivity.
  - discriminate.
  - reflexivity.
  - reflexivity.
  - reflexivity.
Defined.

(** The scenario of the specification: 30 enrolled, 5 marked present or
    late, none absent yet.  Finalize creates 25 absent records and
    answers present/late 5, absent 25. *)
Example finalize_30_enrolled_5_marked :
  let marks :=
    (map (fun id => MarkManual noon (mkManualBody id "c1" "k1" "present"))
         ["A"; "B"; "C"] ++
     map (fun id => MarkManual noon (mkManualBody id "c1" "k1" "late"))
         ["D"; "E"])%list in
  let db := st_db (run utcEnv marks (initialState (rosterOf "k1" 30))) in
  let '(answer, db1) :=
    endSession utcEnv noon (mkEndSessionBody "k1" "c1" (Some true)) db in
  length (attendances db) = 5%nat
  /\ (exists unmarked, answer = SessionEnded 30 5 25 unmarked)
  /\ length (filter (fun a => String.eqb (Attendance.status a) "absent")
               (attendances db1)) = 25%nat
  /\ length (attendances db1) = 30%nat.
Proof.
  vm_compute. repeat split. eexists. reflexivity.
Qed.

(** C8 (the code departs from the claim).  One enrolled student, marked
    'absent' by hand.  Finalize then answers [presentCount] 1 although
    no record of the session is 'present' or 'late': the marked records
    are fetched with [select('studentRef')], so the status that the
    count filters on is undefined on every one of them. *)
Theorem C8_present_count_includes_absent_records :
  let db := st_db (run utcEnv [MarkManual noon (mkManualBody "s1" "c1" "k1" "absent")]
                     (initialState [sampleStudent "s1" "k1" None])) in
  fst (endSession utcEnv noon (mkEndSessionBody "k1" "c1" (Some true)) db)
    = SessionEnded 1 1 0 []
  /\ length (presentOrLate db "c1" "k1" (startOfDay utcEnv (noon 0%nat))) = 0%nat.
Proof. vm_compute. split; reflexivity. Qed.

(** C1 (the code departs from the claim).  From an empty ledger, a
    manual mark filed under class "k2" for a student enrolled in class
    "k1", followed by Finalize for class "k1", leaves two records for
    the same (student, course, day): the marking routes look for an
    existing record by student, course and day, while Finalize only
    sees the records filed under its own class. *)
Theorem C1_finalize_duplicates_record_of_other_class :
  let final :=
    run utcEnv
      [MarkManual noon (mkManualBody "s1" "c1" "k2" "present");
       Finalize noon (mkEndSessionBody "k1" "c1" None)]
      (initialState [sampleStudent "s1" "k1" None]) in
  recordsFor (st_db final) "s1" "c1" (startOfDay utcEnv (noon 0%nat)) = 2%nat
  /\ map Attendance.status (attendances (st_db final)) = ["present"; "absent"].
Proof. vm_compute. split; reflexivity. Qed.

(* ================================================================= *)
(** ** Cancellation *)

Lemma removeFirst_filter {A : Type} (p q : A -> bool) (l : list A) (r : A) :
  find p l = Some r -> q r = true ->
  S (length (filter q (removeFirst p l))) = length (filter q l).
Proof.
  induction l as [| x l IH]; simpl; [discriminate |].
  destruct (p x) eqn:P.
  - intros [= ->] Q. rewrite Q. reflexivity.
  - intros F Q. simpl. destruct (q x); simpl; rewrite (IH F Q); reflexivity.
Qed.

Lemma cancelAttendance_found (attendanceId : nat) (db : Db) (record : Attendance.t) :
  find (fun a => Nat.eqb (Attendance._id a) attendanceId) (attendances db)
    = Some record ->
  cancelAttendance attendanceId db =
    (Cancelled record,
     {| attendances :=
          removeFirst (fun a => Nat.eqb (Attendance._id a) attendanceId)
            (attendances db);
        nextId := nextId db;
        students := students db;
        settings := settings db |}).
Proof.
  intros F. unfold cancelAttendance, Attendance_findByIdAndDelete.
  rewrite F. reflexivity.
Qed.

(** A student with no record for (course, day) is among the unmarked of
    the class the student is enrolled in. *)
Lemma unmarked_when_no_record (db : Db) (student : Student.t)
    (courseId : ObjectId) (day : Date) :
  In student (students db) ->
  Student.isEnrolled student = true ->
  recordsFor db (Student._id student) courseId day = 0%nat ->
  In student
     (unmarkedOf (Student_find_enrolled db (Student.classRef student))
                 (markedToday db (Student.classRef student) courseId day)).
Proof.
  intros Hin Hen Hzero. unfold unmarkedOf. apply filter_In. split.
  - unfold Student_find_enrolled. apply filter_In. split; [exact Hin |].
    rewrite String.eqb_refl, Hen. reflexivity.
  - apply negb_true_iff.
    destruct (Set_has _ _) eqn:Has; [exfalso | reflexivity].
    apply Set_has_In in Has.
    unfold markedToday, Attendance_find_selected in Has.
    rewrite map_map in Has. apply in_map_iff in Has.
    destruct Has as (a & Ha & Hf). cbn in Ha.
    apply filter_In in Hf. destruct Hf as [Hina Hs].
    unfold sameSession in Hs.
    apply andb_true_iff in Hs. destruct Hs as [Hs Hd].
    apply andb_true_iff in Hs. destruct Hs as [Hc _].
    unfold recordsFor in Hzero. apply length_zero_iff_nil in Hzero.
    pose proof (proj1 (filter_nil_iff _ _) Hzero a Hina) as N.
    unfold sameKey in N. rewrite Ha, String.eqb_refl, Hc, Hd in N.
    discriminate N.
Qed.

(** C9.  When a (member, course, day) holds exactly one record,
    cancelling that record is answered 200 with the deleted record and
    leaves no record for the key.  The member, if enrolled, is then
    among the unmarked students of the class, both for the unmarked
    query and for Finalize, and a biometric or manual marking request
    for the same key on the same day is answered 200 with a new record
    instead of the duplicate error. *)
Theorem C9_cancel_then_mark_again (env : Env) (db : Db) (attendanceId : nat)
    (record : Attendance.t) (student : Student.t) (courseId : ObjectId)
    (day : Date) :
  find (fun a => Nat.eqb (Attendance._id a) attendanceId) (attendances db)
    = Some record ->
  sameKey (Student._id student) courseId day record = true ->
  recordsFor db (Student._id student) courseId day = 1%nat ->
  Student_findById db (Student._id student) = Some student ->
  Student.isEnrolled student = true ->
  falsy (Student._id student) = false ->
  falsy (Student.classRef student) = false ->
  falsy courseId = false ->
  let db1 := snd (cancelAttendance attendanceId db) in
  cancelAttendance attendanceId db = (Cancelled record, db1)
  /\ recordsFor db1 (Student._id student) courseId day = 0%nat
  /\ (forall clk, startOfDay env (clk 0%nat) = day ->
        (exists unmarked total marked,
           unmarkedStudents env clk (Student.classRef student) courseId db1
             = UnmarkedStudents unmarked total marked
           /\ In student unmarked)
        /\ (forall markAbsent, exists total present absent unmarked,
              fst (endSession env clk
                     (mkEndSessionBody (Student.classRef student) courseId markAbsent)
                     db1)
                = SessionEnded total present absent unmarked
              /\ In student unmarked))
  /\ (forall clk body session,
        mb_studentId body = Student._id student ->
        mb_courseId body = courseId ->
        falsy (mb_classId body) = false ->
        startOfDay env (clk 0%nat) = day ->
        exists attendance session1 db2 task,
          markAttendance env clk body session db1
            = (Marked attendance (Student.fullName student) (Student.rollNo student),
               session1, db2, task)
          /\ In attendance (attendances db2)
          /\ recordsFor db2 (Student._id student) courseId day = 1%nat)
  /\ (forall clk body,
        mm_studentId body = Student._id student ->
        mm_courseId body = courseId ->
        falsy (mm_classId body) = false ->
        In (mm_status body) ["present"; "late"; "absent"] ->
        startOfDay env (clk 0%nat) = day ->
        exists attendance db2,
          manualMarkAttendance env clk body db1
            = (Marked attendance (Student.fullName student) (Student.rollNo student),
               db2)
          /\ In attendance (attendances db2)
          /\ recordsFor db2 (Student._id student) courseId day = 1%nat).
Proof.
  intros Hfind Hkey Hone Hstu Hen Fs Fk Fc db1.
  pose proof (cancelAttendance_found attendanceId db record Hfind) as Hc.
  assert (Hdb1 : db1 =
            {| attendances :=
                 removeFirst (fun a => Nat.eqb (Attendance._id a) attendanceId)
                   (attendances db);
               nextId := nextId db;
               students := students db;
               settings := settings db |})
    by (unfold db1; rewrite Hc; reflexivity).
  assert (Hzero : recordsFor db1 (Student._id student) courseId day = 0%nat).
  { rewrite Hdb1. unfold recordsFor in *. cbn [attendances].
    pose proof (removeFirst_filter _ (sameKey (Student._id student) courseId day)
                  _ _ Hfind Hkey) as E.
    lia. }
  assert (Hstu1 : Student_findById db1 (Student._id student) = Some student)
    by (rewrite Hdb1; exact Hstu).
  assert (Hin1 : In student (students db1)).
  { unfold Student_findById in Hstu1. apply find_some in Hstu1. tauto. }
  pose proof (unmarked_when_no_record db1 student courseId day Hin1 Hen Hzero) as Hunm.
  split; [rewrite Hc, Hdb1; reflexivity |].
  split; [exact Hzero |].
  split; [| split].
  - intros clk Hday. split.
    + unfold unmarkedStudents. rewrite Fk, Fc, Hday. cbn [orb].
      do 3 eexists. split; [reflexivity | exact Hunm].
    + intros markAbsent.
      rewrite (endSession_spec env clk
                 (mkEndSessionBody (Student.classRef student) courseId markAbsent)
                 db1 Fk Fc).
      cbn [fst es_classId es_courseId].
      rewrite Hday. do 4 eexists. split; [reflexivity | exact Hunm].
  - intros clk body session Hs Hco Hcl Hday.
    assert (Hnone : Attendance_findOne db1 (mb_studentId body) (mb_courseId body)
                      (startOfDay env (clk 0%nat)) = None).
    { rewrite Hs, Hco, Hday. apply findOne_None_filter. exact Hzero. }
    rewrite (markAttendance_fresh env clk body session db1 student);
      try assumption; try (rewrite ?Hs, ?Hco; assumption).
    do 4 eexists. split; [reflexivity |]. split.
    + cbn [attendances]. apply in_or_app. right. left. reflexivity.
    + unfold recordsFor in *. cbn [attendances]. rewrite filter_app, length_app, Hzero.
      cbn [filter]. unfold sameKey at 1. cbn [biometricDoc Attendance.studentRef
        Attendance.courseRef Attendance.sessionDate].
      rewrite Hs, Hco, Hday, !String.eqb_refl, dateEqb_refl. reflexivity.
  - intros clk body Hs Hco Hcl Hst Hday.
    assert (Hnone : Attendance_findOne db1 (mm_studentId body) (mm_courseId body)
                      (startOfDay env (clk 0%nat)) = None).
    { rewrite Hs, Hco, Hday. apply findOne_None_filter. exact Hzero. }
    rewrite (manualMarkAttendance_fresh env clk body db1 student);
      try assumption; try (rewrite ?Hs, ?Hco; assumption).
    do 2 eexists. split; [reflexivity |]. split.
    + cbn [attendances]. apply in_or_app. right. left. reflexivity.
    + unfold recordsFor in *. cbn [attendances]. rewrite filter_app, length_app, Hzero.
      cbn [filter]. unfold sameKey at 1. cbn [manualDoc Attendance.studentRef
        Attendance.courseRef Attendance.sessionDate].
      rewrite Hs, Hco, Hday, !String.eqb_refl, dateEqb_refl. reflexivity.
Qed.

(** C9 on a ledger with one biometric mark, which is then cancelled. *)
Lemma C9_cancel_then_mark_again_witness :
  let student := sampleStudent "s1" "k1" None in
  let db := st_db (run utcEnv
                     [MarkBiometric noon (mkMarkBody "s1" "c1" "k1" Undefined None)]
                     (initialState [student])) in
  recordsFor db "s1" "c1" (startOfDay utcEnv (noon 0%nat)) = 1%nat
  /\ recordsFor (snd (cancelAttendance 0 db)) "s1" "c1"
       (startOfDay utcEnv (noon 0%nat)) = 0%nat.
Proof.
  cbv zeta. split; [reflexivity |].
  refine (proj1 (proj2
           (C9_cancel_then_mark_again utcEnv _ 0
              (biometricDoc (mkMarkBody "s1" "c1" "k1" Undefined None) "late"
                 (startOfDay utcEnv 43200000) 43200000 0)
              (sampleStudent "s1" "k1" None) "c1"
              (startOfDay utcEnv 43200000) _ _ _ _ _ _ _ _)));
    reflexivity.
Defined.

(* ================================================================= *)
(** ** The confidence score of a biometric mark *)

Lemma truthy_zero : truthy (Number (Fin 0%R)) = false.
Proof. simpl. rewrite Rzero_0. reflexivity. Qed.

Lemma truthy_nonzero (x : R) : x <> 0%R -> truthy (Number (Fin x)) = true.
Proof. intros H. simpl. rewrite Rzero_nonzero by exact H. reflexivity. Qed.

(** A falsy score never reaches the acceptance threshold. *)
Lemma falsy_below_threshold (strToNumber : string -> num) (v : value) :
  truthy v = false -> geb (toNumber strToNumber v) (Fin (6 / 10)%R) = false.
Proof.
  assert (Z0 : geb (Fin 0%R) (Fin (6 / 10)%R) = false).
  { unfold geb. destruct (Rle_dec (6 / 10) 0); [lra | reflexivity]. }
  destruct v as [| | b | [x | s |] | s]; simpl; intros H;
    try discriminate; try exact Z0; try reflexivity.
  - subst b. exact Z0.
  - apply negb_false_iff in H. unfold Rzero in H.
    destruct (Req_dec_T x 0); [subst x; exact Z0 | discriminate].
  - apply negb_false_iff in H. rewrite H. exact Z0.
Qed.

Lemma fusionTask_needs_confidence (env : Env) (body : MarkBody)
    (student : Student.t) :
  truthy (mb_confidenceScore body) = false -> fusionTask env body student = None.
Proof.
  intros H. unfold fusionTask.
  destruct (mb_faceDescriptor body); [| reflexivity].
  rewrite (falsy_below_threshold _ _ H), andb_false_r. reflexivity.
Qed.

(** C10.  A biometric marking request with all identifiers, for a key
    without a record and a student that resolves, is answered 200 and
    creates a record with source 'facial_recognition'.  When the
    supplied confidence is missing, zero or otherwise falsy the record
    stores confidence 0 and no descriptor update is scheduled; when it
    is a non-zero number the record stores exactly that number. *)
Theorem C10_confidence_defaults_to_zero (env : Env) (clk : Clock)
    (body : MarkBody) (session : Session) (db : Db) (student : Student.t) :
  falsy (mb_studentId body) = false ->
  falsy (mb_courseId body) = false ->
  falsy (mb_classId body) = false ->
  Attendance_findOne db (mb_studentId body) (mb_courseId body)
    (startOfDay env (clk 0%nat)) = None ->
  Student_findById db (mb_studentId body) = Some student ->
  exists attendance session1 db1 task,
    markAttendance env clk body session db
      = (Marked attendance (Student.fullName student) (Student.rollNo student),
         session1, db1, task)
    /\ In attendance (attendances db1)
    /\ Attendance.markedBy attendance = "facial_recognition"
    /\ (mb_confidenceScore body = Undefined
        \/ mb_confidenceScore body = Number (Fin 0%R)
        \/ truthy (mb_confidenceScore body) = false ->
        Attendance.confidenceScore attendance = Number (Fin 0%R)
        /\ task = None)
    /\ (forall x : R,
          mb_confidenceScore body = Number (Fin x) -> x <> 0%R ->
          Attendance.confidenceScore attendance = Number (Fin x)).
Proof.
  intros H1 H2 H3 Hnone Hstu.
  rewrite (markAttendance_fresh env clk body session db student H1 H2 H3 Hnone Hstu).
  do 4 eexists. split; [reflexivity |].
  split; [cbn [attendances]; apply in_or_app; right; left; reflexivity |].
  split; [reflexivity |].
  cbn [biometricDoc Attendance.confidenceScore]. split.
  - intros Hf.
    assert (F : truthy (mb_confidenceScore body) = false).
    { destruct Hf as [-> | [-> | F]];
        [reflexivity | apply truthy_zero | exact F]. }
    split.
    + unfold or_else. rewrite F. reflexivity.
    + apply fusionTask_needs_confidence. exact F.
  - intros x -> Hx. unfold or_else. rewrite (truthy_nonzero x Hx). reflexivity.
Qed.

(** C10 for a request that carries no confidence score. *)
Lemma C10_confidence_defaults_to_zero_witness :
  exists attendance session1 db1 task,
    markAttendance utcEnv noon (mkMarkBody "s1" "c1" "k1" Undefined None)
      freshSession (emptyLedger [sampleStudent "s1" "k1" None])
      = (Marked attendance "Student s1" "s1", session1, db1, task)
    /\ Attendance.confidenceScore attendance = Number (Fin 0%R)
    /\ task = None.
Proof.
  destruct (C10_confidence_defaults_to_zero utcEnv noon
              (mkMarkBody "s1" "c1" "k1" Undefined None) freshSession
              (emptyLedger [sampleStudent "s1" "k1" None])
              (sampleStudent "s1" "k1" None)
              eq_refl eq_refl eq_refl eq_refl eq_refl)
    as (attendance & session1 & db1 & task & E & _ & _ & F & _).
  exists attendance, session1, db1, task.
  split; [exact E |]. apply F. left. reflexivity.
Defined.

(* ================================================================= *)
(** ** One record per member, course and day *)

Lemma sameKey_eq (s c : ObjectId) (d : Date) (a : Attendance.t) :
  sameKey s c d a = true ->
  Attendance.studentRef a = s /\ Attendance.courseRef a = c
  /\ Attendance.sessionDate a = d.
Proof.
  unfold sameKey. intros H.
  apply andb_true_iff in H. destruct H as [H Hd].
  apply andb_true_iff in H. destruct H as [Hs Hc].
  apply String.eqb_eq in Hs, Hc. apply dateEqb_eq in Hd. auto.
Qed.

Lemma sameSession_eq (c k : ObjectId) (d : Date) (a : Attendance.t) :
  sameSession c k d a = true ->
  Attendance.courseRef a = c /\ Attendance.classRef a = k
  /\ Attendance.sessionDate a = d.
Proof.
  unfold sameSession. intros H.
  apply andb_true_iff in H. destruct H as [H Hd].
  apply andb_true_iff in H. destruct H as [Hc Hk].
  apply String.eqb_eq in Hc, Hk. apply dateEqb_eq in Hd. auto.
Qed.

Lemma filter_length_pos {A : Type} (p : A -> bool) (l : list A) :
  (0 < length (filter p l))%nat -> exists x, In x l /\ p x = true.
Proof.
  destruct (filter p l) as [| x r] eqn:F; simpl; [lia |]. intros _.
  exists x. apply filter_In. rewrite F. left. reflexivity.
Qed.

(** Records with pairwise distinct students hold at most one per key. *)
Lemma uniqueKeys_distinct_students (l : list Attendance.t) :
  NoDup (map Attendance.studentRef l) -> uniqueKeys l.
Proof.
  intros Hnd s c d. induction l as [| a l IH]; simpl; [lia |].
  inversion Hnd as [| x xs Hnotin Hnd']; subst.
  specialize (IH Hnd').
  destruct (sameKey s c d a) eqn:K; [| lia].
  simpl. destruct (filter (sameKey s c d) l) as [| b r] eqn:F; [simpl; lia |].
  exfalso. apply Hnotin.
  assert (Hb : In b (filter (sameKey s c d) l)) by (rewrite F; left; reflexivity).
  apply filter_In in Hb. destruct Hb as [Hin Kb].
  apply sameKey_eq in K, Kb.
  replace (Attendance.studentRef a) with (Attendance.studentRef b)
    by (destruct K, Kb; congruence).
  apply in_map. exact Hin.
Qed.

(** Appending records keeps the keys unique when the new records are
    unique among themselves and their keys are not yet taken. *)
Lemma uniqueKeys_app (l created : list Attendance.t) :
  uniqueKeys l -> uniqueKeys created ->
  (forall a, In a created ->
     filter (sameKey (Attendance.studentRef a) (Attendance.courseRef a)
               (Attendance.sessionDate a)) l = []) ->
  uniqueKeys (l ++ created).
Proof.
  intros Hl Hc Hfree s c d. rewrite filter_app, length_app.
  specialize (Hl s c d). specialize (Hc s c d).
  destruct (Nat.eq_dec (length (filter (sameKey s c d) created)) 0) as [E | E];
    [lia |].
  destruct (filter_length_pos (sameKey s c d) created ltac:(lia)) as (a & Ha & K).
  apply sameKey_eq in K. destruct K as (Ks & Kc & Kd).
  specialize (Hfree a Ha). rewrite Ks, Kc, Kd in Hfree. rewrite Hfree.
  simpl. lia.
Qed.

Lemma uniqueKeys_removeFirst (p : Attendance.t -> bool) (l : list Attendance.t) :
  uniqueKeys l -> uniqueKeys (removeFirst p l).
Proof.
  intros H s c d. specialize (H s c d).
  assert (L : (length (filter (sameKey s c d) (removeFirst p l))
               <= length (filter (sameKey s c d) l))%nat).
  { clear H. induction l as [| x l IH]; simpl; [lia |].
    destruct (p x); simpl; destruct (sameKey s c d x); simpl; lia. }
  lia.
Qed.

Lemma removeFirst_incl {A : Type} (p : A -> bool) (l : list A) (x : A) :
  In x (removeFirst p l) -> In x l.
Proof.
  induction l as [| y l IH]; simpl; [tauto |].
  destruct (p y); simpl; tauto.
Qed.

(** Selecting students of a roster keeps their identifiers distinct. *)
Lemma distinct_ids_filter (keep : Student.t -> bool) (roster : list Student.t) :
  NoDup (map Student._id roster) ->
  NoDup (map Student._id (filter keep roster)).
Proof.
  induction roster as [| x l IH]; simpl; intros H; [constructor |].
  inversion H as [| y ys Hnotin Hnd]; subst.
  destruct (keep x); simpl; [| exact (IH Hnd)].
  constructor; [| exact (IH Hnd)].
  intros Hin. apply Hnotin. apply in_map_iff in Hin.
  destruct Hin as (z & Ez & Hz). apply filter_In in Hz.
  rewrite <- Ez. apply in_map. tauto.
Qed.

Lemma NoDup_map_same {A B : Type} (f : A -> B) (l : list A) (x y : A) :
  NoDup (map f l) -> In x l -> In y l -> f x = f y -> x = y.
Proof.
  induction l as [| z l IH]; simpl; intros H Hx Hy E; [tauto |].
  inversion H as [| w ws Hnotin Hnd]; subst.
  destruct Hx as [-> | Hx], Hy as [-> | Hy]; try reflexivity.
  - exfalso. apply Hnotin. rewrite E. apply in_map. exact Hy.
  - exfalso. apply Hnotin. rewrite <- E. apply in_map. exact Hx.
  - exact (IH Hnd Hx Hy E).
Qed.

Lemma updateFirst_map {A B : Type} (g : A -> B) (p : A -> bool) (f : A -> A)
    (l : list A) :
  (forall x, g (f x) = g x) -> map g (updateFirst p f l) = map g l.
Proof.
  intros H. induction l as [| x l IH]; simpl; [reflexivity |].
  destruct (p x); simpl; [rewrite H | rewrite IH]; reflexivity.
Qed.

Section Uniqueness.

Variable env : Env.

Lemma ledgerInvariant_create (db db' : Db) (a : Attendance.t) :
  ledgerInvariant db ->
  attendances db' = (attendances db ++ [a])%list ->
  students db' = students db ->
  Attendance_findOne db (Attendance.studentRef a) (Attendance.courseRef a)
    (Attendance.sessionDate a) = None ->
  (forall s, In s (students db) -> Student._id s = Attendance.studentRef a ->
             Student.classRef s = Attendance.classRef a) ->
  ledgerInvariant db'.
Proof.
  intros (U & C & N) Ea Es Hnone Hclass. unfold ledgerInvariant, classesAgree.
  rewrite Ea, Es. split; [| split; [| exact N]].
  - apply uniqueKeys_app; [exact U | |].
    + apply uniqueKeys_distinct_students. simpl. repeat constructor. simpl. tauto.
    + intros b [<- | []]. apply length_zero_iff_nil.
      apply (proj1 (findOne_None_filter db _ _ _)). exact Hnone.
  - intros b s Hb Hs E. apply in_app_or in Hb.
    destruct Hb as [Hb | [<- | []]]; [exact (C b s Hb Hs E) |].
    exact (Hclass s Hs E).
Qed.

Lemma ledgerInvariant_same_records (db db' : Db) :
  ledgerInvariant db ->
  attendances db' = attendances db ->
  map (fun s => (Student._id s, Student.classRef s)) (students db')
  = map (fun s => (Student._id s, Student.classRef s)) (students db) ->
  ledgerInvariant db'.
Proof.
  intros (U & C & N) Ea Es. unfold ledgerInvariant, classesAgree.
  rewrite Ea. split; [exact U |]. split.
  - intros a s Ha Hs E.
    assert (Hp : In (Student._id s, Student.classRef s)
                    (map (fun s => (Student._id s, Student.classRef s)) (students db))).
    { rewrite <- Es.
      exact (in_map (fun s => (Student._id s, Student.classRef s)) _ _ Hs). }
    apply in_map_iff in Hp. destruct Hp as (s0 & E0 & Hs0).
    injection E0 as Eid Ecl. rewrite <- Ecl. apply (C a s0 Ha Hs0). congruence.
  - replace (map Student._id (students db'))
      with (map fst (map (fun s => (Student._id s, Student.classRef s)) (students db')))
      by (rewrite map_map; reflexivity).
    rewrite Es, map_map. exact N.
Qed.

Lemma step_preserves (op : Op) (st : State) :
  ledgerInvariant (st_db st) ->
  filedUnderOwnClass (st_db st) op ->
  ledgerInvariant (st_db (snd (step env op st))).
Proof.
  intros Inv Hop. destruct op as [clk body | clk body | clk body | id | now].
  - (* MarkBiometric *)
    cbn [step]. unfold markAttendance.
    destruct (falsy (mb_studentId body) || falsy (mb_courseId body)
              || falsy (mb_classId body)); [exact Inv |].
    destruct (Attendance_findOne (st_db st) _ _ _) eqn:F; [exact Inv |].
    destruct (loadSettings_keeps env (st_session st) (st_db st)) as (Ka & Kn & Ks).
    destruct (loadSettings env (st_session st) (st_db st)) as [[cfg s1] d1].
    cbn [snd] in Ka, Kn, Ks.
    assert (Inv1 : ledgerInvariant d1)
      by (apply (ledgerInvariant_same_records (st_db st));
          [exact Inv | exact Ka | rewrite Ks; reflexivity]).
    destruct (Student_findById d1 (mb_studentId body)); [| exact Inv1].
    cbn [Attendance_create snd st_db].
    eapply (ledgerInvariant_create d1); [exact Inv1 | reflexivity | reflexivity | |].
    + cbn [biometricDoc Attendance.studentRef Attendance.courseRef
           Attendance.sessionDate].
      unfold Attendance_findOne in *. rewrite Ka. exact F.
    + cbn [biometricDoc Attendance.studentRef Attendance.classRef].
      rewrite Ks. exact Hop.
  - (* MarkManual *)
    cbn [step]. unfold manualMarkAttendance.
    destruct (falsy (mm_studentId body) || falsy (mm_courseId body)
              || falsy (mm_classId body) || String.eqb (mm_status body) "");
      [exact Inv |].
    destruct (negb _); [exact Inv |].
    destruct (Attendance_findOne (st_db st) _ _ _) eqn:F; [exact Inv |].
    cbn [Attendance_create].
    assert (Inv1 : ledgerInvariant
              {| attendances :=
                   (attendances (st_db st) ++
                    [manualDoc body (startOfDay env (clk 0%nat)) (clk 1%nat)
                       (nextId (st_db st))])%list;
                 nextId := S (nextId (st_db st));
                 students := students (st_db st);
                 settings := settings (st_db st) |}).
    { eapply (ledgerInvariant_create (st_db st));
        [exact Inv | reflexivity | reflexivity | exact F | exact Hop]. }
    destruct (Student_findById _ _); exact Inv1.
  - (* Finalize *)
    cbn [step].
    destruct (falsy (es_classId body)) eqn:F1;
      [unfold endSession; rewrite F1; exact Inv |].
    destruct (falsy (es_courseId body)) eqn:F2;
      [unfold endSession; rewrite F1, F2; exact Inv |].
    rewrite (endSession_spec env clk body (st_db st) F1 F2). cbn [snd st_db].
    destruct Inv as (U & C & N).
    set (day := startOfDay env (clk 0%nat)).
    set (allStudents := Student_find_enrolled (st_db st) (es_classId body)).
    set (marked := markedToday (st_db st) (es_classId body) (es_courseId body) day).
    set (unmarked := unmarkedOf allStudents marked).
    destruct (match es_markAbsent body with Some b => b | None => true end).
    2:{ unfold ledgerInvariant, classesAgree. cbn [attendances students].
        rewrite app_nil_r. auto. }
    set (created := assignIds (nextId (st_db st))
                      (mapi (absentDoc (es_classId body) (es_courseId body) day clk)
                            unmarked)).
    assert (Hrefs : map Attendance.studentRef created = map Student._id unmarked)
      by apply absent_records_students.
    assert (Hsess : forall a, In a created ->
                      sameSession (es_courseId body) (es_classId body) day a = true)
      by (intros a Ha; exact (proj1 (absent_records_session _ _ _ _ _ _ _ _ Ha))).
    assert (Hwho : forall a, In a created ->
              exists u, In u (students (st_db st))
                        /\ Student._id u = Attendance.studentRef a
                        /\ Student.classRef u = es_classId body
                        /\ Set_has (Set_of (map Attendance.sel_studentRef marked))
                             (Student._id u) = false).
    { intros a Ha.
      assert (Hin : In (Attendance.studentRef a) (map Student._id unmarked))
        by (rewrite <- Hrefs; apply in_map; exact Ha).
      apply in_map_iff in Hin. destruct Hin as (u & Eu & Hu).
      unfold unmarked, unmarkedOf in Hu. apply filter_In in Hu.
      destruct Hu as [Hu Hnot]. unfold allStudents, Student_find_enrolled in Hu.
      apply filter_In in Hu. destruct Hu as [Hu Hk].
      apply andb_true_iff in Hk. destruct Hk as [Hk _].
      apply String.eqb_eq in Hk. apply negb_true_iff in Hnot.
      exists u. auto. }
    unfold ledgerInvariant, classesAgree. cbn [attendances students].
    split; [| split; [| exact N]].
    + apply uniqueKeys_app; [exact U | |].
      * apply uniqueKeys_distinct_students. rewrite Hrefs.
        unfold unmarked, unmarkedOf, allStudents, Student_find_enrolled.
        apply distinct_ids_filter, distinct_ids_filter. exact N.
      * intros a Ha. apply filter_nil_iff. intros b Hb.
        destruct (sameKey _ _ _ b) eqn:K; [exfalso | reflexivity].
        destruct (Hwho a Ha) as (u & Hu & Eu & Ek & Hnot).
        destruct (sameSession_eq _ _ _ _ (Hsess a Ha)) as (Ac & Ak & Ad).
        apply sameKey_eq in K. destruct K as (Ks & Kc & Kd).
        assert (Bk : Attendance.classRef b = es_classId body).
        { rewrite <- Ek. symmetry. apply (C b u Hb Hu). congruence. }
        assert (Has : Set_has (Set_of (map Attendance.sel_studentRef marked))
                        (Student._id u) = true).
        { apply Set_has_In. unfold marked, markedToday, Attendance_find_selected.
          rewrite map_map. cbn [Attendance.select_studentRef Attendance.sel_studentRef].
          apply in_map_iff. exists b. split; [congruence |].
          apply filter_In. split; [exact Hb |].
          unfold sameSession.
          rewrite Kc, Ac, Bk, Kd, Ad, !String.eqb_refl, dateEqb_refl. reflexivity. }
        congruence.
    + intros a s Ha Hs E. apply in_app_or in Ha.
      destruct Ha as [Ha | Ha]; [exact (C a s Ha Hs E) |].
      destruct (Hwho a Ha) as (u & Hu & Eu & Ek & _).
      destruct (sameSession_eq _ _ _ _ (Hsess a Ha)) as (_ & Ak & _).
      assert (s = u) by (apply (NoDup_map_same Student._id _ _ _ N Hs Hu); congruence).
      subst s. congruence.
  - (* Cancel *)
    cbn [step]. unfold cancelAttendance, Attendance_findByIdAndDelete.
    destruct (find _ _); [| exact Inv].
    cbn [snd st_db]. destruct Inv as (U & C & N).
    unfold ledgerInvariant, classesAgree. cbn [attendances students].
    split; [apply uniqueKeys_removeFirst; exact U |].
    split; [| exact N].
    intros a s Ha Hs E. apply (C a s); [| exact Hs | exact E].
    eapply removeFirst_incl. exact Ha.
  - (* RunPending *)
    cbn [step]. destruct (st_pending st) as [| task rest]; [exact Inv |].
    cbn [snd st_db]. unfold runFusion.
    destruct (castDescriptor env _); [| exact Inv].
    apply (ledgerInvariant_same_records (st_db st)); [exact Inv | reflexivity |].
    unfold Student_updateDescriptor. cbn [students].
    apply updateFirst_map. reflexivity.
Qed.

(** The invariant that the claim C1 asks for holds along every run
    whose marking requests name the class of the student they mark. *)
Theorem uniqueness_when_classes_agree (ops : list Op) :
  forall st,
    ledgerInvariant (st_db st) ->
    filedAlong env ops st ->
    ledgerInvariant (st_db (run env ops st))
    /\ forall studentId courseId day,
         (recordsFor (st_db (run env ops st)) studentId courseId day <= 1)%nat.
Proof.
  assert (G : forall st, ledgerInvariant (st_db st) -> filedAlong env ops st ->
                         ledgerInvariant (st_db (run env ops st))).
  { induction ops as [| op rest IH]; intros st Inv Hops; [exact Inv |].
    destruct Hops as [Hop Hrest]. unfold run. cbn [fold_left].
    apply (IH (snd (step env op st))); [| exact Hrest].
    apply step_preserves; assumption. }
  intros st Inv Hops. split; [exact (G st Inv Hops) |].
  intros s c d. exact (proj1 (G st Inv Hops) s c d).
Qed.

Lemma ledgerInvariant_initial (roster : list Student.t) :
  NoDup (map Student._id roster) ->
  ledgerInvariant (st_db (initialState roster)).
Proof.
  intros N. unfold ledgerInvariant, classesAgree, uniqueKeys. simpl.
  split; [intros; lia |]. split; [tauto | exact N].
Qed.

End Uniqueness.

(* ================================================================= *)
(** ** Requests that are turned away *)

(** X1.  A marking request with a missing identifier, a manual one with
    a missing or unknown status, and an end-of-session request without
    class or course are answered 400 without the [alreadyMarked] flag
    and leave the database, the session and the scheduled updates as
    they were, whatever the ledger holds. *)
Theorem X1_invalid_request_changes_nothing (env : Env) (st : State) :
  (forall clk body,
     falsy (mb_studentId body) || falsy (mb_courseId body)
       || falsy (mb_classId body) = true ->
     step env (MarkBiometric clk body) st
     = (Some (Error 400 "Missing required fields" false), st))
  /\ (forall clk body,
        falsy (mm_studentId body) || falsy (mm_courseId body)
          || falsy (mm_classId body) || String.eqb (mm_status body) "" = true ->
        step env (MarkManual clk body) st
        = (Some (Error 400 "Missing required fields" false), st))
  /\ (forall clk body,
        falsy (mm_studentId body) || falsy (mm_courseId body)
          || falsy (mm_classId body) || String.eqb (mm_status body) "" = false ->
        ~ In (mm_status body) ["present"; "late"; "absent"] ->
        step env (MarkManual clk body) st
        = (Some (Error 400 "Invalid status. Must be present, late, or absent" false),
           st))
  /\ (forall clk body,
        falsy (es_classId body) || falsy (es_courseId body) = true ->
        step env (Finalize clk body) st
        = (Some (Error 400 "Class ID and Course ID are required" false), st)).
Proof.
  split; [| split; [| split]].
  - intros clk body H. unfold step, markAttendance. rewrite H.
    rewrite app_nil_r. destruct st; reflexivity.
  - intros clk body H. unfold step, manualMarkAttendance. rewrite H.
    destruct st; reflexivity.
  - intros clk body H Hno. unfold step, manualMarkAttendance. rewrite H.
    assert (E : existsb (String.eqb (mm_status body))
                  ["present"; "late"; "absent"] = false).
    { destruct (existsb _ _) eqn:X; [| reflexivity].
      exfalso. apply Hno. apply existsb_exists in X.
      destruct X as (x & Hx & Ex). apply String.eqb_eq in Ex. subst x. exact Hx. }
    rewrite E. cbn [negb]. destruct st; reflexivity.
  - intros clk body H. unfold step, endSession. rewrite H.
    destruct st; reflexivity.
Qed.

(** X1 for a manual request with status "excused" on a ledger that
    already holds a record of the same student. *)
Lemma X1_invalid_request_changes_nothing_witness :
  let st := run utcEnv [MarkManual noon (mkManualBody "s1" "c1" "k1" "late")]
              (initialState [sampleStudent "s1" "k1" None]) in
  step utcEnv (MarkManual noon (mkManualBody "s1" "c1" "k1" "excused")) st
  = (Some (Error 400 "Invalid status. Must be present, late, or absent" false), st).
Proof.
  cbv zeta.
  refine (proj1 (proj2 (proj2 (X1_invalid_request_changes_nothing utcEnv _)))
            noon (mkManualBody "s1" "c1" "k1" "excused") _ _).
  - reflexivity.
  - simpl. intros [H | [H | [H | []]]]; discriminate H.
Defined.

(** X2.  A biometric request for a student that does not resolve is
    answered 404: no record is created, no update is scheduled and the
    students are untouched.  The settings have been loaded by then, so
    the session leaves with them cached, and the Settings collection
    has gained the default document when the user had none. *)
Theorem X2_unknown_student_is_not_marked (env : Env) (clk : Clock)
    (body : MarkBody) (session : Session) (db : Db) :
  falsy (mb_studentId body) = false ->
  falsy (mb_courseId body) = false ->
  falsy (mb_classId body) = false ->
  Attendance_findOne db (mb_studentId body) (mb_courseId body)
    (startOfDay env (clk 0%nat)) = None ->
  Student_findById db (mb_studentId body) = None ->
  exists session1 db1,
    markAttendance env clk body session db
      = (Error 404 "Student not found" false, session1, db1, None)
    /\ attendances db1 = attendances db
    /\ nextId db1 = nextId db
    /\ students db1 = students db
    /\ (exists loaded, cachedSettings session1 = Some loaded)
    /\ (cachedSettings session = None ->
        Settings_findOne db (sess_userId session) (markingUserModel session) = None ->
        exists created,
          settings db1 = (settings db ++ [created])%list
          /\ cachedSettings session1 = Some created
          /\ Settings.lateCutoffTime created = defaultLateCutoffTime env).
Proof.
  intros H1 H2 H3 Hnone Hstu.
  unfold markAttendance. rewrite H1, H2, H3, Hnone. cbn [orb].
  destruct (loadSettings_keeps env session db) as (Ka & Kn & Ks).
  unfold loadSettings, markingUserModel in *.
  destruct (cachedSettings session) as [cached |] eqn:C.
  - cbn [snd] in *. rewrite Hstu. exists session, db.
    repeat split; try reflexivity.
    + exists cached. exact C.
    + discriminate.
  - destruct (Settings_findOne db _ _) as [found |] eqn:F.
    + cbn [snd] in *. rewrite Hstu. do 2 eexists.
      repeat split; try reflexivity.
      * eexists. reflexivity.
      * intros _ Habs. discriminate Habs.
    + cbn [Settings_create snd] in *.
      unfold Student_findById in *. cbn [students]. rewrite Hstu.
      do 2 eexists. repeat split; try reflexivity.
      * eexists. reflexivity.
      * intros _ _. eexists. repeat split; reflexivity.
Qed.

(** X2 for a fresh session and an empty roster. *)
Lemma X2_unknown_student_is_not_marked_witness :
  exists session1 db1,
    markAttendance utcEnv noon (mkMarkBody "s9" "c1" "k1" Undefined None)
      freshSession (emptyLedger [])
      = (Error 404 "Student not found" false, session1, db1, None)
    /\ attendances db1 = [].
Proof.
  destruct (X2_unknown_student_is_not_marked utcEnv noon
              (mkMarkBody "s9" "c1" "k1" Undefined None) freshSession
              (emptyLedger []) eq_refl eq_refl eq_refl eq_refl eq_refl)
    as (session1 & db1 & E & A & _).
  exists session1, db1. split; [exact E | exact A].
Defined.

Lemma find_after_miss {A : Type} (p : A -> bool) (l more : list A) :
  find p l = None -> find p (l ++ more) = find p more.
Proof.
  induction l as [| x l IH]; simpl; [reflexivity |].
  destruct (p x); [discriminate | exact IH].
Qed.

Lemma find_before {A : Type} (p : A -> bool) (l more : list A) (x : A) :
  find p l = Some x -> find p (l ++ more) = Some x.
Proof.
  induction l as [| y l IH]; simpl; [discriminate |].
  destruct (p y); [tauto | exact IH].
Qed.

(** X3.  A manual request for a student that does not resolve still
    creates the record, with the requested status and key, and then
    answers 500.  Repeating the request on the same day is answered 400
    with [alreadyMarked: true]. *)
Theorem X3_manual_mark_of_unknown_student_is_stored (env : Env) (clk : Clock)
    (body : ManualBody) (db : Db) :
  falsy (mm_studentId body) = false ->
  falsy (mm_courseId body) = false ->
  falsy (mm_classId body) = false ->
  In (mm_status body) ["present"; "late"; "absent"] ->
  Attendance_findOne db (mm_studentId body) (mm_courseId body)
    (startOfDay env (clk 0%nat)) = None ->
  Student_findById db (mm_studentId body) = None ->
  exists record db1,
    manualMarkAttendance env clk body db
      = (Error 500 "Cannot read properties of null (reading 'fullName')" false, db1)
    /\ attendances db1 = (attendances db ++ [record])%list
    /\ Attendance.studentRef record = mm_studentId body
    /\ Attendance.courseRef record = mm_courseId body
    /\ Attendance.status record = mm_status body
    /\ Attendance.sessionDate record = startOfDay env (clk 0%nat)
    /\ (forall clk',
          startOfDay env (clk' 0%nat) = startOfDay env (clk 0%nat) ->
          manualMarkAttendance env clk' body db1
          = (Error 400 "Attendance already marked for this student" true, db1)).
Proof.
  intros H1 H2 H3 Hst Hnone Hstu.
  assert (E : String.eqb (mm_status body) "" = false
              /\ existsb (String.eqb (mm_status body))
                   ["present"; "late"; "absent"] = true).
  { simpl in Hst. destruct Hst as [<- | [<- | [<- | []]]]; split; reflexivity. }
  destruct E as [E1 E2].
  unfold manualMarkAttendance at 1. rewrite H1, H2, H3, E1, E2, Hnone.
  cbn [orb negb Attendance_create].
  unfold Student_findById in *. cbn [students]. rewrite Hstu.
  do 2 eexists. split; [reflexivity |].
  split; [reflexivity |]. do 4 (split; [reflexivity |]).
  intros clk' Hday. unfold manualMarkAttendance.
  rewrite H1, H2, H3, E1, E2. cbn [orb negb].
  unfold Attendance_findOne in *. cbn [attendances].
  rewrite Hday, find_after_miss by exact Hnone. cbn [find].
  unfold sameKey. cbn [manualDoc Attendance.studentRef Attendance.courseRef
                       Attendance.sessionDate].
  rewrite !String.eqb_refl, dateEqb_refl. reflexivity.
Qed.

(** X3 for an empty roster. *)
Lemma X3_manual_mark_of_unknown_student_is_stored_witness :
  exists record db1,
    manualMarkAttendance utcEnv noon (mkManualBody "s9" "c1" "k1" "present")
      (emptyLedger [])
      = (Error 500 "Cannot read properties of null (reading 'fullName')" false, db1)
    /\ attendances db1 = [record].
Proof.
  destruct (X3_manual_mark_of_unknown_student_is_stored utcEnv noon
              (mkManualBody "s9" "c1" "k1" "present") (emptyLedger [])
              eq_refl eq_refl eq_refl (or_introl eq_refl) eq_refl eq_refl)
    as (record & db1 & E & A & _).
  exists record, db1. split; [exact E | exact A].
Defined.

(* ================================================================= *)
(** ** Settings as the marking route sees them *)

(** X4.  Once the session has settings cached, marking neither reads
    nor writes the Settings collection: on two databases that differ
    only in that collection the answer and the scheduled update are the
    same, the session is left as it was, and each collection is left as
    it was.  A cut-off changed in the store is therefore not seen by a
    session that has the old one cached. *)
Theorem X4_cached_settings_shadow_the_store (env : Env) (clk : Clock)
    (body : MarkBody) (session : Session) (db db' : Db) (cached : Settings.t) :
  cachedSettings session = Some cached ->
  attendances db' = attendances db ->
  nextId db' = nextId db ->
  students db' = students db ->
  fst (fst (fst (markAttendance env clk body session db')))
    = fst (fst (fst (markAttendance env clk body session db)))
  /\ snd (markAttendance env clk body session db')
     = snd (markAttendance env clk body session db)
  /\ snd (fst (fst (markAttendance env clk body session db))) = session
  /\ settings (snd (fst (markAttendance env clk body session db))) = settings db
  /\ settings (snd (fst (markAttendance env clk body session db'))) = settings db'.
Proof.
  intros Hc Ea En Es.
  unfold markAttendance.
  destruct (falsy (mb_studentId body) || falsy (mb_courseId body)
            || falsy (mb_classId body)); [cbn; auto |].
  unfold Attendance_findOne. rewrite Ea.
  destruct (find _ (attendances db)); [cbn; auto |].
  rewrite !(loadSettings_cached env session _ cached Hc).
  unfold Student_findById. rewrite Es.
  destruct (find _ (students db)); [| cbn; auto].
  unfold Attendance_create. rewrite En. cbn. auto.
Qed.

(** X4 for a session that has "10:30" cached while the store holds
    "08:00" for the same user. *)
Lemma X4_cached_settings_shadow_the_store_witness :
  let db := emptyLedger [sampleStudent "s1" "k1" None] in
  let db' := {| attendances := []; nextId := 0;
                students := [sampleStudent "s1" "k1" None];
                settings := [ {| Settings.userId := "t1";
                                 Settings.userModel := "Teacher";
                                 Settings.lateCutoffTime := "08:00" |} ] |} in
  let body := mkMarkBody "s1" "c1" "k1" Undefined None in
  fst (fst (fst (markAttendance utcEnv noon body (teacherSession "10:30") db')))
  = fst (fst (fst (markAttendance utcEnv noon body (teacherSession "10:30") db))).
Proof.
  cbv zeta.
  refine (proj1 (X4_cached_settings_shadow_the_store utcEnv noon _
                   (teacherSession "10:30") _ _ _ eq_refl eq_refl eq_refl eq_refl)).
Defined.

(** X5.  A session without cached settings loads them from the store
    under its user id and user model ('Teacher' when the session names
    none).  The first matching document is used when there is one and
    the store is left as it was; otherwise one document with the
    default cut-off is appended.  Either way the document is cached,
    the store then holds it under that key, and loading again changes
    nothing. *)
Theorem X5_settings_are_loaded_once (env : Env) (session : Session) (db : Db) :
  cachedSettings session = None ->
  exists loaded session1 db1,
    loadSettings env session db = (loaded, session1, db1)
    /\ cachedSettings session1 = Some loaded
    /\ sess_userId session1 = sess_userId session
    /\ Settings_findOne db1 (sess_userId session) (markingUserModel session)
       = Some loaded
    /\ (forall found,
          Settings_findOne db (sess_userId session) (markingUserModel session)
            = Some found ->
          loaded = found /\ db1 = db)
    /\ (Settings_findOne db (sess_userId session) (markingUserModel session) = None ->
        settings db1 = (settings db ++ [loaded])%list
        /\ Settings.userId loaded = sess_userId session
        /\ Settings.userModel loaded = markingUserModel session
        /\ Settings.lateCutoffTime loaded = defaultLateCutoffTime env)
    /\ loadSettings env session1 db1 = (loaded, session1, db1).
Proof.
  intros Hc. unfold loadSettings at 1. fold (markingUserModel session). rewrite Hc.
  destruct (Settings_findOne db (sess_userId session) (markingUserModel session))
    as [found |] eqn:F.
  - do 3 eexists. split; [reflexivity |]. split; [reflexivity |].
    split; [reflexivity |]. split; [exact F |].
    split; [intros f [= <-]; auto |]. split; [discriminate |].
    reflexivity.
  - cbn [Settings_create]. do 3 eexists. split; [reflexivity |].
    split; [reflexivity |]. split; [reflexivity |]. split.
    + unfold Settings_findOne in *. cbn [settings].
      rewrite find_after_miss by exact F. cbn [find Settings.userId Settings.userModel].
      rewrite !String.eqb_refl. reflexivity.
    + split; [discriminate |]. split; [intros _; repeat split |]. reflexivity.
Qed.

(** X5 for a teacher whose store is empty. *)
Lemma X5_settings_are_loaded_once_witness :
  exists loaded session1 db1,
    loadSettings utcEnv freshSession (emptyLedger []) = (loaded, session1, db1)
    /\ cachedSettings session1 = Some loaded.
Proof.
  destruct (X5_settings_are_loaded_once utcEnv freshSession (emptyLedger []) eq_refl)
    as (loaded & session1 & db1 & E & C & _).
  exists loaded, session1, db1. split; [exact E | exact C].
Defined.

(* ================================================================= *)
(** ** What the end of a session stores and counts *)

(** X6.  The end of a session never alters or removes a record: the
    ledger it leaves is the old one followed by the records it created,
    and students and settings are untouched.  With [markAbsent] false
    nothing is created.  Otherwise there is exactly one new record per
    unmarked student, in the order of the roster, each 'absent' with
    confidence 0 and source 'system' under the class, course and day of
    the request; the reported absent count is their number. *)
Theorem X6_end_of_session_only_appends (env : Env) (clk : Clock)
    (body : EndSessionBody) (db : Db) :
  falsy (es_classId body) = false ->
  falsy (es_courseId body) = false ->
  let day := startOfDay env (clk 0%nat) in
  let unmarked :=
    unmarkedOf (Student_find_enrolled db (es_classId body))
      (markedToday db (es_classId body) (es_courseId body) day) in
  exists created total present,
    endSession env clk body db
      = (SessionEnded total present (length created) unmarked,
         {| attendances := attendances db ++ created;
            nextId := nextId db + length created;
            students := students db;
            settings := settings db |})
    /\ (es_markAbsent body = Some false -> created = [])
    /\ (es_markAbsent body <> Some false ->
        map Attendance.studentRef created = map Student._id unmarked)
    /\ (forall a, In a created ->
          Attendance.status a = "absent"
          /\ Attendance.confidenceScore a = Number (Fin 0%R)
          /\ Attendance.markedBy a = "system"
          /\ Attendance.courseRef a = es_courseId body
          /\ Attendance.classRef a = es_classId body
          /\ Attendance.sessionDate a = day).
Proof.
  intros H1 H2 day unmarked.
  rewrite (endSession_spec env clk body db H1 H2). fold day. fold unmarked.
  do 3 eexists. split; [reflexivity |].
  split; [intros ->; reflexivity |]. split.
  - intros Hm.
    assert (M : match es_markAbsent body with Some b => b | None => true end = true).
    { destruct (es_markAbsent body) as [[|] |]; congruence. }
    rewrite M. apply absent_records_students.
  - intros a Ha.
    destruct (match es_markAbsent body with Some b => b | None => true end);
      [| destruct Ha].
    destruct (absent_records_session _ _ _ _ _ _ _ _ Ha) as (S1 & S2 & S3 & S4).
    destruct (sameSession_eq _ _ _ _ S1) as (Ec & Ek & Ed). repeat split; assumption.
Qed.

(** X6 for a class of three with nobody marked. *)
Lemma X6_end_of_session_only_appends_witness :
  exists created total present unmarked,
    endSession utcEnv noon (mkEndSessionBody "k1" "c1" None)
      (emptyLedger (rosterOf "k1" 3))
    = (SessionEnded total present (length created) unmarked,
       {| attendances := created;
          nextId := length created;
          students := rosterOf "k1" 3;
          settings := [] |}).
Proof.
  destruct (X6_end_of_session_only_appends utcEnv noon
              (mkEndSessionBody "k1" "c1" None) (emptyLedger (rosterOf "k1" 3))
              eq_refl eq_refl)
    as (created & total & present & E & _).
  exists created, total, present. eexists. exact E.
Defined.

Lemma uniqueKeys_tail (a : Attendance.t) (l : list Attendance.t) :
  uniqueKeys (a :: l) -> uniqueKeys l.
Proof.
  intros U s c d. specialize (U s c d). simpl in U.
  destruct (sameKey s c d a); simpl in U; lia.
Qed.

(** With unique keys, the records of one session name pairwise distinct
    students. *)
Lemma session_students_distinct (courseId classId : ObjectId) (day : Date)
    (l : list Attendance.t) :
  uniqueKeys l ->
  NoDup (map Attendance.studentRef (filter (sameSession courseId classId day) l)).
Proof.
  induction l as [| a l IH]; intros U; simpl; [constructor |].
  pose proof (IH (uniqueKeys_tail _ _ U)) as IH'.
  destruct (sameSession courseId classId day a) eqn:Sa; [| exact IH'].
  simpl. constructor; [| exact IH'].
  intros Hin. apply in_map_iff in Hin. destruct Hin as (b & Eb & Hb).
  apply filter_In in Hb. destruct Hb as [Hb Sb].
  apply sameSession_eq in Sa, Sb.
  destruct Sa as (Ac & _ & Ad), Sb as (Bc & _ & Bd).
  specialize (U (Attendance.studentRef a) courseId day). simpl in U.
  assert (Ka : sameKey (Attendance.studentRef a) courseId day a = true).
  { unfold sameKey. rewrite Ac, Ad, !String.eqb_refl, dateEqb_refl. reflexivity. }
  assert (Kb : sameKey (Attendance.studentRef a) courseId day b = true).
  { unfold sameKey. rewrite Eb, Bc, Bd, !String.eqb_refl, dateEqb_refl. reflexivity. }
  rewrite Ka in U. simpl in U.
  assert (P : (0 < length (filter (sameKey (Attendance.studentRef a) courseId day) l))%nat).
  { destruct (filter (sameKey (Attendance.studentRef a) courseId day) l)
      as [| x r] eqn:F; [| simpl; lia].
    exfalso. pose proof (proj1 (filter_nil_iff _ _) F b Hb). congruence. }
  lia.
Qed.

Lemma split_by_test {A : Type} (p : A -> bool) (l : list A) :
  length l = (length (filter p l) + length (filter (fun x => negb (p x)) l))%nat.
Proof.
  induction l as [| x l IH]; simpl; [reflexivity |].
  destruct (p x); simpl; lia.
Qed.

(** Under the three conditions, the enrolled students that are marked
    are as many as the records of the session. *)
Lemma marked_students_count (db : Db) (courseId classId : ObjectId) (day : Date) :
  NoDup (map Student._id (students db)) ->
  uniqueKeys (attendances db) ->
  sessionOfRoster db courseId classId day ->
  let marked := markedToday db classId courseId day in
  let ids := map Attendance.sel_studentRef marked in
  NoDup ids
  /\ length (filter (fun s => Set_has (Set_of ids) (Student._id s))
               (Student_find_enrolled db classId))
     = length marked.
Proof.
  intros N U R marked ids.
  assert (Eids : ids = map Attendance.studentRef
                         (filter (sameSession courseId classId day) (attendances db))).
  { unfold ids, marked, markedToday, Attendance_find_selected.
    rewrite map_map. reflexivity. }
  assert (Nids : NoDup ids)
    by (rewrite Eids; apply session_students_distinct; exact U).
  split; [exact Nids |].
  set (hit := filter (fun s => Set_has (Set_of ids) (Student._id s))
                (Student_find_enrolled db classId)).
  assert (Nhit : NoDup (map Student._id hit)).
  { unfold hit, Student_find_enrolled.
    apply distinct_ids_filter, distinct_ids_filter. exact N. }
  assert (L1 : (length (map Student._id hit) <= length ids)%nat).
  { apply NoDup_incl_length; [exact Nhit |].
    intros x Hx. apply in_map_iff in Hx. destruct Hx as (s & <- & Hs).
    unfold hit in Hs. apply filter_In in Hs. destruct Hs as [_ Hs].
    apply Set_has_In in Hs. exact Hs. }
  assert (L2 : (length ids <= length (map Student._id hit))%nat).
  { apply NoDup_incl_length; [exact Nids |].
    intros x Hx. pose proof Hx as Hx'. rewrite Eids in Hx'.
    apply in_map_iff in Hx'. destruct Hx' as (a & <- & Ha).
    apply filter_In in Ha. destruct Ha as [Ha Sa].
    destruct (R a Ha Sa) as (s & Hs & Es & Ek & Een).
    rewrite <- Es. apply in_map. unfold hit. apply filter_In. split.
    - unfold Student_find_enrolled. apply filter_In. split; [exact Hs |].
      rewrite Ek, String.eqb_refl, Een. reflexivity.
    - apply Set_has_In. rewrite Es. exact Hx. }
  rewrite !length_map in L1, L2. unfold ids in L2 at 1. rewrite length_map in L2.
  unfold ids in L1. rewrite length_map in L1. lia.
Qed.

(** X7.  When the roster has distinct identifiers, the ledger holds at
    most one record per (student, course, day) and every record of the
    session belongs to an enrolled student of the class, the counts add
    up: the total of the end-of-session answer is its present count
    plus the number of unmarked students (and so present plus absent
    when the absentees are marked), and the total of the unmarked
    query is its marked count plus the number of unmarked students. *)
Theorem X7_session_counts_add_up (env : Env) (clk : Clock)
    (body : EndSessionBody) (db : Db) :
  falsy (es_classId body) = false ->
  falsy (es_courseId body) = false ->
  NoDup (map Student._id (students db)) ->
  uniqueKeys (attendances db) ->
  sessionOfRoster db (es_courseId body) (es_classId body)
    (startOfDay env (clk 0%nat)) ->
  (exists total present absent unmarked,
     fst (endSession env clk body db) = SessionEnded total present absent unmarked
     /\ total = (present + length unmarked)%nat
     /\ (es_markAbsent body <> Some false -> total = (present + absent)%nat))
  /\ (exists unmarked total marked,
        unmarkedStudents env clk (es_classId body) (es_courseId body) db
          = UnmarkedStudents unmarked total marked
        /\ total = (marked + length unmarked)%nat).
Proof.
  intros H1 H2 N U R.
  destruct (marked_students_count db _ _ _ N U R) as [Nids Hcount].
  set (day := startOfDay env (clk 0%nat)) in *.
  set (all := Student_find_enrolled db (es_classId body)) in *.
  set (marked := markedToday db (es_classId body) (es_courseId body) day) in *.
  assert (T : length all = (length marked + length (unmarkedOf all marked))%nat).
  { rewrite (split_by_test
               (fun s => Set_has (Set_of (map Attendance.sel_studentRef marked))
                           (Student._id s)) all).
    rewrite Hcount. reflexivity. }
  split.
  - rewrite (endSession_spec env clk body db H1 H2). cbn [fst].
    fold day. fold all. fold marked.
    do 4 eexists. split; [reflexivity |]. split; [exact T |].
    intros Hm.
    assert (M : match es_markAbsent body with Some b => b | None => true end = true).
    { destruct (es_markAbsent body) as [[|] |]; congruence. }
    rewrite M, assignIds_length. unfold mapi. rewrite mapi_from_length. exact T.
  - unfold unmarkedStudents. rewrite H1, H2. cbn [orb].
    fold day. fold all. fold marked.
    do 3 eexists. split; [reflexivity |].
    unfold Set_of. rewrite (nodup_fixed_point string_dec Nids), length_map.
    exact T.
Qed.

(** X7 for a class of three with one student marked late. *)
Lemma X7_session_counts_add_up_witness :
  let db := st_db (run utcEnv [MarkManual noon (mkManualBody "B" "c1" "k1" "late")]
                     (initialState (rosterOf "k1" 3))) in
  exists unmarked total marked,
    unmarkedStudents utcEnv noon "k1" "c1" db = UnmarkedStudents unmarked total marked
    /\ total = (marked + length unmarked)%nat.
Proof.
  cbv zeta.
  refine (proj2 (X7_session_counts_add_up utcEnv noon
                   (mkEndSessionBody "k1" "c1" None) _ eq_refl eq_refl _ _ _)).
  - vm_compute. repeat constructor; simpl; intuition discriminate.
  - apply uniqueKeys_distinct_students. vm_compute.
    repeat constructor. simpl. tauto.
  - intros a Ha _. vm_compute in Ha. destruct Ha as [<- | []].
    exists (sampleStudent "B" "k1" None). vm_compute. intuition.
Defined.

(* ================================================================= *)
(** ** Cancellation, once more *)

Lemma removeFirst_distinct_ids (id : nat) (l : list Attendance.t) :
  NoDup (map Attendance._id l) ->
  removeFirst (fun a => Nat.eqb (Attendance._id a) id) l
  = filter (fun a => negb (Nat.eqb (Attendance._id a) id)) l.
Proof.
  induction l as [| x l IH]; simpl; intros N; [reflexivity |].
  inversion N as [| y ys Hnotin N']; subst.
  destruct (Nat.eqb (Attendance._id x) id) eqn:E; simpl.
  - apply Nat.eqb_eq in E. symmetry. apply filter_all.
    intros b Hb. apply negb_true_iff, Nat.eqb_neq. intros Eb.
    apply Hnotin. rewrite E, <- Eb. apply in_map. exact Hb.
  - rewrite (IH N'). reflexivity.
Qed.

(** X8.  Cancelling an identifier that no record carries is answered
    404 and changes nothing.  When the identifiers of the ledger are
    distinct, cancelling a record removes that record and no other: the
    remaining records are the others, in their order, one fewer than
    before; students and settings are untouched; and cancelling the
    same identifier again is answered 404. *)
Theorem X8_cancel_removes_one_record (attendanceId : nat) (db : Db) :
  (find (fun a => Nat.eqb (Attendance._id a) attendanceId) (attendances db) = None ->
   cancelAttendance attendanceId db
   = (Error 404 "Attendance record not found" false, db))
  /\ (forall record,
        NoDup (map Attendance._id (attendances db)) ->
        find (fun a => Nat.eqb (Attendance._id a) attendanceId) (attendances db)
          = Some record ->
        exists db1,
          cancelAttendance attendanceId db = (Cancelled record, db1)
          /\ attendances db1
             = filter (fun a => negb (Nat.eqb (Attendance._id a) attendanceId))
                 (attendances db)
          /\ S (length (attendances db1)) = length (attendances db)
          /\ students db1 = students db
          /\ settings db1 = settings db
          /\ nextId db1 = nextId db
          /\ cancelAttendance attendanceId db1
             = (Error 404 "Attendance record not found" false, db1)).
Proof.
  split.
  - intros F. unfold cancelAttendance, Attendance_findByIdAndDelete.
    rewrite F. reflexivity.
  - intros record N F.
    rewrite (cancelAttendance_found attendanceId db record F).
    eexists. split; [reflexivity |]. cbn [attendances students settings nextId].
    rewrite (removeFirst_distinct_ids attendanceId _ N).
    split; [reflexivity |]. split.
    + rewrite <- (removeFirst_distinct_ids attendanceId _ N).
      pose proof (removeFirst_filter
                    (fun a => Nat.eqb (Attendance._id a) attendanceId)
                    (fun _ => true) (attendances db) record F eq_refl) as L.
      rewrite !filter_all in L by reflexivity. exact L.
    + do 3 (split; [reflexivity |]).
      unfold cancelAttendance, Attendance_findByIdAndDelete. cbn [attendances].
      assert (G : find (fun a => Nat.eqb (Attendance._id a) attendanceId)
                    (filter (fun a => negb (Nat.eqb (Attendance._id a) attendanceId))
                       (attendances db)) = None).
      { destruct (find _ (filter _ _)) as [b |] eqn:G; [| reflexivity].
        apply find_some in G. destruct G as [Hb Eb].
        apply filter_In in Hb. destruct Hb as [_ Nb].
        rewrite Eb in Nb. discriminate Nb. }
      rewrite G. reflexivity.
Qed.

(** X8 on a ledger of two manual marks, the first of which is
    cancelled. *)
Lemma X8_cancel_removes_one_record_witness :
  let db := st_db (run utcEnv
                     [MarkManual noon (mkManualBody "A" "c1" "k1" "present");
                      MarkManual noon (mkManualBody "B" "c1" "k1" "late")]
                     (initialState (rosterOf "k1" 2))) in
  exists db1,
    fst (cancelAttendance 0 db)
    = Cancelled (manualDoc (mkManualBody "A" "c1" "k1" "present")
                   (startOfDay utcEnv 43200000) 43200000 0)
    /\ snd (cancelAttendance 0 db) = db1
    /\ length (attendances db1) = 1%nat.
Proof.
  cbv zeta.
  set (db := st_db (run utcEnv
                      [MarkManual noon (mkManualBody "A" "c1" "k1" "present");
                       MarkManual noon (mkManualBody "B" "c1" "k1" "late")]
                      (initialState (rosterOf "k1" 2)))).
  assert (N : NoDup (map Attendance._id (attendances db))).
  { vm_compute. repeat constructor; simpl; intuition discriminate. }
  destruct (proj2 (X8_cancel_removes_one_record 0 db)
              (manualDoc (mkManualBody "A" "c1" "k1" "present")
                 (startOfDay utcEnv 43200000) 43200000 0)
              N eq_refl)
    as (db1 & E & _ & L & _).
  exists db1. rewrite E. split; [reflexivity |]. split; [reflexivity |].
  simpl in L. lia.
Defined.

(* ================================================================= *)
(** ** What the routes never touch *)

(** X9.  Marking, ending a session and cancelling leave the Student
    collection exactly as it was.  Running a scheduled descriptor
    update leaves the ledger, the settings and the session as they
    were, keeps the students in their order and keeps each student's
    identifier, class, enrolment, name and roll number. *)
Theorem X9_students_are_not_touched (env : Env) (op : Op) (st : State) :
  match op with
  | RunPending _ =>
      attendances (st_db (snd (step env op st))) = attendances (st_db st)
      /\ nextId (st_db (snd (step env op st))) = nextId (st_db st)
      /\ settings (st_db (snd (step env op st))) = settings (st_db st)
      /\ st_session (snd (step env op st)) = st_session st
      /\ map identityOf (students (st_db (snd (step env op st))))
         = map identityOf (students (st_db st))
  | _ => students (st_db (snd (step env op st))) = students (st_db st)
  end.
Proof.
  destruct op as [clk body | clk body | clk body | id | now]; cbn [step].
  - unfold markAttendance.
    destruct (falsy _ || falsy _ || falsy _); [reflexivity |].
    destruct (Attendance_findOne _ _ _ _); [reflexivity |].
    destruct (loadSettings_keeps env (st_session st) (st_db st)) as (_ & _ & Ks).
    destruct (loadSettings env (st_session st) (st_db st)) as [[cfg s1] d1].
    cbn [snd] in Ks.
    destruct (Student_findById d1 _); cbn; exact Ks.
  - unfold manualMarkAttendance.
    destruct (falsy _ || falsy _ || falsy _ || _); [reflexivity |].
    destruct (negb _); [reflexivity |].
    destruct (Attendance_findOne _ _ _ _); [reflexivity |].
    cbn [Attendance_create]. destruct (Student_findById _ _); reflexivity.
  - destruct (falsy (es_classId body)) eqn:F1;
      [unfold endSession; rewrite F1; reflexivity |].
    destruct (falsy (es_courseId body)) eqn:F2;
      [unfold endSession; rewrite F1, F2; reflexivity |].
    rewrite (endSession_spec env clk body (st_db st) F1 F2). reflexivity.
  - unfold cancelAttendance, Attendance_findByIdAndDelete.
    destruct (find _ _); reflexivity.
  - destruct (st_pending st) as [| task rest]; [auto |].
    cbn [snd st_db st_session]. unfold runFusion.
    destruct (castDescriptor env _); [| auto].
    unfold Student_updateDescriptor. cbn [attendances nextId settings students].
    repeat split. apply updateFirst_map. reflexivity.
Qed.

(* ================================================================= *)
(** ** Fusion of a descriptor with itself *)




(* ================================================================= *)
(** ** The cut-off over the day and across days *)

Lemma cutoffInstant_same_day (tza t1 t2 h m : Z) :
  Day (LocalTime tza t1) = Day (LocalTime tza t2) ->
  cutoffInstant tza t1 h m = cutoffInstant tza t2 h m.
Proof. unfold cutoffInstant. intros ->. reflexivity. Qed.

(** X11.  Whatever the cut-off string, the status never goes back from
    'late' to 'present' within a local day: if an event is 'late',
    every later event of the same local day is 'late' too. *)
Theorem X11_late_stays_late_within_the_day (env : Env) (s : string) (t1 t2 : Z) :
  Day (LocalTime (LocalTZA env) t1) = Day (LocalTime (LocalTZA env) t2) ->
  t1 <= t2 ->
  classify env s t1 = "late" ->
  classify env s t2 = "late".
Proof.
  intros Hday Hle H1.
  destruct (cutoffHoursOf s) as [h |] eqn:Ph;
    [| rewrite classify_unparsed in H1 by (left; exact Ph); discriminate H1].
  destruct (cutoffMinutesOf s) as [m |] eqn:Pm;
    [| rewrite classify_unparsed in H1 by (right; exact Pm); discriminate H1].
  rewrite (classify_parsed env s t1 h m Ph Pm) in H1.
  rewrite (classify_parsed env s t2 h m Ph Pm).
  cbv zeta in *.
  rewrite <- (cutoffInstant_same_day _ t1 t2 h m Hday).
  destruct (Z.abs _ >? maxTime); [discriminate H1 |].
  destruct (t1 >? _) eqn:G; [| discriminate H1].
  apply Z.gtb_lt in G. rewrite gtb_true by lia. reflexivity.
Qed.

(** X11 for cut-off "09:00": late at 09:30, hence late at 17:00. *)
Lemma X11_late_stays_late_within_the_day_witness :
  classify utcEnv "09:00" (localInstant 0 20000 17 0 0) = "late".
Proof.
  apply (X11_late_stays_late_within_the_day utcEnv "09:00"
           (localInstant 0 20000 9 30 0) (localInstant 0 20000 17 0 0)).
  - reflexivity.
  - vm_compute. discriminate.
  - reflexivity.
Defined.

(** X12.  The status depends on the time of day only: shifting an
    event by whole days does not change it, as long as the cut-off
    instants of both days are representable dates. *)
Theorem X12_status_depends_on_time_of_day (env : Env) (s : string) (t days : Z) :
  (forall h m,
     cutoffHoursOf s = Some h -> cutoffMinutesOf s = Some m ->
     Z.abs (cutoffInstant (LocalTZA env) t h m) <= maxTime
     /\ Z.abs (cutoffInstant (LocalTZA env) (t + days * msPerDay) h m) <= maxTime) ->
  classify env s (t + days * msPerDay) = classify env s t.
Proof.
  intros Hrep.
  destruct (cutoffHoursOf s) as [h |] eqn:Ph;
    [| rewrite !classify_unparsed by (left; exact Ph); reflexivity].
  destruct (cutoffMinutesOf s) as [m |] eqn:Pm;
    [| rewrite !classify_unparsed by (right; exact Pm); reflexivity].
  destruct (Hrep h m eq_refl eq_refl) as [R1 R2].
  rewrite (classify_parsed env s t h m Ph Pm).
  rewrite (classify_parsed env s _ h m Ph Pm). cbv zeta.
  rewrite (gtb_false _ _ R1), (gtb_false _ _ R2).
  assert (Shift : cutoffInstant (LocalTZA env) (t + days * msPerDay) h m
                  = cutoffInstant (LocalTZA env) t h m + days * msPerDay).
  { unfold cutoffInstant, LocalTime, UTC, Day.
    replace (t + days * msPerDay + LocalTZA env)
      with (t + LocalTZA env + days * msPerDay) by ring.
    rewrite Z.div_add by (unfold msPerDay; lia). ring. }
  rewrite Shift.
  destruct (t >? cutoffInstant (LocalTZA env) t h m) eqn:G.
  - apply Z.gtb_lt in G. rewrite gtb_true by lia. reflexivity.
  - rewrite Z.gtb_ltb in G. apply Z.ltb_ge in G.
    rewrite gtb_false by lia. reflexivity.
Qed.

(** X12 for cut-off "09:00" and an event moved by a week. *)
Lemma X12_status_depends_on_time_of_day_witness :
  classify utcEnv "09:00" (localInstant 0 20000 9 30 0 + 7 * msPerDay)
  = classify utcEnv "09:00" (localInstant 0 20000 9 30 0).
Proof.
  apply (X12_status_depends_on_time_of_day utcEnv "09:00").
  intros h m Hh Hm. injection Hh as <-. injection Hm as <-.
  split; vm_compute; discriminate.
Defined.

(** X13.  The session day of an instant is the local midnight at or
    before it: it lies at most one day (exclusive) before the instant,
    it is a whole number of days in local time, and it is its own
    session day.  Two instants have the same session day exactly when
    they fall on the same local day. *)
Theorem X13_session_day_is_local_midnight (env : Env) (t : Z) :
  Z.abs (UTC (LocalTZA env) (Day (LocalTime (LocalTZA env) t) * msPerDay))
    <= maxTime ->
  exists midnight,
    startOfDay env t = Some midnight
    /\ midnight <= t < midnight + msPerDay
    /\ LocalTime (LocalTZA env) midnight mod msPerDay = 0
    /\ startOfDay env midnight = Some midnight
    /\ (forall t',
          Z.abs (UTC (LocalTZA env) (Day (LocalTime (LocalTZA env) t') * msPerDay))
            <= maxTime ->
          (startOfDay env t' = startOfDay env t <->
           Day (LocalTime (LocalTZA env) t') = Day (LocalTime (LocalTZA env) t))).
Proof.
  intros Hrep.
  assert (S : forall u,
             Z.abs (UTC (LocalTZA env) (Day (LocalTime (LocalTZA env) u) * msPerDay))
               <= maxTime ->
             startOfDay env u
             = Some (UTC (LocalTZA env) (Day (LocalTime (LocalTZA env) u) * msPerDay))).
  { intros u Hu. unfold startOfDay, setHours, MakeTime, MakeDate, TimeClip, option_map.
    replace (Day (LocalTime (LocalTZA env) u) * msPerDay
             + (0 * msPerHour + 0 * msPerMinute + 0 * msPerSecond + 0))
      with (Day (LocalTime (LocalTZA env) u) * msPerDay) by ring.
    rewrite gtb_false by exact Hu. reflexivity. }
  set (tza := LocalTZA env) in *.
  exists (UTC tza (Day (LocalTime tza t) * msPerDay)).
  assert (Back : LocalTime tza (UTC tza (Day (LocalTime tza t) * msPerDay))
                 = Day (LocalTime tza t) * msPerDay)
    by (unfold LocalTime, UTC; ring).
  split; [apply S; exact Hrep |]. split.
  - unfold UTC, LocalTime, Day.
    pose proof (Z.mod_pos_bound (t + tza) msPerDay ltac:(unfold msPerDay; lia)) as B.
    pose proof (Z.div_mod (t + tza) msPerDay ltac:(unfold msPerDay; lia)) as D.
    lia.
  - split; [rewrite Back; apply Z.mod_mul; unfold msPerDay; lia |].
    assert (SameDay : Day (LocalTime tza (UTC tza (Day (LocalTime tza t) * msPerDay)))
                      = Day (LocalTime tza t)).
    { rewrite Back. unfold Day at 1. apply Z.div_mul. unfold msPerDay. lia. }
    split.
    + rewrite S; rewrite SameDay; [reflexivity | exact Hrep].
    + intros t' Hrep'. rewrite (S t' Hrep'), (S t Hrep). split.
      * intros [= E]. unfold UTC in E.
        assert (E' : Day (LocalTime tza t') * msPerDay
                     = Day (LocalTime tza t) * msPerDay) by lia.
        apply Z.mul_cancel_r in E'; [exact E' | unfold msPerDay; lia].
      * intros ->. reflexivity.
Qed.

(** X13 for noon of day 0 on a UTC server. *)
Lemma X13_session_day_is_local_midnight_witness :
  exists midnight,
    startOfDay utcEnv 43200000 = Some midnight
    /\ midnight <= 43200000 < midnight + msPerDay.
Proof.
  destruct (X13_session_day_is_local_midnight utcEnv 43200000
              ltac:(vm_compute; discriminate))
    as (midnight & E & B & _).
  exists midnight. split; [exact E | exact B].
Defined.

(* ================================================================= *)
(** ** Today's attendance of a course *)

Lemma dateLeb_total (a b : Date) : dateLeb a b = false -> dateLeb b a = true.
Proof.
  destruct a as [x |], b as [y |]; simpl; try discriminate; try reflexivity.
  intros H. apply Z.leb_gt in H. apply Z.leb_le. lia.
Qed.

Lemma dateLeb_trans (a b c : Date) :
  dateLeb a b = true -> dateLeb b c = true -> dateLeb a c = true.
Proof.
  destruct a as [x |], b as [y |], c as [z |]; simpl;
    try discriminate; try reflexivity.
  intros H1 H2. apply Z.leb_le in H1, H2. apply Z.leb_le. lia.
Qed.

Lemma insertByTimestamp_In (a x : Attendance.t) (l : list Attendance.t) :
  In x (insertByTimestamp a l) <-> x = a \/ In x l.
Proof.
  induction l as [| b l IH]; simpl; [intuition |].
  destruct (dateLeb _ _); simpl; [intuition |]. rewrite IH. intuition.
Qed.

Lemma insertByTimestamp_length (a : Attendance.t) (l : list Attendance.t) :
  length (insertByTimestamp a l) = S (length l).
Proof.
  induction l as [| b l IH]; simpl; [reflexivity |].
  destruct (dateLeb _ _); simpl; [| rewrite IH]; reflexivity.
Qed.

Lemma insertByTimestamp_sorted (a : Attendance.t) (l : list Attendance.t) :
  newestFirst l -> newestFirst (insertByTimestamp a l).
Proof.
  unfold newestFirst. induction l as [| b l IH]; intros H; simpl.
  - constructor; constructor.
  - inversion H as [| y ys Hs Hall]; subst.
    destruct (dateLeb (Attendance.timestamp b) (Attendance.timestamp a)) eqn:E.
    + constructor; [exact H |]. constructor; [exact E |].
      eapply Forall_impl; [| exact Hall]. intros c Hc. cbv beta in *.
      eapply dateLeb_trans; eassumption.
    + constructor; [apply IH; exact Hs |].
      apply Forall_forall. intros c Hc. apply insertByTimestamp_In in Hc.
      destruct Hc as [-> | Hc]; [apply dateLeb_total; exact E |].
      rewrite Forall_forall in Hall. apply Hall. exact Hc.
Qed.

Lemma sortByTimestampDesc_In (x : Attendance.t) (l : list Attendance.t) :
  In x (sortByTimestampDesc l) <-> In x l.
Proof.
  induction l as [| a l IH]; simpl; [tauto |].
  rewrite insertByTimestamp_In, IH. intuition.
Qed.

Lemma sortByTimestampDesc_length (l : list Attendance.t) :
  length (sortByTimestampDesc l) = length l.
Proof.
  induction l as [| a l IH]; simpl; [reflexivity |].
  rewrite insertByTimestamp_length, IH. reflexivity.
Qed.

Lemma sortByTimestampDesc_sorted (l : list Attendance.t) :
  newestFirst (sortByTimestampDesc l).
Proof.
  induction l as [| a l IH]; simpl; [constructor |].
  apply insertByTimestamp_sorted. exact IH.
Qed.

Lemma page_subset {A : Type} (n : nat) (l : list A) (x : A) :
  In x (firstn n l) -> In x l.
Proof.
  revert n. induction l as [| a l IH]; intros [| n]; simpl; try tauto.
  intros [-> | H]; [left; reflexivity | right; exact (IH n H)].
Qed.

Lemma filter_shorter {A : Type} (p : A -> bool) (l : list A) :
  (length (filter p l) <= length l)%nat.
Proof.
  induction l as [| a l IH]; simpl; [lia |]. destruct (p a); simpl; lia.
Qed.

Lemma newestFirst_firstn (n : nat) (l : list Attendance.t) :
  newestFirst l -> newestFirst (firstn n l).
Proof.
  unfold newestFirst. revert n. induction l as [| a l IH]; intros [| n] H; simpl;
    try constructor.
  - inversion H; subst. apply IH. assumption.
  - inversion H as [| y ys Hs Hall]; subst.
    apply Forall_forall. intros c Hc. rewrite Forall_forall in Hall.
    apply Hall. eapply page_subset. exact Hc.
Qed.

Lemma formatted_records (db : Db) (l : list Attendance.t) :
  map te_record (flat_map (formatRecord db) l)
  = filter (fun a => match Student_findById db (Attendance.studentRef a) with
                     | Some _ => true
                     | None => false
                     end) l.
Proof.
  induction l as [| a l IH]; simpl; [reflexivity |].
  unfold formatRecord at 1.
  destruct (Student_findById db (Attendance.studentRef a)); simpl;
    rewrite IH; reflexivity.
Qed.

Lemma newestFirst_filter (p : Attendance.t -> bool) (l : list Attendance.t) :
  newestFirst l -> newestFirst (filter p l).
Proof.
  unfold newestFirst. induction l as [| a l IH]; intros H; simpl; [constructor |].
  inversion H as [| y ys Hs Hall]; subst.
  destruct (p a); [| apply IH; exact Hs].
  constructor; [apply IH; exact Hs |].
  apply Forall_forall. intros c Hc. apply filter_In in Hc.
  rewrite Forall_forall in Hall. apply Hall. tauto.
Qed.

Lemma formatted_In (db : Db) (l : list Attendance.t) (e : TodayEntry) :
  In e (flat_map (formatRecord db) l) <->
  exists s, In (te_record e) l
            /\ Student_findById db (Attendance.studentRef (te_record e)) = Some s
            /\ e = mkTodayEntry (te_record e) (Student._id s) (Student.fullName s)
                     (Student.rollNo s).
Proof.
  rewrite in_flat_map. unfold formatRecord. split.
  - intros (a & Ha & He).
    destruct (Student_findById db (Attendance.studentRef a)) as [s |] eqn:F;
      [| destruct He].
    destruct He as [<- | []]. cbn [te_record]. exists s. auto.
  - intros (s & Hin & F & E). exists (te_record e). split; [exact Hin |].
    rewrite F. left. symmetry. exact E.
Qed.

(** X14.  For a course identifier, today's attendance is a list of at
    most 100 entries, most recent first.  Each entry is a record of the
    ledger for that course and the current session day whose student
    resolves, shown with that student's identifier, name and roll
    number; records whose student does not resolve are left out.  When
    the course has at most 100 records today, every record whose
    student resolves is listed. *)
Theorem X14_today_attendance_page (env : Env) (clk : Clock)
    (courseId : ObjectId) (db : Db) :
  falsy courseId = false ->
  let day := startOfDay env (clk 0%nat) in
  exists entries,
    todayAttendance env clk courseId db = TodayAttendance entries
    /\ (length entries <= 100)%nat
    /\ newestFirst (map te_record entries)
    /\ (forall e, In e entries ->
          In (te_record e) (attendances db)
          /\ Attendance.courseRef (te_record e) = courseId
          /\ Attendance.sessionDate (te_record e) = day
          /\ exists s,
               Student_findById db (Attendance.studentRef (te_record e)) = Some s
               /\ te_studentId e = Student._id s
               /\ te_fullName e = Student.fullName s
               /\ te_rollNo e = Student.rollNo s)
    /\ ((length (Attendance_find_course db courseId day) <= 100)%nat ->
        forall a s,
          In a (attendances db) ->
          Attendance.courseRef a = courseId ->
          Attendance.sessionDate a = day ->
          Student_findById db (Attendance.studentRef a) = Some s ->
          In (mkTodayEntry a (Student._id s) (Student.fullName s) (Student.rollNo s))
             entries).
Proof.
  intros Hc day. unfold todayAttendance. rewrite Hc. fold day.
  set (found := Attendance_find_course db courseId day).
  set (page := firstn 100 (sortByTimestampDesc found)).
  exists (flat_map (formatRecord db) page).
  split; [reflexivity |]. split.
  - rewrite <- (length_map te_record), formatted_records.
    eapply Nat.le_trans; [apply filter_shorter |].
    unfold page. apply firstn_le_length.
  - split.
    + rewrite formatted_records. apply newestFirst_filter.
      apply newestFirst_firstn, sortByTimestampDesc_sorted.
    + split.
      * intros e He. apply formatted_In in He.
        destruct He as (s & Hin & F & E).
        unfold page in Hin. apply page_subset in Hin.
        apply (proj1 (sortByTimestampDesc_In _ _)) in Hin.
        unfold found, Attendance_find_course in Hin.
        apply filter_In in Hin. destruct Hin as [Hin K].
        apply andb_true_iff in K. destruct K as [Kc Kd].
        apply String.eqb_eq in Kc. apply dateEqb_eq in Kd.
        split; [exact Hin |]. split; [exact Kc |]. split; [exact Kd |].
        exists s. rewrite E. cbn. auto.
      * intros Hsmall a s Ha Ec Ed F. apply formatted_In.
        exists s. cbn [te_record]. split; [| split; [exact F | reflexivity]].
        unfold page. rewrite firstn_all2
          by (rewrite sortByTimestampDesc_length; exact Hsmall).
        apply sortByTimestampDesc_In. unfold found, Attendance_find_course.
        apply filter_In. split; [exact Ha |].
        rewrite Ec, Ed, String.eqb_refl, dateEqb_refl. reflexivity.
Qed.

(** X14 on a ledger with two manual marks of one course. *)
Lemma X14_today_attendance_page_witness :
  let db := st_db (run utcEnv
                     [MarkManual noon (mkManualBody "A" "c1" "k1" "present");
                      MarkManual noon (mkManualBody "B" "c1" "k1" "late")]
                     (initialState (rosterOf "k1" 2))) in
  exists entries,
    todayAttendance utcEnv noon "c1" db = TodayAttendance entries
    /\ (length entries <= 100)%nat.
Proof.
  cbv zeta.
  destruct (X14_today_attendance_page utcEnv noon "c1"
              (st_db (run utcEnv
                        [MarkManual noon (mkManualBody "A" "c1" "k1" "present");
                         MarkManual noon (mkManualBody "B" "c1" "k1" "late")]
                        (initialState (rosterOf "k1" 2)))) eq_refl)
    as (entries & E & L & _).
  exists entries. split; [exact E | exact L].
Defined.

(** X15.  A biometric mark shows up in today's attendance: after a
    request that is answered 200, on a day on which the course had
    fewer than 100 records, the list of the course for that day holds
    the new record together with the student's name and roll number. *)
Theorem X15_new_mark_is_listed_today (env : Env) (clk clk' : Clock)
    (body : MarkBody) (session : Session) (db : Db) (student : Student.t) :
  falsy (mb_studentId body) = false ->
  falsy (mb_courseId body) = false ->
  falsy (mb_classId body) = false ->
  Attendance_findOne db (mb_studentId body) (mb_courseId body)
    (startOfDay env (clk 0%nat)) = None ->
  Student_findById db (mb_studentId body) = Some student ->
  (length (Attendance_find_course db (mb_courseId body)
             (startOfDay env (clk 0%nat))) < 100)%nat ->
  startOfDay env (clk' 0%nat) = startOfDay env (clk 0%nat) ->
  exists record session1 db1 task entries,
    markAttendance env clk body session db
      = (Marked record (Student.fullName student) (Student.rollNo student),
         session1, db1, task)
    /\ todayAttendance env clk' (mb_courseId body) db1 = TodayAttendance entries
    /\ In (mkTodayEntry record (Student._id student) (Student.fullName student)
             (Student.rollNo student)) entries.
Proof.
  intros H1 H2 H3 Hnone Hstu Hsmall Hday.
  rewrite (markAttendance_fresh env clk body session db student H1 H2 H3 Hnone Hstu).
  set (record := biometricDoc body _ _ _ _).
  set (db1 := {| attendances := (attendances db ++ [record])%list;
                 nextId := S (nextId db);
                 students := students db;
                 settings := _ |}).
  exists record. do 2 eexists. exists (fusionTask env body student).
  unfold todayAttendance. rewrite H2, Hday.
  eexists. split; [reflexivity |]. split; [reflexivity |].
  apply formatted_In. exists student. cbn [te_record].
  assert (F1 : Student_findById db1 (Attendance.studentRef record) = Some student)
    by exact Hstu.
  split; [| split; [exact F1 | reflexivity]].
  assert (Found : Attendance_find_course db1 (mb_courseId body)
                    (startOfDay env (clk 0%nat))
                  = (Attendance_find_course db (mb_courseId body)
                       (startOfDay env (clk 0%nat)) ++ [record])%list).
  { unfold Attendance_find_course, db1. cbn [attendances].
    rewrite filter_app. cbn [filter].
    unfold record at 1 2. cbn [biometricDoc Attendance.courseRef Attendance.sessionDate].
    rewrite String.eqb_refl, dateEqb_refl. reflexivity. }
  rewrite firstn_all2.
  - apply sortByTimestampDesc_In. rewrite Found. apply in_or_app. right. left.
    reflexivity.
  - rewrite sortByTimestampDesc_length, Found, length_app. cbn [length]. lia.
Qed.

(** X15 for the first mark of a day. *)
Lemma X15_new_mark_is_listed_today_witness :
  exists record session1 db1 task entries,
    markAttendance utcEnv noon (mkMarkBody "s1" "c1" "k1" Undefined None)
      freshSession (emptyLedger [sampleStudent "s1" "k1" None])
      = (Marked record "Student s1" "s1", session1, db1, task)
    /\ todayAttendance utcEnv noon "c1" db1 = TodayAttendance entries
    /\ In (mkTodayEntry record "s1" "Student s1" "s1") entries.
Proof.
  apply (X15_new_mark_is_listed_today utcEnv noon noon
           (mkMarkBody "s1" "c1" "k1" Undefined None) freshSession
           (emptyLedger [sampleStudent "s1" "k1" None])
           (sampleStudent "s1" "k1" None));
    try reflexivity.
  simpl. lia.
Defined.

(* ================================================================= *)
(** ** The classes and courses of a teacher *)


Lemma Map_push_keys (m : list ClassEntry) (classId : ObjectId) (c : CourseSummary) :
  map ce_id (Map_push m classId c) = map ce_id m.
Proof.
  induction m as [| e m IH]; simpl; [reflexivity |].
  destruct (String.eqb (ce_id e) classId); simpl; [| rewrite IH]; reflexivity.
Qed.

Lemma Map_push_courses (m : list ClassEntry) (classId id : ObjectId)
    (c : CourseSummary) :
  coursesUnder (Map_push m classId c) id
  = (coursesUnder m id
     ++ (if String.eqb id classId && Map_has m classId then [c] else []))%list.
Proof.
  unfold coursesUnder, Map_has.
  induction m as [| e m IH]; simpl.
  - rewrite andb_false_r. reflexivity.
  - destruct (String.eqb (ce_id e) classId) eqn:E; simpl.
    + apply String.eqb_eq in E. destruct (String.eqb (ce_id e) id) eqn:E'.
      * apply String.eqb_eq in E'.
        replace (String.eqb id classId) with true
          by (symmetry; apply String.eqb_eq; congruence).
        reflexivity.
      * replace (String.eqb id classId) with false.
        { simpl. rewrite app_nil_r. reflexivity. }
        symmetry. apply String.eqb_neq. intros ->. rewrite E in E'.
        rewrite String.eqb_refl in E'. discriminate.
    + destruct (String.eqb (ce_id e) id) eqn:E'.
      * replace (String.eqb id classId) with false.
        { simpl. rewrite app_nil_r. reflexivity. }
        symmetry. apply String.eqb_neq. intros ->.
        apply String.eqb_eq in E'. rewrite E', String.eqb_refl in E. discriminate.
      * exact IH.
Qed.

Lemma Map_push_describes (m : list ClassEntry) (classId : ObjectId)
    (c : CourseSummary) (e : ClassEntry) :
  In e (Map_push m classId c) ->
  exists e0, In e0 m /\ forall k, describes k e0 -> describes k e.
Proof.
  induction m as [| x m IH]; simpl; [tauto |].
  destruct (String.eqb (ce_id x) classId); simpl.
  - intros [<- | H]; [| exists e; auto].
    exists x. split; [left; reflexivity |]. intros k D. exact D.
  - intros [<- | H]; [exists x; auto |].
    destruct (IH H) as (e0 & H0 & D). exists e0. auto.
Qed.

Lemma Map_has_keys (m : list ClassEntry) (id : ObjectId) :
  Map_has m id = existsb (String.eqb id) (map ce_id m).
Proof.
  unfold Map_has. induction m as [| e m IH]; simpl; [reflexivity |].
  rewrite IH, (String.eqb_sym (ce_id e) id). reflexivity.
Qed.

Lemma seen_In (seen : list ObjectId) (id : ObjectId) :
  existsb (String.eqb id) seen = true <-> In id seen.
Proof.
  rewrite existsb_exists. split.
  - intros (x & Hx & E). apply String.eqb_eq in E. subst x. exact Hx.
  - intros H. exists id. split; [exact H | apply String.eqb_refl].
Qed.

Lemma firstOccurrences_same_seen (ids : list ObjectId) :
  forall s1 s2, (forall x, In x s1 <-> In x s2) ->
                firstOccurrences s1 ids = firstOccurrences s2 ids.
Proof.
  induction ids as [| id ids IH]; intros s1 s2 H; simpl; [reflexivity |].
  assert (E : existsb (String.eqb id) s1 = existsb (String.eqb id) s2).
  { destruct (existsb (String.eqb id) s1) eqn:E1;
      destruct (existsb (String.eqb id) s2) eqn:E2; try reflexivity.
    - apply seen_In, H, seen_In in E1. congruence.
    - apply seen_In, H, seen_In in E2. congruence. }
  rewrite E. destruct (existsb (String.eqb id) s2).
  - apply IH. exact H.
  - f_equal. apply IH. intros x. simpl. rewrite H. tauto.
Qed.

Lemma firstOccurrences_In (ids : list ObjectId) :
  forall seen x, In x (firstOccurrences seen ids) <-> In x ids /\ ~ In x seen.
Proof.
  induction ids as [| id ids IH]; intros seen x; simpl; [tauto |].
  destruct (existsb (String.eqb id) seen) eqn:E.
  - apply seen_In in E. rewrite IH. split; [tauto |].
    intros [[-> | H] N]; tauto.
  - assert (N : ~ In id seen) by (intros H; apply seen_In in H; congruence).
    simpl. rewrite IH. simpl. split.
    + intros [<- | (H1 & H2)]; tauto.
    + intros [[-> | H1] H2]; [tauto |].
      destruct (string_dec id x) as [-> | D]; [tauto |]. right. tauto.
Qed.

Lemma firstOccurrences_NoDup (ids : list ObjectId) :
  forall seen, NoDup (firstOccurrences seen ids).
Proof.
  induction ids as [| id ids IH]; intros seen; simpl; [constructor |].
  destruct (existsb (String.eqb id) seen); [apply IH |].
  constructor; [| apply IH].
  intros H. apply firstOccurrences_In in H. simpl in H. tauto.
Qed.

Lemma coursesUnder_of_member (m : list ClassEntry) (e : ClassEntry) :
  NoDup (map ce_id m) -> In e m -> coursesUnder m (ce_id e) = ce_courses e.
Proof.
  unfold coursesUnder. induction m as [| x m IH]; simpl; intros N H; [tauto |].
  inversion N as [| y ys Hnotin N']; subst.
  destruct H as [-> | H]; [rewrite String.eqb_refl; reflexivity |].
  destruct (String.eqb (ce_id x) (ce_id e)) eqn:E; [| exact (IH N' H)].
  exfalso. apply Hnotin. apply String.eqb_eq in E. rewrite E.
  apply in_map. exact H.
Qed.

Lemma groupCourses_after_throw (l : list populated) :
  fold_left (fun acc course =>
               match acc with
               | Some m => groupCourse m course
               | None => None
               end) l None = None.
Proof. induction l as [| x l IH]; [reflexivity | exact IH]. Qed.

Lemma groupCourses_cons (pc : populated) (found : list populated)
    (m : list ClassEntry) :
  groupCourses (pc :: found) m
  = match groupCourse m pc with
    | Some m' => groupCourses found m'
    | None => None
    end.
Proof.
  unfold groupCourses. cbn [fold_left].
  destruct (groupCourse m pc); [reflexivity | apply groupCourses_after_throw].
Qed.

(** The loop of the teacher-data route, started from any map. *)
Lemma groupCourses_spec (found : list populated) :
  forall m,
    Forall resolved found ->
    exists out,
      groupCourses found m = Some out
      /\ map ce_id out
         = (map ce_id m
            ++ firstOccurrences (map ce_id m)
                 (map (fun pc => Course.classRef (fst pc)) found))%list
      /\ (forall id,
            coursesUnder out id
            = (coursesUnder m id
               ++ map (fun pc => summaryOf (fst pc))
                    (filter (fun pc => String.eqb (Course.classRef (fst pc)) id)
                            found))%list)
      /\ (forall e, In e out ->
            (exists e0, In e0 m /\ forall k, describes k e0 -> describes k e)
            \/ exists pc k, In pc found /\ snd pc = Some k /\ describes k e).
Proof.
  induction found as [| pc found IH]; intros m R.
  - exists m. cbn. split; [reflexivity |]. split; [rewrite app_nil_r; reflexivity |].
    split; [intros id; rewrite app_nil_r; reflexivity |].
    intros e He. left. exists e. auto.
  - inversion R as [| x xs (k & Hk & Ek) R']; subst.
    rewrite groupCourses_cons. unfold groupCourse. rewrite Hk.
    cbv zeta.
    set (classId := Class._id k) in *.
    set (fresh := {| ce_id := Class._id k; ce_name := Class.name k;
                     ce_semester := Class.semester k; ce_section := Class.section k;
                     ce_department := Class.department k;
                     ce_displayName :=
                       Class.name k ++ " " ++ showNumber (Class.semester k)
                       ++ " - " ++ Class.section k;
                     ce_courses := [] |}).
    set (m1 := if Map_has m classId then m else (m ++ [fresh])%list).
    set (m2 := Map_push m1 classId (summaryOf (fst pc))).
    destruct (IH m2 R') as (out & E & Keys & Courses & Desc).
    exists out. split; [exact E |].
    assert (Has1 : Map_has m1 classId = true).
    { unfold m1. destruct (Map_has m classId) eqn:H; [exact H |].
      unfold Map_has. rewrite existsb_app. cbn. fold classId.
      rewrite String.eqb_refl, orb_true_r. reflexivity. }
    assert (Keys2 : map ce_id m2 = map ce_id m1) by apply Map_push_keys.
    split; [| split].
    + rewrite Keys, Keys2. cbn [map firstOccurrences fst]. rewrite <- Ek.
      rewrite <- Map_has_keys. unfold m1.
      destruct (Map_has m classId) eqn:H; [reflexivity |].
      rewrite map_app. cbn [map ce_id fresh]. fold classId.
      rewrite <- app_assoc. cbn [app]. f_equal. f_equal.
      apply firstOccurrences_same_seen. intros x. rewrite in_app_iff. simpl. tauto.
    + intros id. rewrite Courses. unfold m2.
      rewrite Map_push_courses, Has1, andb_true_r. cbn [filter map].
      rewrite <- Ek, (String.eqb_sym classId id).
      assert (C1 : coursesUnder m1 id = coursesUnder m id).
      { unfold m1. destruct (Map_has m classId) eqn:H; [reflexivity |].
        unfold coursesUnder. destruct (find _ m) as [e |] eqn:F.
        - rewrite (find_before _ m [fresh] e F). reflexivity.
        - rewrite find_after_miss by exact F. cbn. fold classId.
          destruct (String.eqb classId id); reflexivity. }
      rewrite C1, <- app_assoc.
      destruct (String.eqb id classId); reflexivity.
    + intros e He. destruct (Desc e He) as [(e0 & H0 & D0) | (pc' & k' & Hin & Hs & D)].
      * unfold m2 in H0. destruct (Map_push_describes _ _ _ _ H0) as (e1 & H1 & D1).
        unfold m1 in H1. destruct (Map_has m classId).
        -- left. exists e1. split; [exact H1 |]. intros k0 Dk. auto.
        -- apply in_app_or in H1. destruct H1 as [H1 | [<- | []]].
           ++ left. exists e1. split; [exact H1 |]. intros k0 Dk. auto.
           ++ right. exists pc, k. split; [left; reflexivity |]. split; [exact Hk |].
              apply D0, D1. unfold describes, fresh. cbn. repeat split.
      * right. exists pc', k'. split; [right; exact Hin |]. auto.
Qed.

Lemma describes_describedBy (k : Class.t) (e : ClassEntry) :
  describes k e -> describedBy k e.
Proof.
  intros (H1 & H2 & H3 & H4 & H5 & H6). unfold describedBy. tauto.
Qed.

(** X16.  When the class of every course of the teacher resolves, the
    answer lists each class once, in the order in which the teacher's
    courses first mention it.  Under each class stand exactly the
    teacher's courses of that class, in their order and never none,
    each as identifier, name and code; so every course of the teacher
    is listed under its own class.  The identifier, name, semester,
    section and department of an entry are those of the class
    document, and when the semester is a safe integer (at most
    2^53 - 1 in magnitude, so that the template string prints its
    decimal digits) the display name is "name semester - section". *)
Theorem X16_teacher_data_groups_courses_by_class (teacherId : ObjectId)
    (catalog : Catalog) :
  let found :=
    filter (fun c => String.eqb (Course.instructorRef c) teacherId)
           (courses catalog) in
  (forall c, In c found ->
     exists k, In k (classes catalog) /\ Class._id k = Course.classRef c) ->
  exists out,
    teacherData teacherId catalog = TeacherData out
    /\ NoDup (map ce_id out)
    /\ map ce_id out = firstOccurrences [] (map Course.classRef found)
    /\ (forall e, In e out ->
          ce_courses e
          = map summaryOf
              (filter (fun c => String.eqb (Course.classRef c) (ce_id e)) found)
          /\ ce_courses e <> []
          /\ exists k, In k (classes catalog) /\ describedBy k e)
    /\ (forall c, In c found ->
          exists e, In e out /\ ce_id e = Course.classRef c
                    /\ In (summaryOf c) (ce_courses e)).
Proof.
  intros found Hres.
  assert (R : Forall resolved (Course_find_populated catalog teacherId)).
  { unfold Course_find_populated. fold found. apply Forall_forall.
    intros pc Hpc. apply in_map_iff in Hpc. destruct Hpc as (c & <- & Hc).
    destruct (Hres c Hc) as (k & Hk & Ek). cbn [fst snd].
    destruct (find _ (classes catalog)) as [k' |] eqn:F.
    - exists k'. split; [reflexivity |]. apply find_some in F.
      apply String.eqb_eq. tauto.
    - exfalso. pose proof (find_none _ _ F k Hk) as N. cbv beta in N.
      rewrite Ek, String.eqb_refl in N. discriminate N. }
  destruct (groupCourses_spec _ [] R) as (out & E & Keys & Courses & Desc).
  unfold Course_find_populated in Keys. fold found in Keys.
  rewrite map_map in Keys. cbn [fst map app] in Keys.
  change (map (fun x : Course.t => Course.classRef x) found)
    with (map Course.classRef found) in Keys.
  assert (N : NoDup (map ce_id out)) by (rewrite Keys; apply firstOccurrences_NoDup).
  assert (Under : forall id,
             coursesUnder out id
             = map summaryOf
                 (filter (fun c => String.eqb (Course.classRef c) id) found)).
  { intros id. rewrite Courses. cbn [coursesUnder find app].
    unfold Course_find_populated. fold found.
    clear. induction found as [| c l IH]; [reflexivity |].
    cbn [map filter fst]. destruct (String.eqb (Course.classRef c) id);
      cbn [map fst]; rewrite IH; reflexivity. }
  exists out. unfold teacherData. rewrite E.
  split; [reflexivity |]. split; [exact N |]. split; [exact Keys |]. split.
  - intros e He.
    assert (C : ce_courses e
                = map summaryOf
                    (filter (fun c => String.eqb (Course.classRef c) (ce_id e)) found)).
    { rewrite <- Under. symmetry. apply coursesUnder_of_member; assumption. }
    split; [exact C |]. split.
    + assert (K : In (ce_id e) (map Course.classRef found)).
      { apply (in_map ce_id) in He. rewrite Keys in He.
        apply firstOccurrences_In in He. tauto. }
      apply in_map_iff in K. destruct K as (c & Ec & Hc).
      rewrite C. intros Z.
      assert (Hin : In (summaryOf c)
                      (map summaryOf
                         (filter (fun c => String.eqb (Course.classRef c) (ce_id e))
                                 found))).
      { apply in_map. apply filter_In. split; [exact Hc |].
        rewrite Ec. apply String.eqb_refl. }
      rewrite Z in Hin. destruct Hin.
    + destruct (Desc e He) as [(e0 & [] & _) | (pc & k & Hpc & Hs & D)].
      exists k. split; [| exact (describes_describedBy k e D)].
      unfold Course_find_populated in Hpc. apply in_map_iff in Hpc.
      destruct Hpc as (c & <- & _). cbn [snd] in Hs.
      apply find_some in Hs. tauto.
  - intros c Hc.
    assert (K : In (Course.classRef c) (map ce_id out)).
    { rewrite Keys. apply firstOccurrences_In. split; [apply in_map; exact Hc | tauto]. }
    apply in_map_iff in K. destruct K as (e & Ee & He).
    exists e. split; [exact He |]. split; [exact Ee |].
    rewrite <- (coursesUnder_of_member out e N He), Under.
    apply in_map. apply filter_In. split; [exact Hc |].
    rewrite Ee. apply String.eqb_refl.
Qed.

(** X16 for the three courses of teacher "t1" over two classes. *)
Lemma X16_teacher_data_groups_courses_by_class_witness :
  exists out,
    teacherData "t1" sampleCatalog = TeacherData out
    /\ map ce_id out = ["k1"; "k2"].
Proof.
  destruct (X16_teacher_data_groups_courses_by_class "t1" sampleCatalog)
    as (out & E & _ & K & _).
  - intros c Hc.
    destruct (find (fun k => String.eqb (Class._id k) (Course.classRef c))
                (classes sampleCatalog)) as [k |] eqn:F.
    + apply find_some in F. destruct F as [F1 F2].
      exists k. split; [exact F1 | apply String.eqb_eq; exact F2].
    + vm_compute in Hc.
      destruct Hc as [<- | [<- | [<- | []]]]; vm_compute in F; discriminate F.
  - exists out. split; [exact E | exact K].
Defined.

Lemma groupCourses_fails_on_null (found : list populated) :
  forall m, Exists (fun pc => snd pc = None) found -> groupCourses found m = None.
Proof.
  induction found as [| pc found IH]; intros m H; [inversion H |].
  rewrite groupCourses_cons. inversion H as [x l Hx | x l Hl]; subst.
  - unfold groupCourse. rewrite Hx. reflexivity.
  - destruct (groupCourse m pc) as [m' |]; [apply (IH m' Hl) | reflexivity].
Qed.

(** X17.  One course whose class does not resolve fails the whole
    request: the answer is 500, whatever the other courses of the
    teacher are. *)
Theorem X17_teacher_data_fails_on_missing_class (teacherId : ObjectId)
    (catalog : Catalog) (c : Course.t) :
  In c (courses catalog) ->
  Course.instructorRef c = teacherId ->
  (forall k, In k (classes catalog) -> Class._id k <> Course.classRef c) ->
  teacherData teacherId catalog
  = TeacherDataError 500 "Cannot read properties of null (reading '_id')".
Proof.
  intros Hc Hi Hno. unfold teacherData.
  rewrite groupCourses_fails_on_null; [reflexivity |].
  apply Exists_exists. exists (c, None). split; [| reflexivity].
  unfold Course_find_populated. apply in_map_iff. exists c. split.
  - f_equal. destruct (find _ (classes catalog)) as [k |] eqn:F; [| reflexivity].
    apply find_some in F. destruct F as [Hk E]. apply String.eqb_eq in E.
    exfalso. exact (Hno k Hk E).
  - apply filter_In. split; [exact Hc |]. rewrite Hi. apply String.eqb_refl.
Qed.

(** X17 for a catalog whose only class has been removed. *)
Lemma X17_teacher_data_fails_on_missing_class_witness :
  teacherData "t1" {| classes := []; courses := courses sampleCatalog |}
  = TeacherDataError 500 "Cannot read properties of null (reading '_id')".
Proof.
  apply (X17_teacher_data_fails_on_missing_class "t1" _
           {| Course._id := "c1"; Course.name := "Algorithms"; Course.code := "CS301";
              Course.classRef := "k1"; Course.instructorRef := "t1" |}).
  - left. reflexivity.
  - reflexivity.
  - intros k [].
Defined.

(* ================================================================= *)
(** ** The settings routes *)

Lemma settingsGuard_passes (session : SettingsSession) :
  falsy (ss_userId session) = false ->
  ss_role session = "admin" \/ ss_role session = "teacher" ->
  settingsGuard session = None.
Proof.
  intros Hu Hr. unfold settingsGuard. rewrite Hu.
  destruct Hr as [-> | ->]; reflexivity.
Qed.

Lemma removeFirst_none {A : Type} (p : A -> bool) (l : list A) :
  find p l = None -> removeFirst p l = l.
Proof.
  induction l as [| x l IH]; simpl; [reflexivity |].
  destruct (p x); [discriminate |]. intros H. rewrite (IH H). reflexivity.
Qed.

Lemma removeFirst_other {A : Type} (p q : A -> bool) (l : list A) :
  (forall x, p x = true -> q x = false) ->
  filter q (removeFirst p l) = filter q l.
Proof.
  intros H. induction l as [| x l IH]; simpl; [reflexivity |].
  destruct (p x) eqn:P; simpl.
  - rewrite (H x P). reflexivity.
  - rewrite IH. reflexivity.
Qed.

Lemma settings_key_differs (u m u' m' : string) (s : Settings.t) :
  (u', m') <> (u, m) ->
  String.eqb (Settings.userId s) u && String.eqb (Settings.userModel s) m = true ->
  String.eqb (Settings.userId s) u' && String.eqb (Settings.userModel s) m' = false.
Proof.
  intros D H. apply andb_true_iff in H. destruct H as [H1 H2].
  apply String.eqb_eq in H1, H2. apply andb_false_iff.
  destruct (String.eqb (Settings.userId s) u') eqn:E1; [| auto].
  destruct (String.eqb (Settings.userModel s) m') eqn:E2; [| auto].
  apply String.eqb_eq in E1, E2. exfalso. apply D. congruence.
Qed.

(** X18.  GET /api/settings answers 401 for a session without user id
    or role and 403 for a role other than admin or teacher, and then
    leaves the store as it was.  For an admin or teacher it answers
    the first stored document of the user, leaving the store as it
    was, or appends one document with the default cut-off when the
    user has none.  A second GET answers the same document and changes
    nothing, and a store with at most one document per user stays
    so. *)
Theorem X18_get_settings_creates_at_most_once (env : Env)
    (session : SettingsSession) (db : Db) :
  (falsy (ss_userId session) || falsy (ss_role session) = true ->
   getSettings env session db = (SettingsError 401 "Not authenticated", db))
  /\ (falsy (ss_userId session) || falsy (ss_role session) = false ->
      ss_role session <> "admin" -> ss_role session <> "teacher" ->
      getSettings env session db = (SettingsError 403 "Access denied", db))
  /\ (falsy (ss_userId session) = false ->
      ss_role session = "admin" \/ ss_role session = "teacher" ->
      exists doc db1,
        getSettings env session db = (SettingsFound doc, db1)
        /\ Settings.userId doc = ss_userId session
        /\ Settings.userModel doc = settingsUserModel session
        /\ (forall found,
              Settings_findOne db (ss_userId session) (settingsUserModel session)
                = Some found -> doc = found /\ db1 = db)
        /\ (Settings_findOne db (ss_userId session) (settingsUserModel session)
              = None ->
            settings db1 = (settings db ++ [doc])%list
            /\ Settings.lateCutoffTime doc = defaultLateCutoffTime env)
        /\ attendances db1 = attendances db
        /\ students db1 = students db
        /\ getSettings env session db1 = (SettingsFound doc, db1)
        /\ (oneSettingsPerUser db -> oneSettingsPerUser db1)).
Proof.
  split; [| split].
  - intros H. unfold getSettings, settingsGuard. rewrite H. reflexivity.
  - intros H Ha Ht. unfold getSettings, settingsGuard. rewrite H.
    replace (String.eqb (ss_role session) "admin") with false
      by (symmetry; apply String.eqb_neq; exact Ha).
    replace (String.eqb (ss_role session) "teacher") with false
      by (symmetry; apply String.eqb_neq; exact Ht).
    reflexivity.
  - intros Hu Hr. unfold getSettings.
    rewrite (settingsGuard_passes session Hu Hr).
    set (u := ss_userId session). set (m := settingsUserModel session).
    destruct (Settings_findOne db u m) as [found |] eqn:F.
    + exists found, db. split; [reflexivity |].
      pose proof F as F'. unfold Settings_findOne in F'. apply find_some in F'.
      destruct F' as [_ K]. apply andb_true_iff in K. destruct K as [K1 K2].
      apply String.eqb_eq in K1, K2.
      split; [exact K1 |]. split; [exact K2 |].
      split; [intros f [= <-]; auto |]. split; [discriminate |].
      split; [reflexivity |]. split; [reflexivity |].
      split; [rewrite F; reflexivity | auto].
    + cbn [Settings_create]. do 2 eexists. split; [reflexivity |].
      split; [reflexivity |]. split; [reflexivity |].
      split; [discriminate |]. split; [auto |].
      split; [reflexivity |]. split; [reflexivity |]. split.
      * unfold Settings_findOne in *. cbn [settings].
        rewrite find_after_miss by exact F.
        cbn [find Settings.userId Settings.userModel].
        rewrite !String.eqb_refl. reflexivity.
      * intros One u' m'. specialize (One u' m'). cbn [settings].
        rewrite filter_app, length_app. cbn [filter Settings.userId Settings.userModel].
        destruct (String.eqb u u' && String.eqb m m') eqn:K; [| simpl; lia].
        apply andb_true_iff in K. destruct K as [K1 K2].
        apply String.eqb_eq in K1, K2. subst u' m'.
        unfold Settings_findOne in F.
        assert (Z : filter (fun s => String.eqb (Settings.userId s) u
                                     && String.eqb (Settings.userModel s) m)
                      (settings db) = []).
        { apply filter_nil_iff. intros x Hx. exact (find_none _ _ F x Hx). }
        rewrite Z. simpl. lia.
Qed.

(** X18 for a teacher whose store is empty. *)
Lemma X18_get_settings_creates_at_most_once_witness :
  exists doc db1,
    getSettings utcEnv teacherOfSettings (emptyLedger []) = (SettingsFound doc, db1)
    /\ getSettings utcEnv teacherOfSettings db1 = (SettingsFound doc, db1).
Proof.
  destruct (proj2 (proj2 (X18_get_settings_creates_at_most_once utcEnv
                            teacherOfSettings (emptyLedger [])))
              eq_refl (or_intror eq_refl))
    as (doc & db1 & E & _ & _ & _ & _ & _ & _ & Again & _).
  exists doc, db1. split; [exact E | exact Again].
Defined.

(** X19.  For an admin or teacher whose store holds at most one
    document per user, a reset replaces the user's document: afterwards
    the user has exactly one document, it carries the default cut-off,
    it is the one the answer shows and the one GET /api/settings then
    answers; the documents of every other user and user model are
    untouched, and the store still holds at most one document per
    user. *)
Theorem X19_reset_restores_the_default (env : Env) (session : SettingsSession)
    (db : Db) :
  falsy (ss_userId session) = false ->
  ss_role session = "admin" \/ ss_role session = "teacher" ->
  oneSettingsPerUser db ->
  exists doc db1,
    resetSettings env session db = (SettingsFound doc, db1)
    /\ Settings.lateCutoffTime doc = defaultLateCutoffTime env
    /\ settingsOf db1 (ss_userId session) (settingsUserModel session) = [doc]
    /\ getSettings env session db1 = (SettingsFound doc, db1)
    /\ (forall userId userModel,
          (userId, userModel) <> (ss_userId session, settingsUserModel session) ->
          settingsOf db1 userId userModel = settingsOf db userId userModel)
    /\ attendances db1 = attendances db
    /\ students db1 = students db
    /\ oneSettingsPerUser db1.
Proof.
  intros Hu Hr One. unfold resetSettings.
  rewrite (settingsGuard_passes session Hu Hr).
  set (u := ss_userId session). set (m := settingsUserModel session).
  set (mine := fun s => String.eqb (Settings.userId s) u
                        && String.eqb (Settings.userModel s) m).
  cbn [Settings_create Settings_deleteOne settings attendances nextId students].
  fold mine.
  set (doc := {| Settings.userId := u; Settings.userModel := m;
                 Settings.lateCutoffTime := defaultLateCutoffTime env |}).
  assert (Gone : filter mine (removeFirst mine (settings db)) = []).
  { pose proof (One u m) as O. fold mine in O.
    destruct (find mine (settings db)) as [old |] eqn:F.
    - pose proof F as F'. apply find_some in F'. destruct F' as [_ K].
      pose proof (removeFirst_filter mine mine (settings db) old F K) as L.
      apply length_zero_iff_nil. lia.
    - rewrite (removeFirst_none mine _ F).
      apply filter_nil_iff. intros x Hx. exact (find_none _ _ F x Hx). }
  assert (Mine : mine doc = true)
    by (unfold mine, doc; cbn; rewrite !String.eqb_refl; reflexivity).
  assert (Others : forall u' m', (u', m') <> (u, m) ->
            filter (fun s => String.eqb (Settings.userId s) u'
                             && String.eqb (Settings.userModel s) m')
                   (removeFirst mine (settings db) ++ [doc])
            = filter (fun s => String.eqb (Settings.userId s) u'
                               && String.eqb (Settings.userModel s) m')
                     (settings db)).
  { intros u' m' D. rewrite filter_app. cbn [filter].
    rewrite (settings_key_differs u m u' m' doc D Mine), app_nil_r.
    apply removeFirst_other. intros x Hx.
    exact (settings_key_differs u m u' m' x D Hx). }
  exists doc. eexists. split; [reflexivity |].
  split; [reflexivity |]. split.
  { unfold settingsOf. cbn [settings]. fold mine.
    rewrite filter_app, Gone. cbn [filter app]. rewrite Mine. reflexivity. }
  split.
  { unfold getSettings. rewrite (settingsGuard_passes session Hu Hr).
    fold u. fold m. unfold Settings_findOne. cbn [settings]. fold mine.
    rewrite find_after_miss.
    - cbn [find]. rewrite Mine. reflexivity.
    - destruct (find mine (removeFirst mine (settings db))) as [x |] eqn:F;
        [| reflexivity].
      apply find_some in F.
      pose proof (proj1 (filter_nil_iff _ _) Gone x (proj1 F)). destruct F. congruence. }
  split.
  { intros u' m' D. unfold settingsOf. cbn [settings]. apply Others. exact D. }
  split; [reflexivity |]. split; [reflexivity |].
  intros u' m'. cbn [settings].
  destruct (string_dec u' u) as [-> | Du].
  - destruct (string_dec m' m) as [-> | Dm].
    + fold mine. rewrite filter_app, Gone. cbn [filter app]. rewrite Mine.
      simpl. lia.
    + rewrite Others by congruence. apply One.
  - rewrite Others by congruence. apply One.
Qed.

(** X19 for a teacher whose document carries the cut-off "10:30". *)
Lemma X19_reset_restores_the_default_witness :
  let db := {| attendances := []; nextId := 0; students := [];
               settings := [ {| Settings.userId := "t1";
                                Settings.userModel := "Teacher";
                                Settings.lateCutoffTime := "10:30" |} ] |} in
  exists doc db1,
    resetSettings utcEnv teacherOfSettings db = (SettingsFound doc, db1)
    /\ Settings.lateCutoffTime doc = "09:00".
Proof.
  cbv zeta.
  destruct (X19_reset_restores_the_default utcEnv teacherOfSettings
              {| attendances := []; nextId := 0; students := [];
                 settings := [ {| Settings.userId := "t1";
                                  Settings.userModel := "Teacher";
                                  Settings.lateCutoffTime := "10:30" |} ] |}
              eq_refl (or_intror eq_refl))
    as (doc & db1 & E & D & _).
  - intros u m. cbn [settings filter Settings.userId Settings.userModel].
    destruct (String.eqb "t1" u && String.eqb "Teacher" m); cbn [length]; lia.
  - exists doc, db1. split; [exact E | exact D].
Defined.

(** X20.  The settings route and the marking route meet on the same
    document: when the marking session names the same user and its
    user model ('Teacher' when unset) is the one the settings route
    derives from the role, the document that GET /api/settings answers
    is the one a marking request loads into an empty cache, and loading
    it creates nothing. *)
Theorem X20_marking_loads_the_settings_route_document (env : Env)
    (ssession : SettingsSession) (session : Session) (db : Db) :
  falsy (ss_userId ssession) = false ->
  ss_role ssession = "admin" \/ ss_role ssession = "teacher" ->
  sess_userId session = ss_userId ssession ->
  markingUserModel session = settingsUserModel ssession ->
  cachedSettings session = None ->
  exists doc db1,
    getSettings env ssession db = (SettingsFound doc, db1)
    /\ fst (fst (loadSettings env session db1)) = doc
    /\ snd (loadSettings env session db1) = db1
    /\ cachedSettings (snd (fst (loadSettings env session db1))) = Some doc.
Proof.
  intros Hu Hr Eu Em Hc.
  assert (G : forall d doc d1,
             getSettings env ssession d = (SettingsFound doc, d1) ->
             Settings_findOne d1 (ss_userId ssession) (settingsUserModel ssession)
             = Some doc).
  { intros d doc d1. unfold getSettings.
    rewrite (settingsGuard_passes ssession Hu Hr).
    destruct (Settings_findOne d _ _) as [found |] eqn:F.
    - intros [= <- <-]. exact F.
    - cbn [Settings_create]. intros [= <- <-].
      unfold Settings_findOne in *. cbn [settings].
      rewrite find_after_miss by exact F.
      cbn [find Settings.userId Settings.userModel].
      rewrite !String.eqb_refl. reflexivity. }
  destruct (getSettings env ssession db) as [r db1] eqn:E.
  assert (Shape : exists doc, r = SettingsFound doc).
  { revert E. unfold getSettings. rewrite (settingsGuard_passes ssession Hu Hr).
    destruct (Settings_findOne db _ _); cbn [Settings_create];
      intros [= <- _]; eexists; reflexivity. }
  destruct Shape as (doc & ->).
  exists doc, db1. split; [reflexivity |].
  pose proof (G db doc db1 E) as F.
  unfold loadSettings. fold (markingUserModel session).
  rewrite Hc, Eu, Em, F. cbn. auto.
Qed.

(** X20 for a teacher with an empty store. *)
Lemma X20_marking_loads_the_settings_route_document_witness :
  exists doc db1,
    getSettings utcEnv teacherOfSettings (emptyLedger []) = (SettingsFound doc, db1)
    /\ fst (fst (loadSettings utcEnv freshSession db1)) = doc.
Proof.
  destruct (X20_marking_loads_the_settings_route_document utcEnv
              teacherOfSettings freshSession (emptyLedger [])
              eq_refl (or_intror eq_refl) eq_refl eq_refl eq_refl)
    as (doc & db1 & E & L & _).
  exists doc, db1. split; [exact E | exact L].
Defined.

(* ================================================================= *)
(** ** One record per key, from an empty ledger *)

(** X21.  When requests are handled one at a time (a serial run: each
    handler, with all the storage calls it awaits, runs to completion
    before the next request or scheduled callback starts), the ledger
    holds at most one record per (student, course, day): from an empty
    ledger over a roster with distinct student identifiers, every
    serial run of marking, end-of-session, cancellation and
    descriptor-update steps whose marking requests name the class of
    the student they mark leaves at most one record per key.  Nothing
    is said of requests that are in flight at the same time. *)
Theorem X21_one_record_per_key_when_classes_agree (env : Env)
    (roster : list Student.t) (ops : list Op) :
  NoDup (map Student._id roster) ->
  filedAlong env ops (initialState roster) ->
  forall studentId courseId day,
    (recordsFor (st_db (run env ops (initialState roster))) studentId courseId day
     <= 1)%nat.
Proof.
  intros N Hops.
  exact (proj2 (uniqueness_when_classes_agree env ops (initialState roster)
                  (ledgerInvariant_initial roster N) Hops)).
Qed.

(** X21 for a mark, an end of session and a second mark of one class. *)
Lemma X21_one_record_per_key_when_classes_agree_witness :
  (recordsFor
     (st_db (run utcEnv
               [MarkManual noon (mkManualBody "A" "c1" "k1" "present");
                Finalize noon (mkEndSessionBody "k1" "c1" None);
                MarkBiometric noon (mkMarkBody "B" "c1" "k1" Undefined None)]
               (initialState (rosterOf "k1" 2))))
     "B" "c1" (startOfDay utcEnv 43200000) <= 1)%nat.
Proof.
  apply (X21_one_record_per_key_when_classes_agree utcEnv (rosterOf "k1" 2)).
  - vm_compute. repeat constructor; simpl; intuition discriminate.
  - cbn [filedAlong filedUnderOwnClass].
    repeat split;
      intros s Hs E; vm_compute in Hs;
      destruct Hs as [<- | [<- | []]]; try reflexivity; discriminate E.
Defined.

(* ================================================================= *)
(** ** The descriptor updates that get scheduled *)

Lemma markAttendance_task (env : Env) (clk : Clock) (body : MarkBody)
    (session : Session) (db : Db) (task : FusionTask) :
  snd (markAttendance env clk body session db) = Some task ->
  exists student,
    Student_findById db (mb_studentId body) = Some student
    /\ fusionTask env body student = Some task
    /\ exists record fullName rollNo,
         fst (fst (fst (markAttendance env clk body session db)))
         = Marked record fullName rollNo.
Proof.
  unfold markAttendance.
  destruct (falsy _ || falsy _ || falsy _); [discriminate |].
  destruct (Attendance_findOne _ _ _ _); [discriminate |].
  destruct (loadSettings_keeps env session db) as (_ & _ & Ks).
  destruct (loadSettings env session db) as [[cfg s1] d1]. cbn [snd] in Ks.
  unfold Student_findById. rewrite Ks.
  destruct (find _ (students db)) as [student |]; [| discriminate].
  cbn. intros H. exists student. split; [reflexivity |]. split; [exact H |].
  do 3 eexists. reflexivity.
Qed.

(** X22.  The gate in front of the descriptor update lets through
    only a stored and an observed descriptor of 128 components each.
    So along every run whose scheduled updates carry such vectors at
    the start (in particular when nothing is scheduled), each pending
    update carries two vectors of 128 components, and the vector it
    will hand to the student update has 128 components as well. *)
Theorem X22_scheduled_updates_keep_128_dimensions (env : Env) (ops : list Op) :
  forall st,
    (forall task, In task (st_pending st) ->
       length (ft_existingDescriptor task) = 128%nat
       /\ length (ft_faceDescriptor task) = 128%nat) ->
    forall task, In task (st_pending (run env ops st)) ->
      length (ft_existingDescriptor task) = 128%nat
      /\ length (ft_faceDescriptor task) = 128%nat
      /\ length (fuse alpha (ft_existingDescriptor task) (ft_faceDescriptor task))
         = 128%nat.
Proof.
  assert (Step : forall op st,
             (forall task, In task (st_pending st) ->
                length (ft_existingDescriptor task) = 128%nat
                /\ length (ft_faceDescriptor task) = 128%nat) ->
             forall task, In task (st_pending (snd (step env op st))) ->
               length (ft_existingDescriptor task) = 128%nat
               /\ length (ft_faceDescriptor task) = 128%nat).
  { intros op st Inv task. destruct op as [clk body | clk body | clk body | id | now];
      cbn [step].
    - destruct (markAttendance env clk body (st_session st) (st_db st))
        as [[[r s1] d1] t] eqn:E.
      cbn [snd st_pending]. intros H. apply in_app_or in H.
      destruct H as [H | H]; [exact (Inv task H) |].
      destruct t as [t |]; [| destruct H]. destruct H as [<- | []].
      destruct (markAttendance_task env clk body (st_session st) (st_db st) t)
        as (student & _ & F & _); [rewrite E; reflexivity |].
      destruct (fusionTask_dimensions env body student t F) as (L1 & L2 & _).
      auto.
    - destruct (manualMarkAttendance env clk body (st_db st)). exact (Inv task).
    - destruct (endSession env clk body (st_db st)). exact (Inv task).
    - destruct (cancelAttendance id (st_db st)). exact (Inv task).
    - destruct (st_pending st) as [| t rest] eqn:P;
        [cbn [snd]; rewrite P; exact (Inv task) |].
      cbn [snd st_pending]. intros H. apply Inv. right. exact H. }
  induction ops as [| op ops IH]; intros st Inv task H.
  - destruct (Inv task H) as [L1 L2]. split; [exact L1 |]. split; [exact L2 |].
    unfold fuse, normalize. rewrite length_map, blend_length. exact L1.
  - unfold run in H. cbn [fold_left] in H.
    apply (IH (snd (step env op st))); [apply Step; exact Inv | exact H].
Qed.

(** X22 for one biometric mark with confidence 1 and vectors of 128
    zeros. *)
Lemma X22_scheduled_updates_keep_128_dimensions_witness :
  let zeros := repeat 0%float 128 in
  Forall (fun task => length (ft_existingDescriptor task) = 128%nat)
    (st_pending
       (run utcEnv
          [MarkBiometric noon
             (mkMarkBody "s1" "c1" "k1" (Number (Fin 1%R)) (Some zeros))]
          (initialState [sampleStudent "s1" "k1" (Some zeros)]))).
Proof.
  cbv zeta. apply Forall_forall. intros task H.
  refine (proj1 (X22_scheduled_updates_keep_128_dimensions utcEnv _ _ _ task H)).
  intros t [].
Defined.
